(** * Project Glitch: rolling statistics, multi-market predictor, squad gate

    A shallow embedding of the feature-engineering and inference code of
    the repository ([train_glitch.py], [glitch_engine.py],
    [predict_glitch.py], [scout.py]), with the match buttons of the bot
    ([main.py]), and the properties of it that the specification states.

    Conventions of the embedding:
    - a pandas DataFrame of matches is the list of its rows, in index order;
    - Python [int] is [Z]; Python [float] is modelled by the exact rational
      it denotes, in [Q] (NaN in a feature column is [None]); the window
      size [n_games] is a natural number (the code only passes 5);
    - Python [str] is [string], the bytes of its UTF-8 encoding;
      [str.lower] lowers the ASCII letters of an ASCII string and is an
      argument of the model on other strings; a value that may not be a
      string (a JSON null) is a [Scout.Value];
    - a [defaultdict(list)] is a [gmap] read with the total lookup [!!!],
      whose default is the empty list;
    - the trained classifiers, the CSV file and the injury API are inputs
      of the functions that use them. *)

From Stdlib Require Import ZArith QArith Qminmax String Ascii Lia Lqa.
From stdpp Require Import base list strings gmap pretty.

Local Open Scope string_scope.
Local Open Scope list_scope.
Local Open Scope Z_scope.

(** ** Python and pandas primitives *)

Module Py.

(** [DataFrame.tail(n)] for [n >= 0]: the last [n] rows. *)
Definition tail {A} (n : nat) (l : list A) : list A :=
  drop (length l - n)%nat l.

(** The slice [lst[-n:]] for [n >= 0]: the last [n] elements, and the
    whole list when [n = 0] (since [-0 = 0]). *)
Definition last_n {A} (n : nat) (l : list A) : list A :=
  match n with
  | O => l
  | _ => drop (length l - n)%nat l
  end.

(** [sum] of a list of integers. *)
Definition sum (xs : list Z) : Z := foldl Z.add 0 xs.

(** [len] as an integer. *)
Definition len {A} (l : list A) : Z := Z.of_nat (length l).

(** Arithmetic mean of a non-empty list of integers, the sum divided by
    the count: [Series.mean] of an integer column, which the code only
    takes of a non-empty selection. *)
Definition mean (xs : list Z) : Q := (inject_Z (sum xs) / inject_Z (len xs))%Q.

(** [numpy.mean] of a list of integers: NaN ([None]) on the empty list,
    the arithmetic mean otherwise. *)
Definition np_mean (xs : list Z) : option Q :=
  match xs with
  | [] => None
  | _ => Some (mean xs)
  end.

(** [a > b] on floats. *)
Definition gt (a b : Q) : bool := negb (Qle_bool a b).

(** The built-in [max(iterable, key=...)] on a non-empty sequence: the
    running best is replaced only by a strictly greater key, so the first
    maximal item is returned. *)
Definition max_by {A} (key : A -> Q) (x : A) (xs : list A) : A :=
  foldl (fun best y => if gt (key y) (key best) then y else best) x xs.

(** [max] of the values of a probability row. *)
Definition max3 (p : Q * Q * Q) : Q :=
  let '(a, b, c) := p in max_by id a [b; c].
Definition max2 (p : Q * Q) : Q :=
  let '(a, b) := p in max_by id a [b].

(** [numpy.argmax] of a row of three: the first index of the maximum. *)
Definition argmax3 (p : Q * Q * Q) : nat :=
  let '(a, b, c) := p in
  fst (max_by snd (0%nat, a) [(1%nat, b); (2%nat, c)]).

(** Truth value of an optional integer ([None] and [0] are false). *)
Definition truthy (o : option Z) : bool :=
  match o with
  | Some v => negb (v =? 0)
  | None => false
  end.

(** [a or b] on optional integers. *)
Definition or_ (a b : option Z) : option Z := if truthy a then a else b.

(** [str.lower] on a string of ASCII characters: the letters A-Z are
    lowered. ([get_team_id] applies it to any name: there the 23 keys it
    is compared with are ASCII without a k and none ends in i, the two
    ASCII letters that a character outside ASCII can lower to, so lowering
    the bytes gives the answer of [str.lower].) *)
Definition lower_ascii (c : ascii) : ascii :=
  let n := nat_of_ascii c in
  if ((65 <=? n)%nat && (n <=? 90)%nat)%bool then ascii_of_nat (n + 32) else c.

Fixpoint lower (s : string) : string :=
  match s with
  | EmptyString => EmptyString
  | String c s' => String (lower_ascii c) (lower s')
  end.

(** A string without a byte above 127. *)
Fixpoint is_ascii (s : string) : bool :=
  match s with
  | EmptyString => true
  | String c s' => ((nat_of_ascii c <? 128)%nat && is_ascii s')%bool
  end.

(** [str.lower] on any string: on ASCII it lowers the letters; on a
    string with other characters (the Kelvin sign lowers to k) it is what
    the Unicode tables of the interpreter say, the argument
    [unicode_lower]. *)
Definition str_lower (unicode_lower : string -> string) (s : string) : string :=
  if is_ascii s then lower s else unicode_lower s.

(** [needle in hay] on strings: substring test. *)
Fixpoint contains (needle hay : string) : bool :=
  (String.prefix needle hay ||
   match hay with
   | EmptyString => false
   | String _ hay' => contains needle hay'
   end)%bool.

End Py.

(** A call either returns a value or propagates an exception. *)
Inductive Outcome (A : Type) :=
  | Return (r : A)
  | Raise (exc : string).
Arguments Return {A} r.
Arguments Raise {A} exc.

(** ** Data model *)

(** A row of [master_data.csv] after [pd.to_datetime(..., errors='coerce')]:
    a malformed date is [None] (NaT). *)
Record Match := mkMatch {
  Date : option Z;
  HomeTeam : string;
  AwayTeam : string;
  FTHG : Z;
  FTAG : Z;
  FTR : string
}.

Abbreviation DataFrame := (list Match).

(** The stats dictionary returned by [get_team_stats]. *)
Record TeamStats := mkStats {
  form : Z;
  avg_goals : Q;
  avg_conceded : Q;
  btts_rate : Q
}.

(** The neutral dictionary returned when a team has no match. *)
Definition default_stats : TeamStats :=
  {| form := 7; avg_goals := 13 # 10; avg_conceded := 12 # 10; btts_rate := 50%Q |}.

(** Row selections [df[df['HomeTeam'] == team]] and the like. *)
Definition home_rows (team : string) (df : DataFrame) : DataFrame :=
  filter (fun r => HomeTeam r = team) df.

Definition away_rows (team : string) (df : DataFrame) : DataFrame :=
  filter (fun r => AwayTeam r = team) df.

Definition team_rows (team : string) (df : DataFrame) : DataFrame :=
  filter (fun r => HomeTeam r = team \/ AwayTeam r = team) df.

(** One pass of the form loop of [get_team_stats]: what [form += ...] adds
    for one row of the window. *)
Definition row_points (team : string) (row : Match) : Z :=
  let is_home_game := bool_decide (HomeTeam row = team) in
  let result := FTR row in
  if is_home_game then
    if String.eqb result "H" then 3
    else if String.eqb result "D" then 1
    else 0
  else
    if String.eqb result "A" then 3
    else if String.eqb result "D" then 1
    else 0.

Definition form_points (team : string) (window : DataFrame) : Z :=
  foldl (fun form row => form + row_points team row) 0 window.

(** [((g['FTHG'] > 0) & (g['FTAG'] > 0))] as a 0/1 column. *)
Definition btts_flag (row : Match) : Z :=
  if ((0 <? FTHG row) && (0 <? FTAG row))%bool then 1 else 0.

(** The venue-specific goal block shared, line for line, by both copies of
    [get_team_stats]: (avg_goals, avg_conceded, btts_rate). *)
Definition venue_goal_stats (df : DataFrame) (team : string) (is_home : bool)
    (n_games : nat) : Q * Q * Q :=
  if is_home then
    let home_games := Py.tail n_games (home_rows team df) in
    if (0 <? Py.len home_games) then
      let avg_goals := Py.mean (FTHG <$> home_games) in
      let avg_conceded := Py.mean (FTAG <$> home_games) in
      let btts_count := Py.sum (btts_flag <$> home_games) in
      let btts_rate := (inject_Z btts_count / inject_Z (Py.len home_games) * 100)%Q in
      (avg_goals, avg_conceded, btts_rate)
    else (13 # 10, 12 # 10, 50%Q)
  else
    let away_games := Py.tail n_games (away_rows team df) in
    if (0 <? Py.len away_games) then
      let avg_goals := Py.mean (FTAG <$> away_games) in
      let avg_conceded := Py.mean (FTHG <$> away_games) in
      let btts_count := Py.sum (btts_flag <$> away_games) in
      let btts_rate := (inject_Z btts_count / inject_Z (Py.len away_games) * 100)%Q in
      (avg_goals, avg_conceded, btts_rate)
    else (11 # 10, 14 # 10, 50%Q).

(** The rest of [get_team_stats] once the window [venue_games] of the form
    loop is selected, the same in both copies: the neutral dictionary for
    an empty window, else the form of the window and the goal block. *)
Definition stats_of_window (df : DataFrame) (team : string) (is_home : bool)
    (n_games : nat) (venue_games : DataFrame) : TeamStats :=
  if (Py.len venue_games =? 0) then default_stats
  else
    let form := form_points team venue_games in
    let '(avg_goals, avg_conceded, btts_rate) :=
      venue_goal_stats df team is_home n_games in
    {| form := form; avg_goals := avg_goals;
       avg_conceded := avg_conceded; btts_rate := btts_rate |}.

(** ** scout.py *)

Module Scout.

(** A value of the JSON answer as the code uses it: a string, or a value
    of another type ([None] for a JSON null, a number, ...), which has no
    [lower] method and of which only the text that an f-string prints is
    kept ([None] prints as None). *)
Inductive Value :=
  | Str (s : string)
  | NonStr (text : string).

(** [f"{v}"]. *)
Definition format (v : Value) : string :=
  match v with
  | Str s => s
  | NonStr text => text
  end.

(** An entry of the list returned by [get_injuries]; only the keys that
    [calculate_squad_strength] reads are kept, and an absent key is
    [None] (the code reads them with [dict.get] and a default). *)
Record Injury := mkInjury {
  player_name : option Value;
  reason : option Value
}.

(** [key_players_db.get(team_id, [])]. *)
Definition key_players_db (team_id : Z) : list string :=
  match team_id with
  | 42 => ["Saka"; "Saliba"; "Odegaard"; "Rice"; "Havertz"]
  | 49 => ["Palmer"; "Jackson"; "Caicedo"; "Reece James"]
  | 50 => ["Haaland"; "De Bruyne"; "Rodri"; "Dias"]
  | 40 => ["Salah"; "Van Dijk"; "Alexander-Arnold"; "Mac Allister"]
  | 33 => ["Fernandes"; "Rashford"; "Casemiro"; "Martinez"]
  | 47 => ["Son"; "Maddison"; "Romero"; "Van de Ven"]
  | _ => []
  end.

Record Strength := mkStrength {
  score : Z;
  injuries_count : Z;
  reasons : list string;
  status : string
}.

(** [any(kp.lower() in player_name.lower() for kp in team_key_players)]:
    nothing is evaluated for an empty list of key players; otherwise
    [player_name.lower()] is an AttributeError on a name that is not a
    string. *)
Definition is_key (unicode_lower : string -> string)
    (team_key_players : list string) (player_name : Value) : Outcome bool :=
  match team_key_players with
  | [] => Return false
  | _ =>
      match player_name with
      | Str name =>
          Return (existsb (fun kp => Py.contains (Py.str_lower unicode_lower kp)
                                       (Py.str_lower unicode_lower name))
                    team_key_players)
      | NonStr _ => Raise "AttributeError"
      end
  end.

(** The body of the loop over [injuries], on the pair (score, reasons). *)
Definition injury_step (unicode_lower : string -> string)
    (team_key_players : list string)
    (acc : Z * list string) (injury : Injury) : Outcome (Z * list string) :=
  let '(score, reasons) := acc in
  let player_name := default (Str "") (player_name injury) in
  match is_key unicode_lower team_key_players player_name with
  | Raise exc => Raise exc
  | Return true =>
      Return (score - 15, reasons ++ ["⚠️ KEY PLAYER OUT: " +:+ format player_name])
  | Return false =>
      Return (score - 3,
              reasons ++
              ["❌ " +:+ format player_name +:+ " (" +:+
               format (default (Str "Injured") (reason injury)) +:+ ")"])
  end.

(** The loop [for injury in injuries], left at the first exception. *)
Fixpoint injury_loop (unicode_lower : string -> string)
    (team_key_players : list string)
    (acc : Z * list string) (injuries : list Injury) : Outcome (Z * list string) :=
  match injuries with
  | [] => Return acc
  | injury :: injuries =>
      match injury_step unicode_lower team_key_players acc injury with
      | Raise exc => Raise exc
      | Return acc => injury_loop unicode_lower team_key_players acc injuries
      end
  end.

Definition calculate_squad_strength (unicode_lower : string -> string)
    (team_id : Z) (injuries : list Injury) : Outcome Strength :=
  let team_key_players := key_players_db team_id in
  match injury_loop unicode_lower team_key_players (100, []) injuries with
  | Raise exc => Raise exc
  | Return (score, reasons) =>
      (* Ensure score doesn't go below 0 *)
      let score := Z.max 0 score in
      Return {| score := score;
                injuries_count := Py.len injuries;
                reasons := take 5 reasons;
                status := if (85 <=? score) then "STRONG"
                          else if (70 <=? score) then "MODERATE" else "WEAK" |}
  end.

(** What [get_lineups] returns for one side, and for a fixture. *)
Record Lineup := mkLineup {
  lineup_team : option string;
  lineup_team_id : option Z;
  lineup_formation : option string;
  lineup_starting_xi : list (option string);
  lineup_coach : option string
}.

Record Lineups := mkLineups {
  lineups_home : option Lineup;
  lineups_away : option Lineup;
  lineups_available : bool
}.

(** What the module takes from outside: the two HTTP helpers, as the
    answers they give (a failed request is the empty injury list, resp.
    the lineups with nothing available, as in the
    [except requests.RequestException] branches), and [str.lower] of the
    interpreter on strings that are not ASCII. *)
Record Api := mkApi {
  get_injuries : Z -> list Injury;
  get_lineups : Z -> Lineups;
  unicode_lower : string -> string
}.

(** One side of the dictionary built by [get_team_news]; the keys
    ['lineup'] and ['injuries_count'] are set only on some paths. *)
Record SideNews := mkSide {
  side_score : Z;
  side_status : string;
  side_injuries : list string;
  side_lineup : option Lineup;
  side_injuries_count : option Z
}.

Record News := mkNews {
  home : SideNews;
  away : SideNews;
  news_lineups_available : bool;
  should_skip : bool;
  skip_reason : option string
}.

(** The block [if team_id: ...] that fills one side from the injuries. *)
Definition check_injuries (api : Api) (team_id : option Z) (side : SideNews)
    : Outcome SideNews :=
  if Py.truthy team_id then
    let id := default 0 team_id in
    match calculate_squad_strength (unicode_lower api) id (get_injuries api id) with
    | Raise exc => Raise exc
    | Return strength =>
        Return {| side_score := score strength;
                  side_status := status strength;
                  side_injuries := reasons strength;
                  side_lineup := side_lineup side;
                  side_injuries_count := Some (injuries_count strength) |}
    end
  else Return side.

(** The end of [get_team_news], once both sides are filled. *)
Definition skip_decision (available : bool) (home away : SideNews) : News :=
  (* Determine if match should be skipped *)
  let min_score := Z.min (side_score home) (side_score away) in
  if (min_score <? 70) then
    let weak_team := if (side_score home <? side_score away) then "Home" else "Away" in
    {| home := home; away := away; news_lineups_available := available;
       should_skip := true;
       skip_reason :=
         Some (weak_team +:+ " team has too many key players missing (Squad Score: "
               +:+ pretty min_score +:+ "%)") |}
  else
    {| home := home; away := away; news_lineups_available := available;
       should_skip := false; skip_reason := None |}.

Definition get_team_news (api : Api) (fixture_id home_team_id away_team_id : option Z)
    : Outcome News :=
  (* Check lineups if fixture_id provided *)
  let '(available, home_lineup, away_lineup) :=
    if Py.truthy fixture_id then
      let lineups := get_lineups api (default 0 fixture_id) in
      (lineups_available lineups, lineups_home lineups, lineups_away lineups)
    else (false, None, None) in
  let home_team_id :=
    match home_lineup with
    | Some l => Py.or_ home_team_id (lineup_team_id l)
    | None => home_team_id
    end in
  let away_team_id :=
    match away_lineup with
    | Some l => Py.or_ away_team_id (lineup_team_id l)
    | None => away_team_id
    end in
  (* Check injuries for home team *)
  match check_injuries api home_team_id
          {| side_score := 100; side_status := "UNKNOWN"; side_injuries := [];
             side_lineup := home_lineup; side_injuries_count := None |} with
  | Raise exc => Raise exc
  | Return home =>
      (* Check injuries for away team *)
      match check_injuries api away_team_id
              {| side_score := 100; side_status := "UNKNOWN"; side_injuries := [];
                 side_lineup := away_lineup; side_injuries_count := None |} with
      | Raise exc => Raise exc
      | Return away => Return (skip_decision available home away)
      end
  end.

(** Team ID mapping, in the order of the dictionary literal. *)
Definition TEAM_IDS : list (string * Z) :=
  [("Arsenal", 42); ("Aston Villa", 66); ("Bournemouth", 35); ("Brentford", 55);
   ("Brighton", 51); ("Chelsea", 49); ("Crystal Palace", 52); ("Everton", 45);
   ("Fulham", 36); ("Ipswich", 57); ("Leicester", 46); ("Liverpool", 40);
   ("Man City", 50); ("Man United", 33); ("Manchester City", 50);
   ("Manchester United", 33); ("Newcastle", 34); ("Nottingham Forest", 65);
   ("Nott'm Forest", 65); ("Southampton", 41); ("Tottenham", 47);
   ("West Ham", 48); ("Wolves", 39)].

Definition get_team_id (team_name : string) : option Z :=
  (* Direct match *)
  match List.find (fun '(name, _) => String.eqb team_name name) TEAM_IDS with
  | Some (_, tid) => Some tid
  | None =>
      (* Partial match *)
      match List.find
              (fun '(name, _) =>
                 (Py.contains (Py.lower team_name) (Py.lower name) ||
                  Py.contains (Py.lower name) (Py.lower team_name))%bool)
              TEAM_IDS with
      | Some (_, tid) => Some tid
      | None => None
      end
  end.

End Scout.

(** ** The model bank and the files on disk *)

(** The class indices of the result model, [Target_Win] of training. *)
Inductive WinClass := Home | Draw | Away.

(** [features.json] and the three pickled classifiers, as what the code
    asks of them: [predict_proba(X)[0]] is a row of three, resp. two,
    probabilities; [predict(X)[0]] a class index. *)
Record ModelBank := mkModels {
  features : list string;
  win_predict_proba : list Q -> Q * Q * Q;
  win_predict : list Q -> WinClass;
  goals_predict_proba : list Q -> Q * Q;
  btts_predict_proba : list Q -> Q * Q;
  accuracy_win : Q;
  accuracy_goals : Q;
  accuracy_btts : Q
}.

(** What the two loaders return to a call, and the scout module: the
    [load_models()] of [predict_glitch.py] reads the four files at every
    call and gives (None, None), here [None], when one is missing, else
    the three models and the configuration; [load_historical_data()]
    gives [None] when [master_data.csv] is missing; [from scout import
    ...] fails with ImportError when [scout] is [None]. The loaders of
    [glitch_engine.py] keep what they read in module globals, where a
    dictionary that lacks a model can stay: they are [EngineCache] below,
    and the functions of [GlitchEngine] that take a world are the code
    that follows the two loads, for a load that returned all three
    models or (None, None). *)
Record World := mkWorld {
  load_models : option ModelBank;
  load_historical_data : option DataFrame;
  scout : option Scout.Api
}.

(** The feature dictionary built from the two stats dictionaries. *)
Definition feature_dict (home_stats away_stats : TeamStats) : list (string * Q) :=
  [("HomeTeam_Form", inject_Z (form home_stats));
   ("AwayTeam_Form", inject_Z (form away_stats));
   ("Home_Avg_Goals", avg_goals home_stats);
   ("Away_Avg_Goals", avg_goals away_stats);
   ("Home_Avg_Conceded", avg_conceded home_stats);
   ("Away_Avg_Conceded", avg_conceded away_stats);
   ("Home_BTTS_Rate", btts_rate home_stats);
   ("Away_BTTS_Rate", btts_rate away_stats)].

(** [pd.DataFrame([features])[feature_cols]]: the row in the column order
    of the schema; a column the dictionary lacks is a KeyError ([None]). *)
Definition prepare_features (home_stats away_stats : TeamStats)
    (feature_cols : list string) : option (list Q) :=
  mapM (fun col =>
          snd <$> List.find (fun '(name, _) => String.eqb col name)
                    (feature_dict home_stats away_stats))
       feature_cols.

(** ** glitch_engine.py *)

Module GlitchEngine.

(** The window the form loop iterates: venue rows, or all the team's rows
    when fewer than 3 venue rows were selected. *)
Definition venue_games (df : DataFrame) (team_name : string) (is_home : bool)
    (n_games : nat) : DataFrame :=
  let venue_games :=
    if is_home then Py.tail n_games (home_rows team_name df)
    else Py.tail n_games (away_rows team_name df) in
  if (Py.len venue_games <? 3) then Py.tail n_games (team_rows team_name df)
  else venue_games.

(** [get_team_stats(df, team_name, is_home, n_games=5)]; [df] is [None]
    when the history file is missing. *)
Definition get_team_stats (df : option DataFrame) (team_name : string)
    (is_home : bool) (n_games : nat) : TeamStats :=
  match df with
  | None => default_stats
  | Some df =>
      stats_of_window df team_name is_home n_games
        (venue_games df team_name is_home n_games)
  end.

Record WinMarket := mkWin {
  win_home : Q; win_draw : Q; win_away : Q;
  win_best : string; win_confidence : Q
}.
Record GoalsMarket := mkGoals {
  goals_under : Q; goals_over : Q;
  goals_best : string; goals_confidence : Q
}.
Record BttsMarket := mkBtts {
  btts_no : Q; btts_yes : Q;
  btts_best : string; btts_confidence : Q
}.
Record Predictions := mkPredictions {
  win : WinMarket; goals : GoalsMarket; btts : BttsMarket
}.
Record Safest := mkSafest { market : string; bet : string; confidence : Q }.

Record Result := mkResult {
  match_ : string;
  home_team : string;
  away_team : string;
  predictions : Predictions;
  safest_glitch : Safest;
  home_stats : TeamStats;
  away_stats : TeamStats;
  using_ml : bool
}.

(** [predict_match_heuristic(home_team, away_team)], on the history that
    [load_historical_data()] gives. *)
Definition predict_match_heuristic (w : World) (home_team away_team : string)
    : Result :=
  let df := load_historical_data w in
  let home_stats :=
    match df with
    | Some _ => get_team_stats df home_team true 5
    | None => {| form := 7; avg_goals := 13 # 10; avg_conceded := 12 # 10;
                 btts_rate := 50%Q |}
    end in
  let away_stats :=
    match df with
    | Some _ => get_team_stats df away_team false 5
    | None => {| form := 7; avg_goals := 11 # 10; avg_conceded := 14 # 10;
                 btts_rate := 50%Q |}
    end in
  (* Simple heuristic based on form *)
  let total_form := form home_stats + form away_stats in
  let total_form := if (total_form =? 0) then 1 else total_form in
  let home_strength := (inject_Z (form home_stats) / inject_Z total_form)%Q in
  let away_strength := (inject_Z (form away_stats) / inject_Z total_form)%Q in
  let predictions :=
    {| win :=
         {| win_home := (home_strength * 100 * (11 # 10))%Q;
            win_draw := 25%Q;
            win_away := (away_strength * 100 * (9 # 10))%Q;
            win_best := if Py.gt home_strength away_strength
                        then "Home Win" else "Away Win";
            win_confidence :=
              (Py.max_by id home_strength [away_strength] * 100)%Q |};
       goals :=
         {| goals_over := 50%Q;
            goals_under := 50%Q;
            goals_best :=
              if Py.gt (avg_goals home_stats + avg_goals away_stats)%Q (25 # 10)
              then "Over 2.5" else "Under 2.5";
            goals_confidence := 52%Q |};
       btts :=
         {| btts_yes := ((btts_rate home_stats + btts_rate away_stats) / 2)%Q;
            btts_no :=
              (100 - (btts_rate home_stats + btts_rate away_stats) / 2)%Q;
            btts_best := if Py.gt (btts_rate home_stats) 50%Q
                         then "BTTS Yes" else "BTTS No";
            btts_confidence := 55%Q |} |} in
  {| match_ := home_team +:+ " vs " +:+ away_team;
     home_team := home_team;
     away_team := away_team;
     predictions := predictions;
     safest_glitch :=
       {| market := "Match Result";
          bet := win_best (win predictions);
          confidence := win_confidence (win predictions) |};
     home_stats := home_stats;
     away_stats := away_stats;
     using_ml := false |}.

(** [predict_match_ml(home_team, away_team)] from what its two loads
    returned, (None, None) or the three models with the configuration;
    [EngineCache.predict_match_ml] is the function with the loads and
    the globals, and hands a complete dictionary to this one. *)
Definition predict_match_ml (w : World) (home_team away_team : string)
    : Outcome Result :=
  let df := load_historical_data w in
  match load_models w with
  | None =>
      (* If models not available, use fallback *)
      Return (predict_match_heuristic w home_team away_team)
  | Some models =>
      let home_stats := get_team_stats df home_team true 5 in
      let away_stats := get_team_stats df away_team false 5 in
      match prepare_features home_stats away_stats (features models) with
      | None => Raise "KeyError"
      | Some X =>
          let win_proba := win_predict_proba models X in
          let win :=
            {| win_home := (fst (fst win_proba) * 100)%Q;
               win_draw := (snd (fst win_proba) * 100)%Q;
               win_away := (snd win_proba * 100)%Q;
               win_best :=
                 nth (Py.argmax3 win_proba) ["Home Win"; "Draw"; "Away Win"] "";
               win_confidence := (Py.max3 win_proba * 100)%Q |} in
          let goals_proba := goals_predict_proba models X in
          let goals :=
            {| goals_under := (fst goals_proba * 100)%Q;
               goals_over := (snd goals_proba * 100)%Q;
               goals_best := if Py.gt (snd goals_proba) (fst goals_proba)
                             then "Over 2.5" else "Under 2.5";
               goals_confidence := (Py.max2 goals_proba * 100)%Q |} in
          let btts_proba := btts_predict_proba models X in
          let btts :=
            {| btts_no := (fst btts_proba * 100)%Q;
               btts_yes := (snd btts_proba * 100)%Q;
               btts_best := if Py.gt (snd btts_proba) (fst btts_proba)
                            then "BTTS Yes" else "BTTS No";
               btts_confidence := (Py.max2 btts_proba * 100)%Q |} in
          (* Find safest glitch: max over all_bets, key = confidence *)
          let safest :=
            Py.max_by snd ("Match Result", win_best win, win_confidence win)
              [("Goals", goals_best goals, goals_confidence goals);
               ("BTTS", btts_best btts, btts_confidence btts)] in
          Return
            {| match_ := home_team +:+ " vs " +:+ away_team;
               home_team := home_team;
               away_team := away_team;
               predictions := {| win := win; goals := goals; btts := btts |};
               safest_glitch :=
                 {| market := fst (fst safest);
                    bet := snd (fst safest);
                    confidence := snd safest |};
               home_stats := home_stats;
               away_stats := away_stats;
               using_ml := true |}
      end
  end.

(** [get_available_teams()], as the set it sorts. *)
Definition get_available_teams (w : World) : gset string :=
  match load_historical_data w with
  | None => ∅
  | Some df => list_to_set (HomeTeam <$> df) ∪ list_to_set (AwayTeam <$> df)
  end.

End GlitchEngine.


(** ** predict_glitch.py *)

Module PredictGlitch.

(** Here the fallback to all the team's rows is taken when fewer than
    [n_games] venue rows were selected. *)
Definition venue_games (df : DataFrame) (team_name : string) (is_home : bool)
    (n_games : nat) : DataFrame :=
  if is_home then
    let venue_games := Py.tail n_games (home_rows team_name df) in
    if (Py.len venue_games <? Z.of_nat n_games)
    then Py.tail n_games (team_rows team_name df)
    else venue_games
  else
    let venue_games := Py.tail n_games (away_rows team_name df) in
    if (Py.len venue_games <? Z.of_nat n_games)
    then Py.tail n_games (team_rows team_name df)
    else venue_games.

Definition get_team_stats (df : DataFrame) (team_name : string)
    (is_home : bool) (n_games : nat) : TeamStats :=
  stats_of_window df team_name is_home n_games
    (venue_games df team_name is_home n_games).

Record WinMarket := mkWin {
  win_prediction : string;
  win_probabilities : list (string * Q);
  win_best_prob : Q;
  win_best_bet : string;
  win_home : Q; win_draw : Q; win_away : Q
}.
Record GoalsMarket := mkGoals {
  goals_probabilities : list (string * Q);
  goals_best_prob : Q;
  goals_best_bet : string;
  goals_over : Q; goals_under : Q
}.
Record BttsMarket := mkBtts {
  btts_probabilities : list (string * Q);
  btts_best_prob : Q;
  btts_best_bet : string;
  btts_yes : Q; btts_no : Q
}.
Record Predictions := mkPredictions {
  win : WinMarket; goals : GoalsMarket; btts : BttsMarket
}.
Record Safest := mkSafest { market : string; bet : string; confidence : Q }.

(** The dictionary returned with ['skipped': False]. *)
Record Prediction := mkPrediction {
  home_team : string;
  away_team : string;
  predictions : Predictions;
  safest_glitch : Safest;
  home_stats : TeamStats;
  away_stats : TeamStats;
  model_accuracies : Q * Q * Q;
  squad_news : option Scout.News
}.

(** The dictionary returned with ['skipped': True]; it has no
    ['predictions'] and no ['safest_glitch'] key. *)
Record Skip := mkSkip {
  skip_home_team : string;
  skip_away_team : string;
  skip_reason : option string;
  skip_squad_news : Scout.News;
  skip_home_stats : TeamStats;
  skip_away_stats : TeamStats
}.

Inductive Result :=
  | Error (error : string)
  | Skipped (s : Skip)
  | Predicted (p : Prediction).

(** [result.get('predictions')]. *)
Definition get_predictions (r : Result) : option Predictions :=
  match r with
  | Predicted p => Some (predictions p)
  | _ => None
  end.

Definition win_label (c : WinClass) : string :=
  match c with
  | Home => "Home Win"
  | Draw => "Draw"
  | Away => "Away Win"
  end.

(** [predict_all_markets(home_team, away_team, check_squad=True)]. *)
Definition predict_all_markets (w : World) (home_team away_team : string)
    (check_squad : bool) : Outcome Result :=
  match load_models w with
  | None => Return (Error "Models not loaded. Run train_glitch.py first.")
  | Some models =>
  let feature_cols := features models in
  match load_historical_data w with
  | None => Return (Error "Historical data not found.")
  | Some df =>
  let home_stats := get_team_stats df home_team true 5 in
  let away_stats := get_team_stats df away_team false 5 in
  (* Check squad intelligence (injuries/suspensions) *)
  let squad_news :=
    if check_squad then
      match scout w with
      | None => None                   (* except ImportError: pass *)
      | Some api =>
          let home_id := Scout.get_team_id home_team in
          let away_id := Scout.get_team_id away_team in
          if (Py.truthy home_id || Py.truthy away_id)%bool
          then
            match Scout.get_team_news api None home_id away_id with
            | Return news => Some news
            | Raise _ => None          (* except Exception: print(...) *)
            end
          else None
      end
    else None in
  (* Check if match should be skipped *)
  let skipped :=
    match squad_news with
    | Some news =>
      if Scout.should_skip news then
        Some {| skip_home_team := home_team;
                skip_away_team := away_team;
                skip_reason := Scout.skip_reason news;
                skip_squad_news := news;
                skip_home_stats := home_stats;
                skip_away_stats := away_stats |}
      else None
    | None => None
    end in
  match skipped with
  | Some s => Return (Skipped s)
  | None =>
  match prepare_features home_stats away_stats feature_cols with
  | None => Raise "KeyError"
  | Some X =>
  (* Model 1: Match Result *)
  let win_proba := win_predict_proba models X in
  let win_pred := win_predict models X in
  let win :=
    {| win_prediction := win_label win_pred;
       win_probabilities :=
         [("Home Win", (fst (fst win_proba) * 100)%Q);
          ("Draw", (snd (fst win_proba) * 100)%Q);
          ("Away Win", (snd win_proba * 100)%Q)];
       win_best_prob := (Py.max3 win_proba * 100)%Q;
       win_best_bet :=
         nth (Py.argmax3 win_proba) ["Home Win"; "Draw"; "Away Win"] "";
       win_home := (fst (fst win_proba) * 100)%Q;
       win_draw := (snd (fst win_proba) * 100)%Q;
       win_away := (snd win_proba * 100)%Q |} in
  (* Model 2: Over/Under 2.5 Goals *)
  let goals_proba := goals_predict_proba models X in
  let goals :=
    {| goals_probabilities :=
         [("Under 2.5", (fst goals_proba * 100)%Q);
          ("Over 2.5", (snd goals_proba * 100)%Q)];
       goals_best_prob := (Py.max2 goals_proba * 100)%Q;
       goals_best_bet := if Py.gt (snd goals_proba) (fst goals_proba)
                         then "Over 2.5" else "Under 2.5";
       goals_over := (snd goals_proba * 100)%Q;
       goals_under := (fst goals_proba * 100)%Q |} in
  (* Model 3: BTTS *)
  let btts_proba := btts_predict_proba models X in
  let btts :=
    {| btts_probabilities :=
         [("No BTTS", (fst btts_proba * 100)%Q);
          ("BTTS", (snd btts_proba * 100)%Q)];
       btts_best_prob := (Py.max2 btts_proba * 100)%Q;
       btts_best_bet := if Py.gt (snd btts_proba) (fst btts_proba)
                        then "BTTS" else "No BTTS";
       btts_yes := (snd btts_proba * 100)%Q;
       btts_no := (fst btts_proba * 100)%Q |} in
  (* Find the SAFEST GLITCH (highest probability across all markets) *)
  let safest :=
    Py.max_by snd ("win", win_best_bet win, win_best_prob win)
      [("goals", goals_best_bet goals, goals_best_prob goals);
       ("btts", btts_best_bet btts, btts_best_prob btts)] in
  Return (Predicted
    {| home_team := home_team;
       away_team := away_team;
       predictions := {| win := win; goals := goals; btts := btts |};
       safest_glitch :=
         {| market := fst (fst safest);
            bet := snd (fst safest);
            confidence := snd safest |};
       home_stats := home_stats;
       away_stats := away_stats;
       model_accuracies :=
         (accuracy_win models, accuracy_goals models, accuracy_btts models);
       squad_news := squad_news |})
  end end end end.

(** The set [all_teams] that [main] and [list_teams] build. *)
Definition all_teams (df : DataFrame) : gset string :=
  list_to_set (HomeTeam <$> df) ∪ list_to_set (AwayTeam <$> df).

(** [print_prediction(result)], as far as it gets: it reads
    [result['home_team']] first, a KeyError on an error dictionary, then
    [result['predictions']], a KeyError on a skipped dictionary; a
    prediction it prints. *)
Definition print_prediction (result : Result) : Outcome Prediction :=
  match result with
  | Error _ => Raise "KeyError"
  | Skipped _ => Raise "KeyError"
  | Predicted p => Return p
  end.

(** The command-line entry point [main()], on [sys.argv]: the usage text,
    the "not found" message with the list of teams, or the prediction
    that [print_prediction] printed. *)
Inductive CliOutput :=
  | Usage
  | TeamNotFound (team : string) (available : gset string)
  | Printed (p : Prediction).

Definition main (w : World) (argv : list string) : Outcome CliOutput :=
  match argv with
  | _ :: home_team :: away_team :: _ =>
      (* Validate teams *)
      match load_historical_data w with
      | None => Raise "TypeError"
      | Some df =>
          if bool_decide (home_team ∉ all_teams df)
          then Return (TeamNotFound home_team (all_teams df))
          else if bool_decide (away_team ∉ all_teams df)
          then Return (TeamNotFound away_team (all_teams df))
          else
            (* Get predictions *)
            match predict_all_markets w home_team away_team true with
            | Raise exc => Raise exc
            | Return result =>
                match print_prediction result with
                | Raise exc => Raise exc
                | Return p => Return (Printed p)
                end
            end
      end
  | _ => Return Usage
  end.

End PredictGlitch.


(** ** train_glitch.py *)

Module TrainGlitch.

(** The seven tracking dictionaries of [calculate_rolling_stats]. *)
Record Trackers := mkTrackers {
  team_results : gmap string (list Z);
  home_goals : gmap string (list Z);
  home_conceded : gmap string (list Z);
  away_goals : gmap string (list Z);
  away_conceded : gmap string (list Z);
  home_btts : gmap string (list Z);
  away_btts : gmap string (list Z)
}.

Definition no_history : Trackers :=
  {| team_results := ∅; home_goals := ∅; home_conceded := ∅;
     away_goals := ∅; away_conceded := ∅; home_btts := ∅; away_btts := ∅ |}.

(** [d[team].append(v)] on a [defaultdict(list)]. *)
Definition append (d : gmap string (list Z)) (team : string) (v : Z)
    : gmap string (list Z) :=
  <[team := (d !!! team) ++ [v]]> d.

(** The eight new columns of a row; [None] is the initial NaN. *)
Record Features := mkFeatures {
  HomeTeam_Form : option Q;
  AwayTeam_Form : option Q;
  Home_Avg_Goals : option Q;
  Away_Avg_Goals : option Q;
  Home_Avg_Conceded : option Q;
  Away_Avg_Conceded : option Q;
  Home_BTTS_Rate : option Q;
  Away_BTTS_Rate : option Q
}.

Definition enough (n_games : nat) (l : list Z) : bool :=
  (Z.of_nat n_games <=? Py.len l).

(** "Calculate current stats BEFORE this match": the first half of the
    loop body, reading the trackers. *)
Definition current_stats (n_games : nat) (t : Trackers) (row : Match) : Features :=
  let home_team := HomeTeam row in
  let away_team := AwayTeam row in
  {| HomeTeam_Form :=
       if enough n_games (team_results t !!! home_team)
       then Some (inject_Z (Py.sum (Py.last_n n_games (team_results t !!! home_team))))
       else None;
     AwayTeam_Form :=
       if enough n_games (team_results t !!! away_team)
       then Some (inject_Z (Py.sum (Py.last_n n_games (team_results t !!! away_team))))
       else None;
     Home_Avg_Goals :=
       if enough n_games (home_goals t !!! home_team)
       then Py.np_mean (Py.last_n n_games (home_goals t !!! home_team))
       else None;
     Home_Avg_Conceded :=
       if enough n_games (home_goals t !!! home_team)
       then Py.np_mean (Py.last_n n_games (home_conceded t !!! home_team))
       else None;
     Home_BTTS_Rate :=
       if enough n_games (home_goals t !!! home_team)
       then (fun m => m * 100)%Q <$> Py.np_mean (Py.last_n n_games (home_btts t !!! home_team))
       else None;
     Away_Avg_Goals :=
       if enough n_games (away_goals t !!! away_team)
       then Py.np_mean (Py.last_n n_games (away_goals t !!! away_team))
       else None;
     Away_Avg_Conceded :=
       if enough n_games (away_goals t !!! away_team)
       then Py.np_mean (Py.last_n n_games (away_conceded t !!! away_team))
       else None;
     Away_BTTS_Rate :=
       if enough n_games (away_goals t !!! away_team)
       then (fun m => m * 100)%Q <$> Py.np_mean (Py.last_n n_games (away_btts t !!! away_team))
       else None |}.

(** "NOW update tracking with this match's results": the second half of
    the loop body. The two appends to [team_results] are sequential. *)
Definition update_tracking (t : Trackers) (row : Match) : Trackers :=
  let home_team := HomeTeam row in
  let away_team := AwayTeam row in
  let ftr := FTR row in
  let fthg := FTHG row in
  let ftag := FTAG row in
  let '(home_points, away_points) :=
    if String.eqb ftr "H" then (3, 0)
    else if String.eqb ftr "D" then (1, 1)
    else (0, 3) in
  let btts_occurred := if ((0 <? fthg) && (0 <? ftag))%bool then 1 else 0 in
  {| team_results :=
       append (append (team_results t) home_team home_points) away_team away_points;
     home_goals := append (home_goals t) home_team fthg;
     home_conceded := append (home_conceded t) home_team ftag;
     away_goals := append (away_goals t) away_team ftag;
     away_conceded := append (away_conceded t) away_team fthg;
     home_btts := append (home_btts t) home_team btts_occurred;
     away_btts := append (away_btts t) away_team btts_occurred |}.

(** [for idx, row in df.iterrows()]: each row leaves the loop with its
    eight columns filled from the trackers as they stand on entry. *)
Fixpoint rolling_loop (n_games : nat) (t : Trackers) (rows : DataFrame)
    : list (Match * Features) :=
  match rows with
  | [] => []
  | row :: rest =>
      (row, current_stats n_games t row)
        :: rolling_loop n_games (update_tracking t row) rest
  end.

(** [calculate_rolling_stats(df, n_games=5)]. The frame is first sorted
    by date ([sort_values('Date')], an argument here: pandas leaves the
    order of equal dates to the sorting algorithm). *)
Definition calculate_rolling_stats (sort_values : DataFrame -> DataFrame)
    (df : DataFrame) (n_games : nat) : list (Match * Features) :=
  rolling_loop n_games no_history (sort_values df).

(** The trackers after the loop has gone through [rows]. *)
Definition tracking_after (rows : DataFrame) : Trackers :=
  foldl update_tracking no_history rows.

End TrainGlitch.

(** ** Vocabulary of the properties, and sample data *)

(** What a row adds: 3 for a win of [team] in that match, 1 for a draw,
    0 otherwise, the side being read off the row itself. *)
Definition won (team : string) (r : Match) : Prop :=
  (HomeTeam r = team /\ FTR r = "H") \/ (HomeTeam r <> team /\ FTR r = "A").

Definition drew (r : Match) : Prop := FTR r = "D".

Definition absent (team : string) (df : DataFrame) : Prop :=
  forall r, r ∈ df -> HomeTeam r <> team /\ AwayTeam r <> team.

Definition sample_history : DataFrame :=
  [ mkMatch (Some 1) "Arsenal" "Chelsea" 2 0 "H";
    mkMatch (Some 2) "Arsenal" "Chelsea" 3 1 "H";
    mkMatch (Some 3) "Arsenal" "Chelsea" 1 1 "D";
    mkMatch (Some 4) "Arsenal" "Chelsea" 0 2 "A";
    mkMatch (Some 5) "Arsenal" "Chelsea" 1 0 "H" ].

(** What C8 says of a returned stats dictionary [s] and the window [w]
    it was computed from. *)
Definition form_within_window (team : string) (n_games : nat)
    (s : TeamStats) (w : DataFrame) : Prop :=
  (length w <= n_games)%nat /\
  form s = Py.sum (row_points team <$> w) /\
  (forall r, r ∈ w ->
     (HomeTeam r = team \/ AwayTeam r = team) /\
     ((row_points team r = 3 /\ won team r) \/
      (row_points team r = 1 /\ drew r) \/
      (row_points team r = 0 /\ ~ won team r /\ ~ drew r))) /\
  0 <= form s <= 3 * Z.of_nat n_games.

(** The name the loop reads from an injury. *)
Definition injury_name (i : Scout.Injury) : Scout.Value :=
  default (Scout.Str "") (Scout.player_name i).

Definition has_string_name (i : Scout.Injury) : bool :=
  match injury_name i with
  | Scout.Str _ => true
  | Scout.NonStr _ => false
  end.

(** The loop can test every injury: the team has no key players, or
    every name it reads is a string. *)
Definition names_readable (team_id : Z) (injuries : list Scout.Injury) : bool :=
  match Scout.key_players_db team_id with
  | [] => true
  | _ => forallb has_string_name injuries
  end.

(** Whether an injury names a key player of the team, as the loop tests
    (where the test raises, no). *)
Definition key_injury (unicode_lower : string -> string) (team_id : Z)
    (i : Scout.Injury) : bool :=
  match Scout.is_key unicode_lower (Scout.key_players_db team_id) (injury_name i) with
  | Return b => b
  | Raise _ => false
  end.

Definition key_out (unicode_lower : string -> string) (team_id : Z)
    (injuries : list Scout.Injury) : Z :=
  Py.len (filter (fun i => key_injury unicode_lower team_id i = true) injuries).

Definition others_out (unicode_lower : string -> string) (team_id : Z)
    (injuries : list Scout.Injury) : Z :=
  Py.len (filter (fun i => key_injury unicode_lower team_id i = false) injuries).

(** What the loop does with one injury whose test returns, and the
    report that follows from the pair the loop ends with. *)
Definition tested_step (unicode_lower : string -> string) (team_id : Z)
    (acc : Z * list string) (i : Scout.Injury) : Z * list string :=
  if key_injury unicode_lower team_id i then
    (fst acc - 15,
     snd acc ++ ["⚠️ KEY PLAYER OUT: " +:+ Scout.format (injury_name i)])
  else
    (fst acc - 3,
     snd acc ++
     ["❌ " +:+ Scout.format (injury_name i) +:+ " (" +:+
      Scout.format (default (Scout.Str "Injured") (Scout.reason i)) +:+ ")"]).

Definition report_of (injuries : list Scout.Injury) (acc : Z * list string)
    : Scout.Strength :=
  {| Scout.score := Z.max 0 (fst acc);
     Scout.injuries_count := Py.len injuries;
     Scout.reasons := take 5 (snd acc);
     Scout.status := if (85 <=? Z.max 0 (fst acc)) then "STRONG"
                     else if (70 <=? Z.max 0 (fst acc)) then "MODERATE" else "WEAK" |}.

(** An injury whose name is a JSON null, and the same injury without the
    key, resp. with a string name. *)
Definition null_name_injury : Scout.Injury :=
  Scout.mkInjury (Some (Scout.NonStr "None")) (Some (Scout.Str "Knee")).

Definition nameless_injury : Scout.Injury :=
  Scout.mkInjury None (Some (Scout.Str "Knee")).

Definition named_injury : Scout.Injury :=
  Scout.mkInjury (Some (Scout.Str "J. Doe")) (Some (Scout.Str "Knee")).

(** The three goal columns of a training row, per side, and the same
    three entries of an inference stats dictionary. *)
Definition home_goal_columns (f : TrainGlitch.Features) : option Q * option Q * option Q :=
  (TrainGlitch.Home_Avg_Goals f, TrainGlitch.Home_Avg_Conceded f, TrainGlitch.Home_BTTS_Rate f).

Definition away_goal_columns (f : TrainGlitch.Features) : option Q * option Q * option Q :=
  (TrainGlitch.Away_Avg_Goals f, TrainGlitch.Away_Avg_Conceded f, TrainGlitch.Away_BTTS_Rate f).

Definition goal_entries (s : TeamStats) : option Q * option Q * option Q :=
  (Some (avg_goals s), Some (avg_conceded s), Some (btts_rate s)).

(** The pair of form points the loop appends for a row (home, away). *)
Definition result_points (r : Match) : Z * Z :=
  if String.eqb (FTR r) "H" then (3, 0)
  else if String.eqb (FTR r) "D" then (1, 1)
  else (0, 3).

(** What a row appends to [team_results] under [team], in order. *)
Definition results_of_row (team : string) (r : Match) : list Z :=
  (if decide (HomeTeam r = team) then [fst (result_points r)] else []) ++
  (if decide (AwayTeam r = team) then [snd (result_points r)] else []).

(** Rows as the data model has them: two different sides and a result
    among H, D, A. *)
Definition well_formed (r : Match) : Prop :=
  HomeTeam r <> AwayTeam r /\ (FTR r = "H" \/ FTR r = "D" \/ FTR r = "A").

(** A history in date order: five home wins of Arsenal, one away defeat,
    then the row whose features are looked at (position 6). *)
Definition skewed_history : DataFrame :=
  [ mkMatch (Some 1) "Arsenal" "Chelsea" 2 0 "H";
    mkMatch (Some 2) "Arsenal" "Fulham" 1 0 "H";
    mkMatch (Some 3) "Arsenal" "Wolves" 3 1 "H";
    mkMatch (Some 4) "Arsenal" "Everton" 1 0 "H";
    mkMatch (Some 5) "Arsenal" "Brighton" 2 1 "H";
    mkMatch (Some 6) "Everton" "Arsenal" 1 0 "H";
    mkMatch (Some 7) "Arsenal" "Chelsea" 0 0 "D" ].

(** The same seven rows followed by two different futures. *)
Definition future_a : DataFrame :=
  skewed_history ++ [ mkMatch (Some 8) "Arsenal" "Fulham" 5 0 "H" ].

Definition future_b : DataFrame :=
  skewed_history ++ [ mkMatch (Some 8) "Fulham" "Arsenal" 4 4 "D";
                      mkMatch (Some 9) "Arsenal" "Wolves" 0 3 "A" ].

(** [k] is the first position of a maximum among three confidences. *)
Definition first_maximum (c1 c2 c3 : Q) (k : nat) : Prop :=
  match k with
  | 0%nat => (c2 <= c1 /\ c3 <= c1)%Q
  | 1%nat => (c1 < c2 /\ c3 <= c2)%Q
  | 2%nat => (c1 < c3 /\ c2 < c3)%Q
  | _ => False
  end.

(** The property of C4 for a selected triple and the three candidates, in
    enumeration order: the selection is one of the candidates, no
    candidate has a greater confidence, and every candidate listed before
    it has a strictly smaller one. *)
Definition safest_among (all_bets : list (string * string * Q))
    (safest : string * string * Q) : Prop :=
  exists k,
    all_bets !! k = Some safest /\
    (forall j bet, all_bets !! j = Some bet -> (snd bet <= snd safest)%Q) /\
    (forall j bet, (j < k)%nat -> all_bets !! j = Some bet -> (snd bet < snd safest)%Q).

(** The candidates [all_bets] and the selected triple, read back from a
    returned result. *)
Definition engine_bets (p : GlitchEngine.Predictions) : list (string * string * Q) :=
  [ ("Match Result", GlitchEngine.win_best (GlitchEngine.win p),
       GlitchEngine.win_confidence (GlitchEngine.win p));
    ("Goals", GlitchEngine.goals_best (GlitchEngine.goals p),
       GlitchEngine.goals_confidence (GlitchEngine.goals p));
    ("BTTS", GlitchEngine.btts_best (GlitchEngine.btts p),
       GlitchEngine.btts_confidence (GlitchEngine.btts p)) ].

Definition engine_safest (r : GlitchEngine.Result) : string * string * Q :=
  (GlitchEngine.market (GlitchEngine.safest_glitch r),
   GlitchEngine.bet (GlitchEngine.safest_glitch r),
   GlitchEngine.confidence (GlitchEngine.safest_glitch r)).

Definition predict_bets (p : PredictGlitch.Predictions) : list (string * string * Q) :=
  [ ("win", PredictGlitch.win_best_bet (PredictGlitch.win p),
       PredictGlitch.win_best_prob (PredictGlitch.win p));
    ("goals", PredictGlitch.goals_best_bet (PredictGlitch.goals p),
       PredictGlitch.goals_best_prob (PredictGlitch.goals p));
    ("btts", PredictGlitch.btts_best_bet (PredictGlitch.btts p),
       PredictGlitch.btts_best_prob (PredictGlitch.btts p)) ].

Definition predict_safest (p : PredictGlitch.Prediction) : string * string * Q :=
  (PredictGlitch.market (PredictGlitch.safest_glitch p),
   PredictGlitch.bet (PredictGlitch.safest_glitch p),
   PredictGlitch.confidence (PredictGlitch.safest_glitch p)).

(** [c] is the largest of the percentages [probs] of a market. *)
Definition best_probability (probs : list Q) (c : Q) : Prop :=
  c ∈ probs /\ forall p, p ∈ probs -> (p <= c)%Q.

(** In a result of the model path every market's confidence is the
    largest percentage of that market. *)
Definition engine_confidences_are_best (p : GlitchEngine.Predictions) : Prop :=
  let w := GlitchEngine.win p in
  let g := GlitchEngine.goals p in
  let b := GlitchEngine.btts p in
  best_probability
    [GlitchEngine.win_home w; GlitchEngine.win_draw w; GlitchEngine.win_away w]
    (GlitchEngine.win_confidence w) /\
  best_probability [GlitchEngine.goals_under g; GlitchEngine.goals_over g]
    (GlitchEngine.goals_confidence g) /\
  best_probability [GlitchEngine.btts_no b; GlitchEngine.btts_yes b]
    (GlitchEngine.btts_confidence b).

Definition predict_confidences_are_best (p : PredictGlitch.Predictions) : Prop :=
  let w := PredictGlitch.win p in
  let g := PredictGlitch.goals p in
  let b := PredictGlitch.btts p in
  best_probability
    [PredictGlitch.win_home w; PredictGlitch.win_draw w; PredictGlitch.win_away w]
    (PredictGlitch.win_best_prob w) /\
  best_probability [PredictGlitch.goals_under g; PredictGlitch.goals_over g]
    (PredictGlitch.goals_best_prob g) /\
  best_probability [PredictGlitch.btts_no b; PredictGlitch.btts_yes b]
    (PredictGlitch.btts_best_prob b).

(** A model bank whose classifiers answer the same rows for every input:
    result 60/20/20, goals 40/60, BTTS 50/50. *)
Definition constant_models : ModelBank :=
  {| features := ["HomeTeam_Form"; "AwayTeam_Form"; "Home_Avg_Goals"; "Away_Avg_Goals";
                  "Home_Avg_Conceded"; "Away_Avg_Conceded";
                  "Home_BTTS_Rate"; "Away_BTTS_Rate"];
     win_predict_proba := fun _ => (3 # 5, 1 # 5, 1 # 5);
     win_predict := fun _ => Home;
     goals_predict_proba := fun _ => (2 # 5, 3 # 5);
     btts_predict_proba := fun _ => (1 # 2, 1 # 2);
     accuracy_win := 1 # 2; accuracy_goals := 1 # 2; accuracy_btts := 1 # 2 |}.

(** Neither the artifacts nor the history file are there. *)
Definition no_files : World :=
  {| load_models := None; load_historical_data := None; scout := None |}.

(** Models and history are there, the scout module is not. *)
Definition ml_world : World :=
  {| load_models := Some constant_models;
     load_historical_data := Some sample_history;
     scout := None |}.

(** A world in which the injury API reports eleven injured squad players
    for Arsenal (team id 42) and nobody else. *)
Definition injured_api : Scout.Api :=
  {| Scout.get_injuries := fun id =>
       if (id =? 42)
       then replicate 11 (Scout.mkInjury (Some (Scout.Str "J. Doe")) (Some (Scout.Str "Knee")))
       else [];
     Scout.get_lineups := fun _ =>
       {| Scout.lineups_home := None; Scout.lineups_away := None;
          Scout.lineups_available := false |};
     Scout.unicode_lower := fun s => s |}.

Definition gate_world : World :=
  {| load_models := Some constant_models;
     load_historical_data := Some sample_history;
     scout := Some injured_api |}.

(** The two strengths of the heuristic, for forms [fh] and [fa]. *)
Definition strengths (fh fa : Z) : Q * Q :=
  let total_form := fh + fa in
  let total_form := if (total_form =? 0) then 1 else total_form in
  ((inject_Z fh / inject_Z total_form)%Q, (inject_Z fa / inject_Z total_form)%Q).

(** The sum of the percentages reported for each market. *)
Definition engine_win_sum (r : GlitchEngine.Result) : Q :=
  let win := GlitchEngine.win (GlitchEngine.predictions r) in
  (GlitchEngine.win_home win + GlitchEngine.win_draw win + GlitchEngine.win_away win)%Q.

Definition engine_goals_sum (r : GlitchEngine.Result) : Q :=
  let goals := GlitchEngine.goals (GlitchEngine.predictions r) in
  (GlitchEngine.goals_under goals + GlitchEngine.goals_over goals)%Q.

Definition engine_btts_sum (r : GlitchEngine.Result) : Q :=
  let btts := GlitchEngine.btts (GlitchEngine.predictions r) in
  (GlitchEngine.btts_no btts + GlitchEngine.btts_yes btts)%Q.

Definition predict_win_sum (p : PredictGlitch.Prediction) : Q :=
  let win := PredictGlitch.win (PredictGlitch.predictions p) in
  (PredictGlitch.win_home win + PredictGlitch.win_draw win + PredictGlitch.win_away win)%Q.

Definition predict_goals_sum (p : PredictGlitch.Prediction) : Q :=
  let goals := PredictGlitch.goals (PredictGlitch.predictions p) in
  (PredictGlitch.goals_under goals + PredictGlitch.goals_over goals)%Q.

Definition predict_btts_sum (p : PredictGlitch.Prediction) : Q :=
  let btts := PredictGlitch.btts (PredictGlitch.predictions p) in
  (PredictGlitch.btts_no btts + PredictGlitch.btts_yes btts)%Q.

(** Classifiers whose probability rows sum to one. *)
Definition normalised (m : ModelBank) : Prop :=
  forall X,
    (fst (fst (win_predict_proba m X)) + snd (fst (win_predict_proba m X))
       + snd (win_predict_proba m X) == 1)%Q /\
    (fst (goals_predict_proba m X) + snd (goals_predict_proba m X) == 1)%Q /\
    (fst (btts_predict_proba m X) + snd (btts_predict_proba m X) == 1)%Q.

(** The history holds one match, a home win of Arsenal over Chelsea, and
    the artifacts are missing. *)
Definition one_match_world : World :=
  {| load_models := None;
     load_historical_data := Some [mkMatch (Some 1) "Arsenal" "Chelsea" 2 0 "H"];
     scout := None |}.

(** * The rest of the code *)

(** ** Vocabulary of the further properties *)

(** [a] and [b] are related the way the partial match of [get_team_id]
    tests a name against a key of [TEAM_IDS]. *)
Definition partial_match (team_name name : string) : bool :=
  (Py.contains (Py.lower team_name) (Py.lower name) ||
   Py.contains (Py.lower name) (Py.lower team_name))%bool.

(** [skewed_history] with another result in its last row. *)
Definition skewed_history_other_result : DataFrame :=
  take 6 skewed_history ++ [ mkMatch (Some 7) "Arsenal" "Chelsea" 3 0 "H" ].

(** An injury API that never reports anybody (as after failed requests). *)
Definition silent_api : Scout.Api :=
  {| Scout.get_injuries := fun _ => [];
     Scout.get_lineups := fun _ =>
       {| Scout.lineups_home := None; Scout.lineups_away := None;
          Scout.lineups_available := false |};
     Scout.unicode_lower := fun s => s |}.

(** The feature columns of training, in the order [main] of
    [train_glitch.py] lists them and [save_models] records them. *)
Definition feature_cols : list string :=
  ["HomeTeam_Form"; "AwayTeam_Form"; "Home_Avg_Goals"; "Away_Avg_Goals";
   "Home_Avg_Conceded"; "Away_Avg_Conceded"; "Home_BTTS_Rate"; "Away_BTTS_Rate"].

(** The lookup of one column in the feature dictionary. *)
Definition feature_value (home_stats away_stats : TeamStats) (col : string) : option Q :=
  snd <$> List.find (fun '(name, _) => String.eqb col name)
            (feature_dict home_stats away_stats).



(** ** train_glitch.py: targets and training frames *)

Module TrainData.

(** The three target columns of a row; [Target_Win] is NaN ([None]) when
    [FTR] is not a key of the mapping. *)
Record Targets := mkTargets {
  Target_Win : option Z;
  Target_Goals : Z;
  Target_BTTS : Z
}.

(** A row of the frame after [calculate_rolling_stats] and
    [create_targets]. *)
Record TrainRow := mkRow {
  base : Match;
  rolling : TrainGlitch.Features;
  labels : Targets
}.

(** [create_targets(df)], row by row. *)
Definition targets_of (row : Match) : Targets :=
  {| Target_Win :=
       if String.eqb (FTR row) "H" then Some 0
       else if String.eqb (FTR row) "D" then Some 1
       else if String.eqb (FTR row) "A" then Some 2
       else None;
     Target_Goals :=
       if Py.gt (inject_Z (FTHG row + FTAG row)) (25 # 10) then 1 else 0;
     Target_BTTS :=
       if ((0 <? FTHG row) && (0 <? FTAG row))%bool then 1 else 0 |}.

Definition create_targets (df : list (Match * TrainGlitch.Features)) : list TrainRow :=
  (fun '(row, f) => {| base := row; rolling := f; labels := targets_of row |}) <$> df.

(** A cell of a computed column: a number or NaN. *)
Inductive Cell :=
  | Num (q : Q)
  | NaN.

Definition float_cell (o : option Q) : Cell :=
  match o with
  | Some q => Num q
  | None => NaN
  end.

(** The computed columns of the frame, the eight of
    [calculate_rolling_stats] and the three of [create_targets], and the
    cell of a row under one of them. The frame has further columns, those
    of the CSV file, which the rows of the model do not carry. *)
Definition columns : list string :=
  ["HomeTeam_Form"; "AwayTeam_Form"; "Home_Avg_Goals"; "Away_Avg_Goals";
   "Home_Avg_Conceded"; "Away_Avg_Conceded"; "Home_BTTS_Rate"; "Away_BTTS_Rate";
   "Target_Win"; "Target_Goals"; "Target_BTTS"].

Definition cell (name : string) (r : TrainRow) : Cell :=
  if String.eqb name "HomeTeam_Form" then float_cell (TrainGlitch.HomeTeam_Form (rolling r))
  else if String.eqb name "AwayTeam_Form" then float_cell (TrainGlitch.AwayTeam_Form (rolling r))
  else if String.eqb name "Home_Avg_Goals" then float_cell (TrainGlitch.Home_Avg_Goals (rolling r))
  else if String.eqb name "Away_Avg_Goals" then float_cell (TrainGlitch.Away_Avg_Goals (rolling r))
  else if String.eqb name "Home_Avg_Conceded" then float_cell (TrainGlitch.Home_Avg_Conceded (rolling r))
  else if String.eqb name "Away_Avg_Conceded" then float_cell (TrainGlitch.Away_Avg_Conceded (rolling r))
  else if String.eqb name "Home_BTTS_Rate" then float_cell (TrainGlitch.Home_BTTS_Rate (rolling r))
  else if String.eqb name "Away_BTTS_Rate" then float_cell (TrainGlitch.Away_BTTS_Rate (rolling r))
  else if String.eqb name "Target_Win" then float_cell (inject_Z <$> Target_Win (labels r))
  else if String.eqb name "Target_Goals" then Num (inject_Z (Target_Goals (labels r)))
  else if String.eqb name "Target_BTTS" then Num (inject_Z (Target_BTTS (labels r)))
  else NaN.

Definition is_nan (c : Cell) : bool :=
  match c with
  | NaN => true
  | _ => false
  end.

(** A row that [dropna(subset=...)] keeps: no NaN under the subset. *)
Definition complete (subset : list string) (r : TrainRow) : bool :=
  forallb (fun name => negb (is_nan (cell name r))) subset.

(** [prepare_data(df, feature_cols, target_col)] for feature and target
    names among the computed columns, as [main] calls it: the triple
    (X, y, df_clean). For another name the answer depends on the further
    columns of the frame (the values under it, or a KeyError when the
    frame lacks it), which is outside this model: [None]. *)
Definition prepare_data (df : list TrainRow) (feature_cols : list string)
    (target_col : string)
    : option (list (list Cell) * list Cell * list TrainRow) :=
  let subset := feature_cols ++ [target_col] in
  if forallb (fun name => bool_decide (name ∈ columns)) subset then
    let df_clean := List.filter (complete subset) df in
    let X := (fun r => (fun name => cell name r) <$> feature_cols) <$> df_clean in
    let y := cell target_col <$> df_clean in
    Some (X, y, df_clean)
  else None.

End TrainData.

(** The frame that [main] of [train_glitch.py] prepares from a history in
    date order. *)
Definition training_frame (n_games : nat) (rows : DataFrame) : list TrainData.TrainRow :=
  TrainData.create_targets (TrainGlitch.rolling_loop n_games TrainGlitch.no_history rows).

(** All eight feature columns of a row are filled. *)
Definition all_features (f : TrainGlitch.Features) : Prop :=
  is_Some (TrainGlitch.HomeTeam_Form f) /\ is_Some (TrainGlitch.AwayTeam_Form f) /\
  is_Some (TrainGlitch.Home_Avg_Goals f) /\ is_Some (TrainGlitch.Away_Avg_Goals f) /\
  is_Some (TrainGlitch.Home_Avg_Conceded f) /\ is_Some (TrainGlitch.Away_Avg_Conceded f) /\
  is_Some (TrainGlitch.Home_BTTS_Rate f) /\ is_Some (TrainGlitch.Away_BTTS_Rate f).

(** ** glitch_engine.py: the module-level caches *)

Module EngineCache.

(** [features.json]: the schema and the recorded accuracies. *)
Record Config := mkConfig {
  config_features : list string;
  config_accuracy_win : Q;
  config_accuracy_goals : Q;
  config_accuracy_btts : Q
}.

(** What unpickling [model_win.pkl] gives, and a binary model. *)
Record WinModel := mkWinModel {
  predict_proba : list Q -> Q * Q * Q;
  predict : list Q -> WinClass
}.

Abbreviation BinModel := (list Q -> Q * Q).

(** The files next to the script; [None] is a missing file. *)
Record Files := mkFiles {
  features_json : option Config;
  model_win_pkl : option WinModel;
  model_goals_pkl : option BinModel;
  model_btts_pkl : option BinModel;
  master_data_csv : option DataFrame
}.

(** The dictionary [_models_cache]: its keys are among 'win', 'goals',
    'btts'; [None] is an absent key. *)
Record ModelsDict := mkDict {
  win : option WinModel;
  goals : option BinModel;
  btts : option BinModel
}.

Definition empty_dict : ModelsDict := {| win := None; goals := None; btts := None |}.

(** The three globals of the module. *)
Record Cache := mkCache {
  _models_cache : option ModelsDict;
  _config_cache : option Config;
  _data_cache : option DataFrame
}.

Definition fresh : Cache :=
  {| _models_cache := None; _config_cache := None; _data_cache := None |}.

(** [load_models()]: the pair it returns and the globals afterwards. The
    assignments made before a FileNotFoundError stay. *)
Definition load_models (files : Files) (c : Cache)
    : (option ModelsDict * option Config) * Cache :=
  match _models_cache c with
  | Some models => ((Some models, _config_cache c), c)
  | None =>
      match features_json files with
      | None => ((None, None), c)
      | Some config =>
          let loaded (d : ModelsDict) :=
            {| _models_cache := Some d; _config_cache := Some config;
               _data_cache := _data_cache c |} in
          match model_win_pkl files with
          | None => ((None, None), loaded empty_dict)
          | Some w =>
              match model_goals_pkl files with
              | None => ((None, None),
                         loaded {| win := Some w; goals := None; btts := None |})
              | Some g =>
                  match model_btts_pkl files with
                  | None => ((None, None),
                             loaded {| win := Some w; goals := Some g; btts := None |})
                  | Some b =>
                      let d := {| win := Some w; goals := Some g; btts := Some b |} in
                      ((Some d, Some config), loaded d)
                  end
              end
          end
      end
  end.

(** [load_historical_data()] of the engine: the frame (sorted by date
    when read) and the globals afterwards. *)
Definition load_historical_data (files : Files) (c : Cache)
    : option DataFrame * Cache :=
  match _data_cache c with
  | Some df => (Some df, c)
  | None =>
      match master_data_csv files with
      | Some df =>
          (Some df, {| _models_cache := _models_cache c;
                       _config_cache := _config_cache c;
                       _data_cache := Some df |})
      | None => (None, c)
      end
  end.

Definition bank (config : Config) (w : WinModel) (g b : BinModel) : ModelBank :=
  {| features := config_features config;
     win_predict_proba := predict_proba w;
     win_predict := predict w;
     goals_predict_proba := g;
     btts_predict_proba := b;
     accuracy_win := config_accuracy_win config;
     accuracy_goals := config_accuracy_goals config;
     accuracy_btts := config_accuracy_btts config |}.

(** [predict_match_ml(home_team, away_team)] with the globals threaded:
    the two loads, then the fallback when [models is None], else the
    model path, in which a key missing from the dictionary is a KeyError
    (as is a schema column missing from the features) and a missing
    [config] a TypeError. *)
Definition predict_match_ml (files : Files) (c : Cache) (home_team away_team : string)
    : Outcome GlitchEngine.Result * Cache :=
  let '((models, config), c) := load_models files c in
  let '(df, c) := load_historical_data files c in
  match models with
  | None =>
      (* If models not available, use fallback *)
      (Return (GlitchEngine.predict_match_heuristic (mkWorld None df None)
                 home_team away_team), c)
  | Some d =>
      match config with
      | None => (Raise "TypeError", c)
      | Some config =>
          match win d, goals d, btts d with
          | Some w, Some g, Some b =>
              (GlitchEngine.predict_match_ml
                 (mkWorld (Some (bank config w g b)) df None) home_team away_team, c)
          | _, _, _ => (Raise "KeyError", c)
          end
      end
  end.

End EngineCache.

(** Files with the schema and the result model, the other two missing;
    the same with all artifacts; and none at all. *)
Definition sample_config : EngineCache.Config :=
  {| EngineCache.config_features := feature_cols;
     EngineCache.config_accuracy_win := 1 # 2;
     EngineCache.config_accuracy_goals := 1 # 2;
     EngineCache.config_accuracy_btts := 1 # 2 |}.

Definition sample_win_model : EngineCache.WinModel :=
  {| EngineCache.predict_proba := fun _ => (3 # 5, 1 # 5, 1 # 5);
     EngineCache.predict := fun _ => Home |}.

Definition partial_files : EngineCache.Files :=
  {| EngineCache.features_json := Some sample_config;
     EngineCache.model_win_pkl := Some sample_win_model;
     EngineCache.model_goals_pkl := None;
     EngineCache.model_btts_pkl := None;
     EngineCache.master_data_csv := Some sample_history |}.

Definition complete_files : EngineCache.Files :=
  {| EngineCache.features_json := Some sample_config;
     EngineCache.model_win_pkl := Some sample_win_model;
     EngineCache.model_goals_pkl := Some (fun _ => (2 # 5, 3 # 5));
     EngineCache.model_btts_pkl := Some (fun _ => (1 # 2, 1 # 2));
     EngineCache.master_data_csv := Some sample_history |}.

Definition missing_files : EngineCache.Files :=
  {| EngineCache.features_json := None;
     EngineCache.model_win_pkl := None;
     EngineCache.model_goals_pkl := None;
     EngineCache.model_btts_pkl := None;
     EngineCache.master_data_csv := None |}.



(** A dictionary that lacks one of the three models. *)
Definition incomplete (d : EngineCache.ModelsDict) : Prop :=
  EngineCache.win d = None \/ EngineCache.goals d = None \/ EngineCache.btts d = None.

(** A history in which Arsenal has three home rows (all lost) and two away
    rows (both won), alternating: at least 3 and fewer than 5 home rows. *)
Definition short_venue_history : DataFrame :=
  [ mkMatch (Some 1) "Arsenal" "Chelsea" 0 1 "A";
    mkMatch (Some 2) "Fulham" "Arsenal" 0 2 "A";
    mkMatch (Some 3) "Arsenal" "Wolves" 1 2 "A";
    mkMatch (Some 4) "Everton" "Arsenal" 0 1 "A";
    mkMatch (Some 5) "Arsenal" "Brighton" 0 3 "A" ].

(** The rows [get_team_stats] selects by venue before [tail]. *)
Definition venue_rows (team : string) (is_home : bool) (df : DataFrame) : DataFrame :=
  if is_home then home_rows team df else away_rows team df.

(** ** main.py: the match buttons of the bot *)

Module Bot.

(** [s.split(sep)] for a separator of one character. *)
Fixpoint split (sep : ascii) (s : string) : list string :=
  match s with
  | EmptyString => [EmptyString]
  | String c s' =>
      if Ascii.eqb c sep then EmptyString :: split sep s'
      else match split sep s' with
           | piece :: pieces => String c piece :: pieces
           | [] => [String c EmptyString]
           end
  end.

(** [s.split(sep, maxsplit)]. *)
Fixpoint split_max (sep : ascii) (s : string) (maxsplit : nat) : list string :=
  match s with
  | EmptyString => [EmptyString]
  | String c s' =>
      match maxsplit with
      | O => [s]
      | S m =>
          if Ascii.eqb c sep then EmptyString :: split_max sep s' m
          else match split_max sep s' maxsplit with
               | piece :: pieces => String c piece :: pieces
               | [] => [String c EmptyString]
               end
      end
  end.

(** The class [a-zA-Z] of the regular expression. A character outside
    ASCII is a sequence of bytes above 127 in a [string]; none of them is
    in the class, so removing them removes the character. *)
Definition is_letter (c : ascii) : bool :=
  let n := nat_of_ascii c in
  ((97 <=? n)%nat && (n <=? 122)%nat || (65 <=? n)%nat && (n <=? 90)%nat)%bool.

(** [re.sub(r'[^a-zA-Z]', '', s)]. *)
Fixpoint sub_non_letters (s : string) : string :=
  match s with
  | EmptyString => EmptyString
  | String c s' =>
      if is_letter c then String c (sub_non_letters s') else sub_non_letters s'
  end.

(** [re.sub(r'[^a-zA-Z]', '', name)[:12]], the expression behind
    [home_clean] and [away_clean]. *)
Definition clean (name : string) : string :=
  String.substring 0 12 (sub_non_letters name).

(** The keys of a fixture dictionary that the buttons read. *)
Record Fixture := mkFixture {
  home_team : string;
  away_team : string;
  date : string;
  time : string
}.

(** The callback data of a match button of [show_fixtures]. *)
Definition callback (fixture : Fixture) : string :=
  let home_clean := clean (home_team fixture) in
  let away_clean := clean (away_team fixture) in
  "p_" +:+ home_clean +:+ "_" +:+ away_clean.

(** The callback data of the keyboard [show_fixtures] sends, top to
    bottom: a button for each of the first 12 fixtures, then the back
    button (alone when there is no fixture). *)
Definition show_fixtures (fixtures : list Fixture) : list string :=
  (callback <$> take 12 fixtures) ++ ["back_menu"].

(** What [button_callback] awaits. *)
Inductive Action :=
  | ShowFixtures (league_id : Z)
  | ShowPrediction (home away : string)
  | ShowMainMenu
  | NoAction.

(** [button_callback] on [query.data]; [int] is Python's [int] on
    strings. *)
Definition button_callback (int : string -> Outcome Z) (data : string)
    : Outcome Action :=
  if String.prefix "league_" data then
    (* League selection *)
    match split "_" data with
    | _ :: league :: _ =>
        match int league with
        | Return league_id => Return (ShowFixtures league_id)
        | Raise exc => Raise exc
        end
    | _ => Raise "IndexError"
    end
  else if String.prefix "p_" data then
    (* Match prediction (p_HomeTeam_AwayTeam) *)
    match split "_" data with
    | _ :: home :: away :: _ => Return (ShowPrediction home away)
    | _ => Return NoAction
    end
  else if String.prefix "predict_" data then
    (* Legacy predict_ format *)
    match split_max "_" data 2 with
    | _ :: home :: away :: _ => Return (ShowPrediction home away)
    | _ => Return NoAction
    end
  else if String.eqb data "back_menu" then Return ShowMainMenu
  else Return NoAction.

(** The result [show_prediction] hands to [format_prediction_output]; an
    exception becomes the error message of its handler. *)
Definition show_prediction (w : World) (home away : string)
    : Outcome PredictGlitch.Result :=
  PredictGlitch.predict_all_markets w home away true.

End Bot.

(** A string of letters only. *)
Fixpoint all_letters (s : string) : bool :=
  match s with
  | EmptyString => true
  | String c s' => (Bot.is_letter c && all_letters s')%bool
  end.

(** The names of the table [TEAM_IDS]. *)
Definition team_id_names : list string := fst <$> Scout.TEAM_IDS.

Definition sample_fixtures : list Bot.Fixture :=
  [ Bot.mkFixture "Arsenal" "Man Utd" "2026-01-10" "12:30";
    Bot.mkFixture "Man City" "Aston Villa" "2026-01-11" "16:30" ].

(** * Properties *)

(** ** Windows and sums *)

Section Windows.
Context {A : Type}.
Implicit Types l : list A.

Lemma tail_length n l : (length (Py.tail n l) <= n)%nat.
Proof. unfold Py.tail. rewrite length_drop. lia. Qed.

Lemma tail_length_exact n l :
  (n <= length l)%nat -> length (Py.tail n l) = n.
Proof. intros Hn. unfold Py.tail. rewrite length_drop. lia. Qed.

Lemma tail_nil n : Py.tail n (@nil A) = [].
Proof. reflexivity. Qed.

Lemma tail_fmap {B} (f : A -> B) n l :
  f <$> Py.tail n l = Py.tail n (f <$> l).
Proof. unfold Py.tail. now rewrite fmap_drop, length_fmap. Qed.

Lemma last_n_tail n l : (0 < n)%nat -> Py.last_n n l = Py.tail n l.
Proof. destruct n; [lia | reflexivity]. Qed.

Lemma tail_subseteq n l x : x ∈ Py.tail n l -> x ∈ l.
Proof.
  unfold Py.tail. intros Hx.
  rewrite <- (take_drop (length l - n)%nat l).
  apply elem_of_app. now right.
Qed.
End Windows.

Lemma foldl_add_shift {A} (g : A -> Z) (l : list A) (a : Z) :
  foldl (fun acc x => acc + g x) a l = a + foldl (fun acc x => acc + g x) 0 l.
Proof.
  revert a. induction l as [|x l IH]; intros a; simpl.
  - lia.
  - rewrite (IH (a + g x)), (IH (0 + g x)). lia.
Qed.

Lemma sum_shift (xs : list Z) (a : Z) : foldl Z.add a xs = a + Py.sum xs.
Proof.
  unfold Py.sum. revert a. induction xs as [|x xs IH]; intros a; simpl.
  - lia.
  - rewrite (IH (a + x)), (IH (0 + x)). lia.
Qed.

Lemma sum_cons (x : Z) (xs : list Z) : Py.sum (x :: xs) = x + Py.sum xs.
Proof. unfold Py.sum at 1. simpl. rewrite sum_shift. lia. Qed.

Lemma sum_app (xs ys : list Z) : Py.sum (xs ++ ys) = Py.sum xs + Py.sum ys.
Proof.
  induction xs as [|x xs IH]; simpl.
  - reflexivity.
  - rewrite !sum_cons, IH. lia.
Qed.

Lemma form_points_cons team row window :
  form_points team (row :: window) = row_points team row + form_points team window.
Proof.
  unfold form_points. simpl.
  rewrite (foldl_add_shift (row_points team) window (0 + row_points team row)). lia.
Qed.

(** The form loop adds up [row_points] over the window. *)
Lemma form_points_sum team window :
  form_points team window = Py.sum (row_points team <$> window).
Proof.
  induction window as [|r w IH].
  - reflexivity.
  - rewrite form_points_cons, fmap_cons, sum_cons, IH. reflexivity.
Qed.

Lemma row_points_cases team r :
  (row_points team r = 3 /\ won team r) \/
  (row_points team r = 1 /\ drew r) \/
  (row_points team r = 0 /\ ~ won team r /\ ~ drew r).
Proof.
  unfold row_points, won, drew.
  case_bool_decide as Hh.
  - destruct (String.eqb_spec (FTR r) "H") as [EH|NH].
    + left. split; [reflexivity | left; done].
    + destruct (String.eqb_spec (FTR r) "D") as [ED|ND].
      * right; left. done.
      * right; right. split; [reflexivity|]. split; [|done].
        intros [[_ ?]|[? _]]; done.
  - destruct (String.eqb_spec (FTR r) "A") as [EA|NA].
    + left. split; [reflexivity | right; done].
    + destruct (String.eqb_spec (FTR r) "D") as [ED|ND].
      * right; left. done.
      * right; right. split; [reflexivity|]. split; [|done].
        intros [[? _]|[_ ?]]; done.
Qed.

Lemma row_points_range team r : 0 <= row_points team r <= 3.
Proof. destruct (row_points_cases team r) as [[-> _]|[[-> _]|[-> _]]]; lia. Qed.

Lemma form_points_range team window :
  0 <= form_points team window <= 3 * Py.len window.
Proof.
  unfold Py.len. induction window as [|r w IH].
  - simpl. unfold form_points. simpl. lia.
  - rewrite form_points_cons. pose proof (row_points_range team r).
    simpl length. lia.
Qed.

(** ** Teams without history (C9) *)

Lemma filter_none {A} (P : A -> Prop) `{!forall x, Decision (P x)} (l : list A) :
  (forall x, x ∈ l -> ~ P x) -> filter P l = [].
Proof.
  induction l as [|x l IH]; intros Hl.
  - reflexivity.
  - rewrite filter_cons_False by (apply Hl; left).
    apply IH. intros y Hy. apply Hl. now right.
Qed.

Lemma absent_rows team df :
  absent team df ->
  home_rows team df = [] /\ away_rows team df = [] /\ team_rows team df = [].
Proof.
  intros Habs. unfold home_rows, away_rows, team_rows.
  repeat split; apply filter_none; intros r Hr; destruct (Habs r Hr); tauto.
Qed.

(** Both lookups select the empty window for a team without rows. *)
Lemma absent_team_windows (df : DataFrame) team (is_home : bool) n :
  absent team df ->
  GlitchEngine.venue_games df team is_home n = [] /\
  PredictGlitch.venue_games df team is_home n = [].
Proof.
  intros Habs. destruct (absent_rows team df Habs) as (Hh & Ha & Ht).
  unfold GlitchEngine.venue_games, PredictGlitch.venue_games.
  rewrite Hh, Ha, Ht, !tail_nil.
  split.
  - destruct is_home; reflexivity.
  - destruct is_home; simpl;
      destruct (Py.len [] <? Z.of_nat n); reflexivity.
Qed.

Lemma stats_of_empty_window df team is_home n :
  stats_of_window df team is_home n [] = default_stats.
Proof. reflexivity. Qed.

Lemma engine_stats_without_file team is_home n :
  GlitchEngine.get_team_stats None team is_home n = default_stats.
Proof. reflexivity. Qed.

(** C9. A team that is neither the home nor the away side of any row of
    the history gets exactly the neutral dictionary (form 7, avg_goals 1.3,
    avg_conceded 1.2, btts_rate 50.0) from both copies of [get_team_stats],
    for either venue and any window size. *)
Theorem absent_team_default_stats (df : DataFrame) (team : string)
    (is_home : bool) (n_games : nat) :
  absent team df ->
  GlitchEngine.get_team_stats (Some df) team is_home n_games
    = {| form := 7; avg_goals := 13 # 10; avg_conceded := 12 # 10;
         btts_rate := 50%Q |} /\
  PredictGlitch.get_team_stats df team is_home n_games
    = {| form := 7; avg_goals := 13 # 10; avg_conceded := 12 # 10;
         btts_rate := 50%Q |}.
Proof.
  intros Habs.
  destruct (absent_team_windows df team is_home n_games Habs) as [He Hp].
  unfold GlitchEngine.get_team_stats, PredictGlitch.get_team_stats.
  rewrite He, Hp. split; reflexivity.
Qed.

Lemma absent_team_default_stats_witness :
  absent "Everton" sample_history /\
  GlitchEngine.get_team_stats (Some sample_history) "Everton" true 5 = default_stats /\
  PredictGlitch.get_team_stats sample_history "Everton" true 5 = default_stats.
Proof.
  assert (H : absent "Everton" sample_history).
  { intros r Hr. unfold sample_history in Hr.
    repeat (apply elem_of_cons in Hr as [->|Hr]; [split; discriminate|]).
    inversion Hr. }
  split; [exact H|].
  exact (absent_team_default_stats sample_history "Everton" true 5 H).
Defined.

(** ** Form points of a window (C8) *)

Lemma window_rows_involve_team team n df r :
  r ∈ Py.tail n (home_rows team df) \/
  r ∈ Py.tail n (away_rows team df) \/
  r ∈ Py.tail n (team_rows team df) ->
  HomeTeam r = team \/ AwayTeam r = team.
Proof.
  unfold home_rows, away_rows, team_rows.
  intros [H|[H|H]]; apply tail_subseteq, list_elem_of_filter in H; tauto.
Qed.

Lemma engine_window team is_home n df :
  (length (GlitchEngine.venue_games df team is_home n) <= n)%nat /\
  forall r, r ∈ GlitchEngine.venue_games df team is_home n ->
            HomeTeam r = team \/ AwayTeam r = team.
Proof.
  unfold GlitchEngine.venue_games.
  destruct is_home;
    match goal with |- context [if ?c then _ else _] => destruct c end;
    (split; [apply tail_length | intros r Hr;
       apply (window_rows_involve_team team n df r); tauto]).
Qed.

Lemma predict_window team is_home n df :
  (length (PredictGlitch.venue_games df team is_home n) <= n)%nat /\
  forall r, r ∈ PredictGlitch.venue_games df team is_home n ->
            HomeTeam r = team \/ AwayTeam r = team.
Proof.
  unfold PredictGlitch.venue_games.
  destruct is_home;
    match goal with |- context [if ?c then _ else _] => destruct c end;
    (split; [apply tail_length | intros r Hr;
       apply (window_rows_involve_team team n df r); tauto]).
Qed.

Lemma stats_of_window_form df team is_home n window :
  window <> [] ->
  form (stats_of_window df team is_home n window) = form_points team window.
Proof.
  intros Hne. unfold stats_of_window.
  destruct window as [|r w]; [done|].
  replace (Py.len (r :: w) =? 0) with false
    by (symmetry; apply Z.eqb_neq; unfold Py.len; simpl length; lia).
  destruct (venue_goal_stats df team is_home n) as [[? ?] ?]. reflexivity.
Qed.

Lemma form_within_window_intro df team is_home n w :
  (length w <= n)%nat ->
  (forall r, r ∈ w -> HomeTeam r = team \/ AwayTeam r = team) ->
  w <> [] ->
  form_within_window team n (stats_of_window df team is_home n w) w.
Proof.
  intros Hlen Hteam Hne. unfold form_within_window.
  rewrite (stats_of_window_form df team is_home n w Hne).
  split; [exact Hlen|]. split; [apply form_points_sum|]. split.
  - intros r Hr. split; [now apply Hteam | apply row_points_cases].
  - pose proof (form_points_range team w) as Hr. unfold Py.len in Hr. lia.
Qed.

(** C8. Whenever the window selected for a team and a venue is not empty,
    it has at most [n_games] rows, the returned form is the sum over the
    window of 3, 1 or 0 for a win, a draw or a loss of that team in that
    row (the side being read off the row), and so lies in [0, 3*n_games];
    for both copies of [get_team_stats]. *)
Theorem form_points_in_range (df : DataFrame) (team : string)
    (is_home : bool) (n_games : nat) :
  (GlitchEngine.venue_games df team is_home n_games <> [] ->
   form_within_window team n_games
     (GlitchEngine.get_team_stats (Some df) team is_home n_games)
     (GlitchEngine.venue_games df team is_home n_games)) /\
  (PredictGlitch.venue_games df team is_home n_games <> [] ->
   form_within_window team n_games
     (PredictGlitch.get_team_stats df team is_home n_games)
     (PredictGlitch.venue_games df team is_home n_games)).
Proof.
  split; intros Hne.
  - destruct (engine_window team is_home n_games df) as [Hlen Hteam].
    now apply form_within_window_intro.
  - destruct (predict_window team is_home n_games df) as [Hlen Hteam].
    now apply form_within_window_intro.
Qed.

Lemma form_points_in_range_witness :
  form_within_window "Arsenal" 5
    (GlitchEngine.get_team_stats (Some sample_history) "Arsenal" true 5)
    (GlitchEngine.venue_games sample_history "Arsenal" true 5) /\
  form_within_window "Chelsea" 5
    (PredictGlitch.get_team_stats sample_history "Chelsea" false 5)
    (PredictGlitch.venue_games sample_history "Chelsea" false 5).
Proof.
  split.
  - apply (form_points_in_range sample_history "Arsenal" true 5). discriminate.
  - apply (form_points_in_range sample_history "Chelsea" false 5). discriminate.
Defined.

(** The scenario of the specification: results H, H, D, A, H at home. *)
Example arsenal_home_form :
  form (GlitchEngine.get_team_stats (Some sample_history) "Arsenal" true 5) = 10 /\
  form (PredictGlitch.get_team_stats sample_history "Arsenal" true 5) = 10.
Proof. split; reflexivity. Qed.

(** ** Squad strength (C10) *)

Lemma injury_step_tested ul team_id acc i :
  names_readable team_id [i] = true ->
  Scout.injury_step ul (Scout.key_players_db team_id) acc i
  = Return (tested_step ul team_id acc i).
Proof.
  unfold names_readable, Scout.injury_step, tested_step, key_injury, has_string_name.
  fold (injury_name i). destruct acc as [sc rs]. cbn [fst snd forallb].
  destruct (Scout.key_players_db team_id) as [|kp kps]; [reflexivity|].
  destruct (injury_name i) as [name|text]; [|discriminate].
  intros _. cbn [Scout.is_key]. destruct (existsb _ _); reflexivity.
Qed.

Lemma names_readable_cons team_id i l :
  names_readable team_id (i :: l)
  = (names_readable team_id [i] && names_readable team_id l)%bool.
Proof.
  unfold names_readable. destruct (Scout.key_players_db team_id); [reflexivity|].
  cbn [forallb]. now rewrite andb_true_r.
Qed.

Lemma names_readable_app team_id l more :
  names_readable team_id (l ++ more)
  = (names_readable team_id l && names_readable team_id more)%bool.
Proof.
  unfold names_readable. destruct (Scout.key_players_db team_id); [reflexivity|].
  apply forallb_app.
Qed.

Lemma injury_step_raises ul team_id acc i :
  names_readable team_id [i] = false ->
  Scout.injury_step ul (Scout.key_players_db team_id) acc i = Raise "AttributeError".
Proof.
  unfold names_readable, Scout.injury_step, has_string_name.
  fold (injury_name i). destruct acc as [sc rs]. cbn [forallb].
  destruct (Scout.key_players_db team_id) as [|kp kps]; [discriminate|].
  destruct (injury_name i) as [name|text]; [discriminate | reflexivity].
Qed.

Lemma injury_loop_returns ul team_id injuries acc :
  names_readable team_id injuries = true ->
  Scout.injury_loop ul (Scout.key_players_db team_id) acc injuries
  = Return (foldl (tested_step ul team_id) acc injuries).
Proof.
  revert acc. induction injuries as [|i l IH]; intros acc; [reflexivity|].
  rewrite names_readable_cons. intros [Hi Hl]%andb_prop.
  cbn [Scout.injury_loop foldl]. rewrite (injury_step_tested ul team_id acc i Hi).
  now apply IH.
Qed.

Lemma injury_loop_raises ul team_id injuries acc :
  names_readable team_id injuries = false ->
  Scout.injury_loop ul (Scout.key_players_db team_id) acc injuries
  = Raise "AttributeError".
Proof.
  revert acc. induction injuries as [|i l IH]; intros acc.
  - unfold names_readable. destruct (Scout.key_players_db team_id); discriminate.
  - rewrite names_readable_cons. cbn [Scout.injury_loop].
    destruct (names_readable team_id [i]) eqn:Hi.
    + rewrite (injury_step_tested ul team_id acc i Hi). cbn [andb]. apply IH.
    + intros _. now rewrite (injury_step_raises ul team_id acc i Hi).
Qed.

(** [calculate_squad_strength] returns exactly on the lists whose names
    the loop can test, and then the report of the tested steps. *)
Lemma squad_strength_returns ul team_id injuries :
  names_readable team_id injuries = true ->
  Scout.calculate_squad_strength ul team_id injuries
  = Return (report_of injuries (foldl (tested_step ul team_id) (100, []) injuries)).
Proof.
  intros Hr. unfold Scout.calculate_squad_strength.
  rewrite (injury_loop_returns ul team_id injuries _ Hr).
  destruct (foldl _ _ injuries) as [sc rs]. reflexivity.
Qed.

Lemma squad_strength_raises ul team_id injuries :
  names_readable team_id injuries = false ->
  Scout.calculate_squad_strength ul team_id injuries = Raise "AttributeError".
Proof.
  intros Hr. unfold Scout.calculate_squad_strength.
  now rewrite (injury_loop_raises ul team_id injuries _ Hr).
Qed.

Lemma squad_strength_return_inv ul team_id injuries s :
  Scout.calculate_squad_strength ul team_id injuries = Return s ->
  names_readable team_id injuries = true /\
  s = report_of injuries (foldl (tested_step ul team_id) (100, []) injuries).
Proof.
  intros Hs. destruct (names_readable team_id injuries) eqn:Hr.
  - rewrite (squad_strength_returns ul team_id injuries Hr) in Hs.
    injection Hs as <-. auto.
  - rewrite (squad_strength_raises ul team_id injuries Hr) in Hs. discriminate.
Qed.

Lemma injury_loop_score ul team_id injuries acc :
  fst (foldl (tested_step ul team_id) acc injuries)
  = fst acc - 15 * key_out ul team_id injuries - 3 * others_out ul team_id injuries.
Proof.
  unfold key_out, others_out, Py.len.
  revert acc. induction injuries as [|i l IH]; intros acc.
  - simpl. lia.
  - cbn [foldl]. rewrite IH. unfold tested_step.
    destruct (key_injury ul team_id i) eqn:Hk.
    + rewrite (filter_cons_True (fun i => key_injury ul team_id i = true)) by exact Hk.
      rewrite (filter_cons_False (fun i => key_injury ul team_id i = false))
        by (rewrite Hk; discriminate).
      cbn [fst length]. lia.
    + rewrite (filter_cons_False (fun i => key_injury ul team_id i = true))
        by (rewrite Hk; discriminate).
      rewrite (filter_cons_True (fun i => key_injury ul team_id i = false)) by exact Hk.
      cbn [fst length]. lia.
Qed.

Lemma squad_score_formula ul team_id injuries :
  Scout.score (report_of injuries (foldl (tested_step ul team_id) (100, []) injuries))
  = Z.max 0 (100 - 15 * key_out ul team_id injuries
             - 3 * others_out ul team_id injuries).
Proof.
  unfold report_of. cbn [Scout.score]. now rewrite injury_loop_score.
Qed.

Lemma report_status injuries acc :
  let s := report_of injuries acc in
  (Scout.status s = "STRONG" <-> 85 <= Scout.score s) /\
  (Scout.status s = "MODERATE" <-> 70 <= Scout.score s < 85) /\
  (Scout.status s = "WEAK" <-> Scout.score s < 70).
Proof.
  unfold report_of. cbn [Scout.score Scout.status].
  set (sc := Z.max 0 (fst acc)).
  destruct (Z.leb_spec 85 sc); [|destruct (Z.leb_spec 70 sc)];
    repeat split; intros; try discriminate; try lia; try reflexivity.
Qed.

(** C10 (divergence). For an injury whose player name is a JSON null, as
    [get_injuries] stores it, and a team with key players (Arsenal, 42),
    [calculate_squad_strength] raises an AttributeError and returns no
    score, although the same injury without the name key, or with a
    string name, or for a team without key players, is scored 97
    "STRONG". In general the function returns exactly when the team has
    no key players or every name it reads is a string; whenever it
    returns, the score is [max 0 (100 - 15*key - 3*others)], within
    [0, 100], and the status follows the thresholds 85 and 70. *)
Theorem squad_strength_fails_on_null_name :
  (forall ul, Scout.calculate_squad_strength ul 42 [null_name_injury]
              = Raise "AttributeError") /\
  (forall ul injury,
     injury = nameless_injury \/ injury = named_injury ->
     exists s, Scout.calculate_squad_strength ul 42 [injury] = Return s /\
               Scout.score s = 97 /\ Scout.status s = "STRONG") /\
  (forall ul,
     exists s, Scout.calculate_squad_strength ul 66 [null_name_injury] = Return s /\
               Scout.score s = 97 /\ Scout.status s = "STRONG") /\
  (forall ul team_id injuries,
     (names_readable team_id injuries = false <->
      Scout.calculate_squad_strength ul team_id injuries = Raise "AttributeError") /\
     (names_readable team_id injuries = true <->
      exists s, Scout.calculate_squad_strength ul team_id injuries = Return s) /\
     (forall s,
        Scout.calculate_squad_strength ul team_id injuries = Return s ->
        0 <= Scout.score s <= 100 /\
        Scout.score s
          = Z.max 0 (100 - 15 * key_out ul team_id injuries
                     - 3 * others_out ul team_id injuries) /\
        (Scout.status s = "STRONG" <-> 85 <= Scout.score s) /\
        (Scout.status s = "MODERATE" <-> 70 <= Scout.score s < 85) /\
        (Scout.status s = "WEAK" <-> Scout.score s < 70))).
Proof.
  split; [|split; [|split]].
  - intros ul. apply squad_strength_raises. reflexivity.
  - intros ul injury [-> | ->]; eexists; (split; [reflexivity|]); split; reflexivity.
  - intros ul. eexists. split; [reflexivity|]. split; reflexivity.
  - intros ul team_id injuries. split; [|split].
    + split; [apply squad_strength_raises|]. intros Hraise.
      destruct (names_readable team_id injuries) eqn:Hr; [|reflexivity].
      rewrite (squad_strength_returns ul team_id injuries Hr) in Hraise. discriminate.
    + split.
      * intros Hr. eexists. now apply squad_strength_returns.
      * intros [s Hs]. now apply squad_strength_return_inv in Hs.
    + intros s Hs. apply squad_strength_return_inv in Hs as [_ ->].
      pose proof (squad_score_formula ul team_id injuries) as Hf.
      assert (Hk : 0 <= key_out ul team_id injuries) by (unfold key_out, Py.len; lia).
      assert (Ho : 0 <= others_out ul team_id injuries)
        by (unfold others_out, Py.len; lia).
      split; [lia|]. split; [exact Hf|]. apply report_status.
Qed.

(** ** No look-ahead in the training loop (C2) *)

Section TrainingLoop.
Import TrainGlitch.
Variable n_games : nat.

(** The columns of row [i] are [current_stats] on the trackers as the
    loop leaves them after the rows before [i]: the update of a row
    comes after its own features and before those of the next row. *)
Lemma rolling_loop_lookup (rows : DataFrame) :
  forall (t : Trackers) (i : nat) (row : Match),
    rows !! i = Some row ->
    rolling_loop n_games t rows !! i
    = Some (row, current_stats n_games (foldl update_tracking t (take i rows)) row).
Proof.
  induction rows as [|r rest IH]; intros t i row Hi.
  - discriminate.
  - destruct i as [|i].
    + injection Hi as ->. reflexivity.
    + cbn [rolling_loop take foldl]. cbn in Hi |- *.
      exact (IH (update_tracking t r) i row Hi).
Qed.

Lemma rolling_loop_length (rows : DataFrame) :
  forall t, length (rolling_loop n_games t rows) = length rows.
Proof. induction rows as [|r rest IH]; intros t; simpl; [|rewrite IH]; reflexivity. Qed.

Lemma agree_upto (h1 h2 : DataFrame) (i : nat) (row : Match) :
  h1 !! i = Some row ->
  take (S i) h1 = take (S i) h2 ->
  h2 !! i = Some row /\ take i h1 = take i h2.
Proof.
  intros Hi Heq. split.
  - rewrite <- (lookup_take_lt h2 (S i) i) by lia.
    rewrite <- Heq, lookup_take_lt by lia. exact Hi.
  - replace i with (Nat.min i (S i)) by lia.
    rewrite <- !take_take, Heq. reflexivity.
Qed.

(** The features of a row do not even depend on that row's own result:
    only on the rows before it and on the two team names. *)
Lemma features_from_prior_rows (h1 h2 : DataFrame) (i : nat) (r1 r2 : Match) :
  h1 !! i = Some r1 -> h2 !! i = Some r2 ->
  take i h1 = take i h2 ->
  HomeTeam r1 = HomeTeam r2 -> AwayTeam r1 = AwayTeam r2 ->
  snd <$> rolling_loop n_games no_history h1 !! i
  = snd <$> rolling_loop n_games no_history h2 !! i.
Proof.
  intros H1 H2 Hpre Hh Ha.
  rewrite (rolling_loop_lookup h1 _ _ _ H1), (rolling_loop_lookup h2 _ _ _ H2).
  rewrite Hpre. cbn. unfold current_stats. rewrite Hh, Ha. reflexivity.
Qed.

(** C2. In the date-sorted history, the eight feature columns of the
    row at position [i] are computed from the trackers as they stand
    after exactly the rows at positions below [i] (the row's own result
    is appended afterwards), so two histories that agree on the rows up
    to and including position [i] give the same features at [i],
    whatever follows. *)
Theorem training_features_no_lookahead
    (sort_values : DataFrame -> DataFrame) (df1 df2 : DataFrame)
    (i : nat) (row : Match) :
  sort_values df1 !! i = Some row ->
  take (S i) (sort_values df1) = take (S i) (sort_values df2) ->
  calculate_rolling_stats sort_values df1 n_games !! i
    = calculate_rolling_stats sort_values df2 n_games !! i /\
  calculate_rolling_stats sort_values df1 n_games !! i
    = Some (row, current_stats n_games
                   (tracking_after (take i (sort_values df1))) row).
Proof.
  intros Hi Heq. unfold calculate_rolling_stats, tracking_after.
  destruct (agree_upto _ _ _ _ Hi Heq) as [Hi2 Hpre].
  rewrite (rolling_loop_lookup _ _ _ _ Hi), (rolling_loop_lookup _ _ _ _ Hi2).
  rewrite Hpre. split; reflexivity.
Qed.
End TrainingLoop.

(** ** Training features against the inference lookup (C1) *)

Section TrackerContents.
Import TrainGlitch.

Lemma append_lookup (d : gmap string (list Z)) (k team : string) (v : Z) :
  append d k v !!! team
  = if decide (k = team) then (d !!! team) ++ [v] else d !!! team.
Proof.
  unfold append. rewrite lookup_total_insert.
  destruct (decide (k = team)) as [->|]; reflexivity.
Qed.

(** A dictionary that receives [val row] under [key row] for each row
    holds, under a team, the values of the rows keyed by it, in order. *)
Lemma append_fold (key : Match -> string) (val : Match -> Z) (team : string)
    (rows : DataFrame) :
  forall d0 : gmap string (list Z),
    foldl (fun d r => append d (key r) (val r)) d0 rows !!! team
    = (d0 !!! team) ++ (val <$> filter (fun r => key r = team) rows).
Proof.
  induction rows as [|r rows IH]; intros d0.
  - cbn. now rewrite app_nil_r.
  - cbn [foldl]. rewrite IH, append_lookup.
    destruct (decide (key r = team)) as [E|N].
    + rewrite filter_cons_True by exact E. rewrite fmap_cons.
      now rewrite <- app_assoc.
    + rewrite filter_cons_False by exact N. reflexivity.
Qed.

(** Each of the six goal trackers is such a dictionary. *)
Lemma goal_trackers_fold (rows : DataFrame) :
  forall t,
    let t' := foldl update_tracking t rows in
    home_goals t' = foldl (fun d r => append d (HomeTeam r) (FTHG r)) (home_goals t) rows /\
    home_conceded t' = foldl (fun d r => append d (HomeTeam r) (FTAG r)) (home_conceded t) rows /\
    home_btts t' = foldl (fun d r => append d (HomeTeam r) (btts_flag r)) (home_btts t) rows /\
    away_goals t' = foldl (fun d r => append d (AwayTeam r) (FTAG r)) (away_goals t) rows /\
    away_conceded t' = foldl (fun d r => append d (AwayTeam r) (FTHG r)) (away_conceded t) rows /\
    away_btts t' = foldl (fun d r => append d (AwayTeam r) (btts_flag r)) (away_btts t) rows.
Proof.
  induction rows as [|r rows IH]; intros t.
  - cbn. repeat split; reflexivity.
  - cbn [foldl]. cbn zeta.
    destruct (IH (update_tracking t r)) as (H1 & H2 & H3 & H4 & H5 & H6).
    rewrite H1, H2, H3, H4, H5, H6. unfold update_tracking.
    destruct (if (FTR r =? "H")%string then _ else _) as [hp ap].
    repeat split; reflexivity.
Qed.

Lemma lookup_total_empty_list (team : string) :
  (∅ : gmap string (list Z)) !!! team = [].
Proof. rewrite lookup_total_empty. reflexivity. Qed.

(** What the goal trackers hold under a team after the loop has gone
    through [rows]: the columns of that team's home, resp. away, rows. *)
Lemma goal_trackers_after (rows : DataFrame) (team : string) :
  let t := tracking_after rows in
  home_goals t !!! team = FTHG <$> home_rows team rows /\
  home_conceded t !!! team = FTAG <$> home_rows team rows /\
  home_btts t !!! team = btts_flag <$> home_rows team rows /\
  away_goals t !!! team = FTAG <$> away_rows team rows /\
  away_conceded t !!! team = FTHG <$> away_rows team rows /\
  away_btts t !!! team = btts_flag <$> away_rows team rows.
Proof.
  cbn zeta. unfold tracking_after.
  destruct (goal_trackers_fold rows no_history) as (H1 & H2 & H3 & H4 & H5 & H6).
  rewrite H1, H2, H3, H4, H5, H6. cbn [no_history home_goals home_conceded
    home_btts away_goals away_conceded away_btts].
  rewrite !append_fold, !lookup_total_empty_list.
  repeat split; reflexivity.
Qed.
End TrackerContents.

Lemma tail_length_min {A} n (l : list A) :
  length (Py.tail n l) = Nat.min n (length l).
Proof. unfold Py.tail. rewrite length_drop. lia. Qed.

Lemma len_fmap {A B} (f : A -> B) (l : list A) : Py.len (f <$> l) = Py.len l.
Proof. unfold Py.len. now rewrite length_fmap. Qed.

Lemma len_positive {A} (l : list A) : (0 < length l)%nat -> (0 <? Py.len l) = true.
Proof. intros H. apply Z.ltb_lt. unfold Py.len. lia. Qed.

Lemma len_nonzero {A} (l : list A) : (0 < length l)%nat -> (Py.len l =? 0) = false.
Proof. intros H. apply Z.eqb_neq. unfold Py.len. lia. Qed.

(** The goal block of the inference lookup on a non-empty venue window. *)
Lemma venue_goal_stats_home df team n :
  (0 < n)%nat -> (0 < length (home_rows team df))%nat ->
  let home_games := Py.tail n (home_rows team df) in
  venue_goal_stats df team true n
  = (Py.mean (FTHG <$> home_games), Py.mean (FTAG <$> home_games),
     (Py.mean (btts_flag <$> home_games) * 100)%Q).
Proof.
  intros Hn Hl. cbn zeta. unfold venue_goal_stats.
  rewrite len_positive by (rewrite tail_length_min; lia).
  unfold Py.mean. now rewrite !len_fmap.
Qed.

Lemma venue_goal_stats_away df team n :
  (0 < n)%nat -> (0 < length (away_rows team df))%nat ->
  let away_games := Py.tail n (away_rows team df) in
  venue_goal_stats df team false n
  = (Py.mean (FTAG <$> away_games), Py.mean (FTHG <$> away_games),
     (Py.mean (btts_flag <$> away_games) * 100)%Q).
Proof.
  intros Hn Hl. cbn zeta. unfold venue_goal_stats.
  rewrite len_positive by (rewrite tail_length_min; lia).
  unfold Py.mean. now rewrite !len_fmap.
Qed.

Lemma filter_length_mono {A} (P R : A -> Prop)
    `{!forall x, Decision (P x)} `{!forall x, Decision (R x)} (l : list A) :
  (forall x, P x -> R x) -> (length (filter P l) <= length (filter R l))%nat.
Proof.
  intros HPR. induction l as [|x l IH]; [reflexivity|].
  rewrite !filter_cons.
  destruct (decide (P x)) as [p|np], (decide (R x)) as [r|nr]; cbn; try lia.
  exfalso. exact (nr (HPR x p)).
Qed.

Lemma team_rows_cover team df :
  (length (home_rows team df) <= length (team_rows team df))%nat /\
  (length (away_rows team df) <= length (team_rows team df))%nat.
Proof.
  unfold home_rows, away_rows, team_rows.
  split; apply filter_length_mono; tauto.
Qed.

(** With a venue row and a positive window size, both lookups select a
    non-empty window. *)
Lemma venue_window_nonempty (df : DataFrame) team (is_home : bool) n :
  (0 < n)%nat ->
  (0 < length (if is_home then home_rows team df else away_rows team df))%nat ->
  (0 < length (GlitchEngine.venue_games df team is_home n))%nat /\
  (0 < length (PredictGlitch.venue_games df team is_home n))%nat.
Proof.
  intros Hn Hl. destruct (team_rows_cover team df) as [Hh Ha].
  unfold GlitchEngine.venue_games, PredictGlitch.venue_games.
  destruct is_home;
    (split; match goal with |- context [if ?c then _ else _] => destruct c end;
     rewrite tail_length_min; lia).
Qed.

Lemma stats_of_window_goals df team is_home n window :
  (0 < length window)%nat ->
  (avg_goals (stats_of_window df team is_home n window),
   avg_conceded (stats_of_window df team is_home n window),
   btts_rate (stats_of_window df team is_home n window))
  = venue_goal_stats df team is_home n.
Proof.
  intros Hl. unfold stats_of_window. rewrite len_nonzero by exact Hl.
  destruct (venue_goal_stats df team is_home n) as [[? ?] ?]. reflexivity.
Qed.

Section TrainingAgainstInference.
Import TrainGlitch.

Lemma np_mean_nonempty (xs : list Z) :
(0 < length xs)%nat -> Py.np_mean xs = Some (Py.mean xs).
Proof. destruct xs; [cbn; lia | reflexivity]. Qed.

Lemma enough_fmap {A} (f : A -> Z) n (l : list A) :
  (n <= length l)%nat -> enough n (f <$> l) = true.
Proof. intros H. unfold enough. apply Z.leb_le. rewrite len_fmap. unfold Py.len. lia. Qed.

Lemma training_home_goal_columns n pre row :
  (0 < n)%nat -> (n <= length (home_rows (HomeTeam row) pre))%nat ->
  home_goal_columns (current_stats n (tracking_after pre) row)
  = (fun '(a, b, c) => (Some a, Some b, Some c))
      (venue_goal_stats pre (HomeTeam row) true n).
Proof.
  intros Hn Hl.
  destruct (goal_trackers_after pre (HomeTeam row)) as (H1 & H2 & H3 & _).
  unfold home_goal_columns, current_stats.
  cbn [Home_Avg_Goals Home_Avg_Conceded Home_BTTS_Rate].
  rewrite H1, H2, H3, enough_fmap by exact Hl.
  rewrite !last_n_tail by exact Hn.
  rewrite !np_mean_nonempty by (rewrite tail_length_min, length_fmap; lia).
  rewrite <- !tail_fmap.
  rewrite venue_goal_stats_home by lia. reflexivity.
Qed.

Lemma training_away_goal_columns n pre row :
  (0 < n)%nat -> (n <= length (away_rows (AwayTeam row) pre))%nat ->
  away_goal_columns (current_stats n (tracking_after pre) row)
  = (fun '(a, b, c) => (Some a, Some b, Some c))
      (venue_goal_stats pre (AwayTeam row) false n).
Proof.
  intros Hn Hl.
  destruct (goal_trackers_after pre (AwayTeam row)) as (_ & _ & _ & H4 & H5 & H6).
  unfold away_goal_columns, current_stats.
  cbn [Away_Avg_Goals Away_Avg_Conceded Away_BTTS_Rate].
  rewrite H4, H5, H6, enough_fmap by exact Hl.
  rewrite !last_n_tail by exact Hn.
  rewrite !np_mean_nonempty by (rewrite tail_length_min, length_fmap; lia).
  rewrite <- !tail_fmap.
  rewrite venue_goal_stats_away by lia. reflexivity.
Qed.

Lemma goal_entries_of_window df team is_home n window :
  (0 < length window)%nat ->
  goal_entries (stats_of_window df team is_home n window)
  = (fun '(a, b, c) => (Some a, Some b, Some c)) (venue_goal_stats df team is_home n).
Proof.
  intros Hl. unfold goal_entries.
  pose proof (stats_of_window_goals df team is_home n window Hl) as H.
  destruct (venue_goal_stats df team is_home n) as [[a b] c].
  injection H as -> -> ->. reflexivity.
Qed.

(** The part of the training/inference correspondence that holds: with
    a positive window size and at least [n_games] earlier venue rows of
    the team, the average goals scored, average goals conceded and BTTS
    rate that training writes into a row are the ones both inference
    lookups compute from the rows before it. *)
Lemma training_goal_columns_match_inference n rows i row f :
  (0 < n)%nat ->
  rolling_loop n no_history rows !! i = Some (row, f) ->
  let pre := take i rows in
  ((n <= length (home_rows (HomeTeam row) pre))%nat ->
     home_goal_columns f
       = goal_entries (GlitchEngine.get_team_stats (Some pre) (HomeTeam row) true n) /\
     home_goal_columns f
       = goal_entries (PredictGlitch.get_team_stats pre (HomeTeam row) true n)) /\
  ((n <= length (away_rows (AwayTeam row) pre))%nat ->
     away_goal_columns f
       = goal_entries (GlitchEngine.get_team_stats (Some pre) (AwayTeam row) false n) /\
     away_goal_columns f
       = goal_entries (PredictGlitch.get_team_stats pre (AwayTeam row) false n)).
Proof.
  intros Hn Hf pre.
  assert (Hrow : exists row', rows !! i = Some row').
  { apply lookup_lt_is_Some. rewrite <- (rolling_loop_length n rows no_history).
    apply lookup_lt_is_Some. eauto. }
  destruct Hrow as [row' Hrow].
  rewrite (rolling_loop_lookup n rows _ _ _ Hrow) in Hf.
  injection Hf as <- <-. fold pre. fold (tracking_after pre).
  unfold GlitchEngine.get_team_stats, PredictGlitch.get_team_stats.
  split; intros Hl.
  - destruct (venue_window_nonempty pre (HomeTeam row') true n Hn) as [He Hp];
      [cbn; lia|].
    rewrite !goal_entries_of_window by assumption.
    split; now apply training_home_goal_columns.
  - destruct (venue_window_nonempty pre (AwayTeam row') false n Hn) as [He Hp];
      [cbn; lia|].
    rewrite !goal_entries_of_window by assumption.
    split; now apply training_away_goal_columns.
Qed.
End TrainingAgainstInference.

Section TrainingForm.
Import TrainGlitch.

Lemma team_results_step t r :
  team_results (update_tracking t r)
  = append (append (team_results t) (HomeTeam r) (fst (result_points r)))
      (AwayTeam r) (snd (result_points r)).
Proof.
  unfold update_tracking, result_points.
  destruct (FTR r =? "H")%string; [reflexivity|].
  destruct (FTR r =? "D")%string; reflexivity.
Qed.

Lemma team_results_fold (team : string) (rows : DataFrame) :
  forall t,
    team_results (foldl update_tracking t rows) !!! team
    = (team_results t !!! team) ++ concat (results_of_row team <$> rows).
Proof.
  induction rows as [|r rows IH]; intros t.
  - cbn. now rewrite app_nil_r.
  - cbn [foldl]. rewrite IH, team_results_step, !append_lookup.
    rewrite fmap_cons. cbn [concat]. unfold results_of_row at 2.
    destruct (decide (AwayTeam r = team)), (decide (HomeTeam r = team));
      now rewrite <- ?app_assoc, ?app_nil_r.
Qed.

Lemma results_of_well_formed_row team r :
  well_formed r ->
  results_of_row team r
  = if decide (HomeTeam r = team \/ AwayTeam r = team)
    then [row_points team r] else [].
Proof.
  intros [Hne Hres]. unfold results_of_row, row_points, result_points.
  destruct (decide (HomeTeam r = team)) as [Eh|Nh];
    destruct (decide (AwayTeam r = team)) as [Ea|Na];
    try (exfalso; congruence).
  - rewrite bool_decide_eq_true_2 by exact Eh.
    rewrite decide_True by tauto.
    destruct Hres as [-> | [-> | ->]]; reflexivity.
  - rewrite bool_decide_eq_false_2 by exact Nh.
    rewrite decide_True by tauto.
    destruct Hres as [-> | [-> | ->]]; reflexivity.
  - rewrite decide_False by tauto. reflexivity.
Qed.

Lemma team_results_after (team : string) (rows : DataFrame) :
  Forall well_formed rows ->
  team_results (tracking_after rows) !!! team
  = row_points team <$> team_rows team rows.
Proof.
  intros Hwf. unfold tracking_after. rewrite team_results_fold.
  cbn [no_history team_results]. rewrite lookup_total_empty_list. cbn [app].
  unfold team_rows. induction Hwf as [|r rows Hr _ IH].
  - reflexivity.
  - rewrite fmap_cons. cbn [concat]. rewrite IH, filter_cons.
    rewrite (results_of_well_formed_row team r Hr).
    destruct (decide (HomeTeam r = team \/ AwayTeam r = team)); reflexivity.
Qed.

(** The form column of training is the form of the team's last
    [n_games] rows at any venue: the window the inference lookup only
    uses as its fallback. *)
Lemma training_form_all_venues n pre row :
  (0 < n)%nat -> Forall well_formed pre ->
  ((n <= length (team_rows (HomeTeam row) pre))%nat ->
     HomeTeam_Form (current_stats n (tracking_after pre) row)
     = Some (inject_Z (form_points (HomeTeam row)
                         (Py.tail n (team_rows (HomeTeam row) pre))))) /\
  ((n <= length (team_rows (AwayTeam row) pre))%nat ->
     AwayTeam_Form (current_stats n (tracking_after pre) row)
     = Some (inject_Z (form_points (AwayTeam row)
                         (Py.tail n (team_rows (AwayTeam row) pre))))).
Proof.
  intros Hn Hwf. unfold current_stats.
  cbn [HomeTeam_Form AwayTeam_Form].
  rewrite !team_results_after by exact Hwf.
  split; intros Hl; rewrite enough_fmap by exact Hl;
    rewrite last_n_tail by exact Hn;
    now rewrite <- tail_fmap, form_points_sum.
Qed.
End TrainingForm.

Lemma training_features_no_lookahead_witness :
  TrainGlitch.calculate_rolling_stats id future_a 5 !! 6%nat
    = TrainGlitch.calculate_rolling_stats id future_b 5 !! 6%nat /\
  TrainGlitch.calculate_rolling_stats id future_a 5 !! 6%nat
    = Some (mkMatch (Some 7) "Arsenal" "Chelsea" 0 0 "D",
            TrainGlitch.current_stats 5
              (TrainGlitch.tracking_after (take 6 (id future_a)))
              (mkMatch (Some 7) "Arsenal" "Chelsea" 0 0 "D")).
Proof.
  apply (training_features_no_lookahead 5 id future_a future_b 6
           (mkMatch (Some 7) "Arsenal" "Chelsea" 0 0 "D")); reflexivity.
Defined.

(** C1 (divergence). At position 6 of [skewed_history] Arsenal has five
    earlier home rows, so every feature is defined; training writes form
    12 (the last five results at any venue: 3, 3, 3, 3, 0) while both
    inference lookups, on the six rows before it, return form 15 (the
    last five home rows). The three goal columns agree (1.8, 0.4, 40). *)
Theorem training_form_differs_from_inference :
  exists row f,
    TrainGlitch.calculate_rolling_stats id skewed_history 5 !! 6%nat = Some (row, f) /\
    HomeTeam row = "Arsenal" /\
    (5 <= length (home_rows "Arsenal" (take 6 skewed_history)))%nat /\
    TrainGlitch.HomeTeam_Form f = Some (inject_Z 12) /\
    form (GlitchEngine.get_team_stats (Some (take 6 skewed_history)) "Arsenal" true 5) = 15 /\
    form (PredictGlitch.get_team_stats (take 6 skewed_history) "Arsenal" true 5) = 15 /\
    home_goal_columns f
      = goal_entries (PredictGlitch.get_team_stats (take 6 skewed_history) "Arsenal" true 5).
Proof.
  eexists _, _. split; [vm_compute; reflexivity|].
  repeat split; vm_compute; reflexivity.
Qed.

(** ** The safest glitch (C4) *)

Lemma gt_true (a b : Q) : Py.gt a b = true <-> (b < a)%Q.
Proof.
  unfold Py.gt. rewrite negb_true_iff. split.
  - intros H. apply Qnot_le_lt. intros Hle.
    apply Qle_bool_iff in Hle. congruence.
  - intros H. destruct (Qle_bool a b) eqn:E; [|reflexivity].
    apply Qle_bool_iff in E. exfalso. exact (Qlt_not_le _ _ H E).
Qed.

Lemma gt_false (a b : Q) : Py.gt a b = false <-> (a <= b)%Q.
Proof.
  unfold Py.gt. rewrite negb_false_iff. apply Qle_bool_iff.
Qed.

(** [max] with a key over a list of three returns the item at the first
    position of a maximal key. *)
Lemma max_by_three {A} (key : A -> Q) (x1 x2 x3 : A) :
  exists k, first_maximum (key x1) (key x2) (key x3) k /\
            [x1; x2; x3] !! k = Some (Py.max_by key x1 [x2; x3]).
Proof.
  unfold Py.max_by. cbn [foldl].
  destruct (Py.gt (key x2) (key x1)) eqn:E21.
  - apply gt_true in E21.
    destruct (Py.gt (key x3) (key x2)) eqn:E32.
    + apply gt_true in E32. exists 2%nat. split; [|reflexivity].
      split; [lra | lra].
    + apply gt_false in E32. exists 1%nat. split; [|reflexivity]. split; lra.
  - apply gt_false in E21.
    destruct (Py.gt (key x3) (key x1)) eqn:E31.
    + apply gt_true in E31. exists 2%nat. split; [|reflexivity]. split; lra.
    + apply gt_false in E31. exists 0%nat. split; [|reflexivity]. split; lra.
Qed.

Lemma first_maximum_is_max c1 c2 c3 k c :
  first_maximum c1 c2 c3 k -> [c1; c2; c3] !! k = Some c ->
  (c1 <= c /\ c2 <= c /\ c3 <= c)%Q.
Proof.
  destruct k as [|[|[|k]]]; cbn; intros H E; try discriminate;
    injection E as <-; destruct H; repeat split; lra.
Qed.

Lemma max_by_safest_among (x1 x2 x3 : string * string * Q) :
  safest_among [x1; x2; x3] (Py.max_by snd x1 [x2; x3]).
Proof.
  destruct (max_by_three snd x1 x2 x3) as (k & Hk & Hsel).
  generalize dependent (Py.max_by snd x1 [x2; x3]). intros s Hsel.
  exists k. split; [exact Hsel|].
  destruct k as [|[|[|k]]]; cbn in Hk, Hsel; try contradiction;
    injection Hsel as <-; destruct Hk as [Ha Hb]; split.
  all: intros [|[|[|j]]] bet; cbn; intros; simplify_eq; try lia; try lra.
Qed.

Lemma triple_eta (x : string * string * Q) : (fst (fst x), snd (fst x), snd x) = x.
Proof. destruct x as [[? ?] ?]. reflexivity. Qed.

Lemma engine_ml_safest w home_team away_team models r :
  load_models w = Some models ->
  GlitchEngine.predict_match_ml w home_team away_team = Return r ->
  GlitchEngine.using_ml r = true /\
  safest_among (engine_bets (GlitchEngine.predictions r)) (engine_safest r).
Proof.
  intros Hm. unfold GlitchEngine.predict_match_ml. rewrite Hm.
  destruct (prepare_features _ _ _) as [X|]; [|discriminate].
  intros [= <-]. split; [reflexivity|].
  unfold engine_safest, engine_bets.
  cbn [GlitchEngine.predictions GlitchEngine.safest_glitch GlitchEngine.market
       GlitchEngine.bet GlitchEngine.confidence GlitchEngine.win GlitchEngine.goals
       GlitchEngine.btts GlitchEngine.win_best GlitchEngine.win_confidence
       GlitchEngine.goals_best GlitchEngine.goals_confidence
       GlitchEngine.btts_best GlitchEngine.btts_confidence].
  rewrite triple_eta. apply max_by_safest_among.
Qed.

Lemma predict_ml_safest w home_team away_team check_squad p :
  PredictGlitch.predict_all_markets w home_team away_team check_squad
    = Return (PredictGlitch.Predicted p) ->
  safest_among (predict_bets (PredictGlitch.predictions p)) (predict_safest p).
Proof.
  unfold PredictGlitch.predict_all_markets.
  destruct (load_models w) as [models|]; [|discriminate].
  destruct (load_historical_data w) as [df|]; [|discriminate].
  match goal with |- context [match ?s with Some _ => _ | None => _ end = _] =>
    destruct s as [skip|] end; [discriminate|].
  destruct (prepare_features _ _ _) as [X|]; [|discriminate].
  intros [= <-].
  unfold predict_safest, predict_bets.
  cbn [PredictGlitch.predictions PredictGlitch.safest_glitch PredictGlitch.market
       PredictGlitch.bet PredictGlitch.confidence PredictGlitch.win
       PredictGlitch.goals PredictGlitch.btts PredictGlitch.win_best_bet
       PredictGlitch.win_best_prob PredictGlitch.goals_best_bet
       PredictGlitch.goals_best_prob PredictGlitch.btts_best_bet
       PredictGlitch.btts_best_prob].
  rewrite triple_eta. apply max_by_safest_among.
Qed.

Lemma engine_fallback_safest w home_team away_team :
  load_models w = None ->
  exists r,
    GlitchEngine.predict_match_ml w home_team away_team = Return r /\
    r = GlitchEngine.predict_match_heuristic w home_team away_team /\
    GlitchEngine.using_ml r = false /\
    engine_safest r
    = ("Match Result",
       GlitchEngine.win_best (GlitchEngine.win (GlitchEngine.predictions r)),
       GlitchEngine.win_confidence (GlitchEngine.win (GlitchEngine.predictions r))).
Proof.
  intros Hm. unfold GlitchEngine.predict_match_ml. rewrite Hm.
  eexists. split; [reflexivity|]. repeat split; reflexivity.
Qed.

Lemma max2_spec (a b : Q) :
  (Py.max2 (a, b) = a \/ Py.max2 (a, b) = b) /\
  (a <= Py.max2 (a, b) /\ b <= Py.max2 (a, b))%Q.
Proof.
  unfold Py.max2, Py.max_by, id. cbn [foldl].
  destruct (Py.gt b a) eqn:E.
  - apply gt_true in E. split; [now right | split; lra].
  - apply gt_false in E. split; [now left | split; lra].
Qed.

Lemma max3_spec (a b c : Q) :
  (Py.max3 (a, b, c) = a \/ Py.max3 (a, b, c) = b \/ Py.max3 (a, b, c) = c) /\
  (a <= Py.max3 (a, b, c) /\ b <= Py.max3 (a, b, c) /\ c <= Py.max3 (a, b, c))%Q.
Proof.
  unfold Py.max3.
  destruct (max_by_three id a b c) as (k & Hk & Hsel).
  generalize dependent (Py.max_by id a [b; c]). intros m Hsel.
  unfold id in Hk.
  destruct k as [|[|[|k]]]; cbn in Hk, Hsel; try contradiction;
    injection Hsel as <-; destruct Hk; (split; [tauto | repeat split; lra]).
Qed.

(** [numpy.argmax] points at the value that [max] returns. *)
Lemma argmax3_spec (a b c : Q) :
  [a; b; c] !! Py.argmax3 (a, b, c) = Some (Py.max3 (a, b, c)).
Proof.
  unfold Py.argmax3, Py.max3, Py.max_by, id. cbn [foldl snd fst].
  destruct (Py.gt b a); cbn [snd];
    destruct (Py.gt c _); reflexivity.
Qed.

Lemma best_probability_3 (p : Q * Q * Q) :
  best_probability [fst (fst p) * 100; snd (fst p) * 100; snd p * 100]%Q
    (Py.max3 p * 100)%Q.
Proof.
  destruct p as [[a b] c]. cbn [fst snd].
  destruct (max3_spec a b c) as [Hin (Ha & Hb & Hc)].
  split.
  - destruct Hin as [-> | [-> | ->]]; set_solver.
  - intros p Hp. repeat (apply elem_of_cons in Hp as [->|Hp]); [lra..|].
    inversion Hp.
Qed.

Lemma best_probability_2 (p : Q * Q) :
  best_probability [fst p * 100; snd p * 100]%Q (Py.max2 p * 100)%Q.
Proof.
  destruct p as [a b]. cbn [fst snd].
  destruct (max2_spec a b) as [Hin (Ha & Hb)].
  split.
  - destruct Hin as [-> | ->]; set_solver.
  - intros p Hp. repeat (apply elem_of_cons in Hp as [->|Hp]); [lra..|].
    inversion Hp.
Qed.

Lemma engine_ml_confidences w home_team away_team models r :
  load_models w = Some models ->
  GlitchEngine.predict_match_ml w home_team away_team = Return r ->
  engine_confidences_are_best (GlitchEngine.predictions r).
Proof.
  intros Hm. unfold GlitchEngine.predict_match_ml. rewrite Hm.
  destruct (prepare_features _ _ _) as [X|]; [|discriminate].
  intros [= <-]. unfold engine_confidences_are_best. cbn.
  repeat split; first [apply best_probability_3 | apply best_probability_2].
Qed.

Lemma predict_ml_confidences w home_team away_team check_squad p :
  PredictGlitch.predict_all_markets w home_team away_team check_squad
    = Return (PredictGlitch.Predicted p) ->
  predict_confidences_are_best (PredictGlitch.predictions p).
Proof.
  unfold PredictGlitch.predict_all_markets.
  destruct (load_models w) as [models|]; [|discriminate].
  destruct (load_historical_data w) as [df|]; [|discriminate].
  match goal with |- context [match ?s with Some _ => _ | None => _ end = _] =>
    destruct s as [skip|] end; [discriminate|].
  destruct (prepare_features _ _ _) as [X|]; [|discriminate].
  intros [= <-]. unfold predict_confidences_are_best. cbn.
  repeat split; first [apply best_probability_3 | apply best_probability_2].
Qed.

(** C4 (counterexample). With the artifacts missing, [predict_match_ml]
    returns a prediction whose safest glitch is the result market at
    confidence 50 although the BTTS market reports 55 and the goals
    market 52. *)
Lemma fallback_safest_is_not_best :
  exists r,
    GlitchEngine.predict_match_ml no_files "Arsenal" "Chelsea" = Return r /\
    (GlitchEngine.confidence (GlitchEngine.safest_glitch r) == 50)%Q /\
    (GlitchEngine.goals_confidence (GlitchEngine.goals (GlitchEngine.predictions r)) == 52)%Q /\
    (GlitchEngine.btts_confidence (GlitchEngine.btts (GlitchEngine.predictions r)) == 55)%Q /\
    ~ safest_among (engine_bets (GlitchEngine.predictions r)) (engine_safest r).
Proof.
  eexists. split; [reflexivity|].
  split; [reflexivity|]. split; [reflexivity|]. split; [reflexivity|].
  intros (k & _ & Hmax & _).
  specialize (Hmax 2%nat _ eq_refl). vm_compute in Hmax. apply Hmax. reflexivity.
Qed.

(** C4 (amended). Every prediction produced with the models loaded, by
    [predict_match_ml] as by [predict_all_markets], reports per market the
    largest percentage of that market as its confidence, and its safest
    glitch is the candidate of greatest confidence among (result, goals,
    BTTS), the earliest of them on a tie. With the models missing,
    [predict_match_ml] returns the heuristic result, whose safest glitch
    is always the result market. *)
Theorem safest_glitch_is_first_best (w : World) (home_team away_team : string) :
  (forall models r,
     load_models w = Some models ->
     GlitchEngine.predict_match_ml w home_team away_team = Return r ->
     GlitchEngine.using_ml r = true /\
     engine_confidences_are_best (GlitchEngine.predictions r) /\
     safest_among (engine_bets (GlitchEngine.predictions r)) (engine_safest r)) /\
  (forall check_squad p,
     PredictGlitch.predict_all_markets w home_team away_team check_squad
       = Return (PredictGlitch.Predicted p) ->
     predict_confidences_are_best (PredictGlitch.predictions p) /\
     safest_among (predict_bets (PredictGlitch.predictions p)) (predict_safest p)) /\
  (load_models w = None ->
   exists r,
     GlitchEngine.predict_match_ml w home_team away_team = Return r /\
     GlitchEngine.using_ml r = false /\
     engine_safest r
     = ("Match Result",
        GlitchEngine.win_best (GlitchEngine.win (GlitchEngine.predictions r)),
        GlitchEngine.win_confidence (GlitchEngine.win (GlitchEngine.predictions r)))).
Proof.
  split; [|split].
  - intros models r Hm Hr.
    destruct (engine_ml_safest _ _ _ _ _ Hm Hr) as [Hml Hs].
    split; [exact Hml|]. split; [|exact Hs].
    exact (engine_ml_confidences _ _ _ _ _ Hm Hr).
  - intros check_squad p Hp. split.
    + exact (predict_ml_confidences _ _ _ _ _ Hp).
    + exact (predict_ml_safest _ _ _ _ _ Hp).
  - intros Hm. destruct (engine_fallback_safest w home_team away_team Hm)
      as (r & Hr & _ & Hml & Hs).
    exists r. auto.
Qed.

(** On [ml_world] the result and goals markets tie at 60: the result
    market, first in the enumeration, is selected by both predictors. *)
Lemma safest_glitch_is_first_best_witness :
  (exists r,
     GlitchEngine.predict_match_ml ml_world "Arsenal" "Chelsea" = Return r /\
     engine_safest r = ("Match Result", "Home Win", (3 # 5) * 100)%Q /\
     safest_among (engine_bets (GlitchEngine.predictions r)) (engine_safest r)) /\
  (exists p,
     PredictGlitch.predict_all_markets ml_world "Arsenal" "Chelsea" true
       = Return (PredictGlitch.Predicted p) /\
     predict_safest p = ("win", "Home Win", (3 # 5) * 100)%Q /\
     safest_among (predict_bets (PredictGlitch.predictions p)) (predict_safest p)) /\
  (exists r,
     GlitchEngine.predict_match_ml no_files "Arsenal" "Chelsea" = Return r /\
     GlitchEngine.using_ml r = false).
Proof.
  destruct (safest_glitch_is_first_best ml_world "Arsenal" "Chelsea") as (He & Hp & _).
  destruct (safest_glitch_is_first_best no_files "Arsenal" "Chelsea") as (_ & _ & Hf).
  split; [|split].
  - eexists. split; [reflexivity|]. split; [reflexivity|].
    apply (He constant_models); reflexivity.
  - eexists. split; [reflexivity|]. split; [reflexivity|].
    apply (Hp true). reflexivity.
  - destruct (Hf eq_refl) as (r & Hr & Hml & _). exists r. auto.
Defined.

(** ** The squad-risk gate (C7) *)

(** The gate raises [should_skip], and gives a reason, exactly when the
    smaller of the two scores it reports is below 70. *)
Lemma skip_decision_signal (available : bool) (home away : Scout.SideNews) :
  let news := Scout.skip_decision available home away in
  Scout.home news = home /\ Scout.away news = away /\
  (Scout.should_skip news = true <->
   Z.min (Scout.side_score home) (Scout.side_score away) < 70) /\
  (Scout.should_skip news = true <-> is_Some (Scout.skip_reason news)).
Proof.
  cbn zeta. unfold Scout.skip_decision.
  destruct (Z.ltb_spec (Z.min (Scout.side_score home) (Scout.side_score away)) 70);
    cbn [Scout.should_skip Scout.home Scout.away Scout.skip_reason].
  - repeat split; intros; eauto.
  - repeat split; intros H0; try discriminate; try lia.
    destruct H0; discriminate.
Qed.

(** What [get_team_news] returns is the decision on the two sides it
    filled; it raises when filling a side raises. *)
Lemma get_team_news_inv (api : Scout.Api)
    (fixture_id home_team_id away_team_id : option Z) (news : Scout.News) :
  Scout.get_team_news api fixture_id home_team_id away_team_id = Return news ->
  exists available home away, news = Scout.skip_decision available home away.
Proof.
  unfold Scout.get_team_news.
  destruct (if Py.truthy fixture_id then _ else _) as [[available hl] al].
  destruct (Scout.check_injuries api _ _) as [home|]; [|discriminate].
  destruct (Scout.check_injuries api _ _) as [away|]; [|discriminate].
  intros [= <-]. eauto.
Qed.

Lemma gate_signal (api : Scout.Api) (fixture_id home_team_id away_team_id : option Z)
    (news : Scout.News) :
  Scout.get_team_news api fixture_id home_team_id away_team_id = Return news ->
  (Scout.should_skip news = true <->
   Z.min (Scout.side_score (Scout.home news)) (Scout.side_score (Scout.away news)) < 70) /\
  (Scout.should_skip news = true <-> is_Some (Scout.skip_reason news)).
Proof.
  intros (available & home & away & ->)%get_team_news_inv.
  destruct (skip_decision_signal available home away) as (Hh & Ha & Hmin & Hreason).
  rewrite Hh, Ha. auto.
Qed.

(** C7. When the gate is consulted (models and history loaded, squad
    check requested, scout module importable, a team id found) and
    reports, it reports [should_skip] exactly when the minimum of the two
    squad scores is below 70, and then [predict_all_markets] returns the
    skipped result, which carries the gate's reason and news and the two
    stats dictionaries and has no predictions; when the gate does not
    report it, or raises instead of reporting, the result is not a
    skip. *)
Theorem squad_gate_skip (w : World) (home_team away_team : string)
    (models : ModelBank) (df : DataFrame) (api : Scout.Api) :
  load_models w = Some models ->
  load_historical_data w = Some df ->
  scout w = Some api ->
  (Py.truthy (Scout.get_team_id home_team)
   || Py.truthy (Scout.get_team_id away_team))%bool = true ->
  let gate := Scout.get_team_news api None (Scout.get_team_id home_team)
                (Scout.get_team_id away_team) in
  (forall news,
     gate = Return news ->
     (Scout.should_skip news = true <->
      Z.min (Scout.side_score (Scout.home news))
            (Scout.side_score (Scout.away news)) < 70) /\
     (Scout.should_skip news = true ->
      exists s,
        PredictGlitch.predict_all_markets w home_team away_team true
          = Return (PredictGlitch.Skipped s) /\
        PredictGlitch.skip_reason s = Scout.skip_reason news /\
        is_Some (PredictGlitch.skip_reason s) /\
        PredictGlitch.skip_squad_news s = news /\
        PredictGlitch.skip_home_team s = home_team /\
        PredictGlitch.skip_away_team s = away_team /\
        PredictGlitch.skip_home_stats s
          = PredictGlitch.get_team_stats df home_team true 5 /\
        PredictGlitch.skip_away_stats s
          = PredictGlitch.get_team_stats df away_team false 5 /\
        PredictGlitch.get_predictions (PredictGlitch.Skipped s) = None) /\
     (Scout.should_skip news = false ->
      forall s, PredictGlitch.predict_all_markets w home_team away_team true
                <> Return (PredictGlitch.Skipped s))) /\
  (forall exc,
     gate = Raise exc ->
     forall s, PredictGlitch.predict_all_markets w home_team away_team true
               <> Return (PredictGlitch.Skipped s)).
Proof.
  intros Hm Hd Hs Hid gate. split.
  - intros news Hgate.
    destruct (gate_signal api None _ _ news Hgate) as [Hmin Hreason].
    split; [exact Hmin|].
    unfold PredictGlitch.predict_all_markets. rewrite Hm, Hd, Hs, Hid.
    fold gate. rewrite Hgate. split.
    + intros Hskip. rewrite Hskip. eexists. split; [reflexivity|].
      cbn. repeat split; try reflexivity. now apply Hreason.
    + intros Hskip s. rewrite Hskip.
      destruct (prepare_features _ _ _); discriminate.
  - intros exc Hgate s.
    unfold PredictGlitch.predict_all_markets. rewrite Hm, Hd, Hs, Hid.
    fold gate. rewrite Hgate.
    destruct (prepare_features _ _ _); discriminate.
Qed.

Lemma squad_gate_skip_witness :
  exists s,
    PredictGlitch.predict_all_markets gate_world "Arsenal" "Chelsea" true
      = Return (PredictGlitch.Skipped s) /\
    PredictGlitch.skip_reason s
      = Some "Home team has too many key players missing (Squad Score: 67%)" /\
    PredictGlitch.get_predictions (PredictGlitch.Skipped s) = None.
Proof.
  destruct (squad_gate_skip gate_world "Arsenal" "Chelsea" constant_models
              sample_history injured_api eq_refl eq_refl eq_refl eq_refl)
    as (Hnews & _).
  destruct (Hnews _ eq_refl) as (_ & Hskip & _).
  destruct (Hskip eq_refl) as (s & Hs & Hreason & _ & _ & _ & _ & _ & _ & Hnone).
  exists s. split; [exact Hs|]. split; [|exact Hnone].
  rewrite Hreason. reflexivity.
Defined.

(** ** The heuristic fallback (C5, C6) *)

Lemma stats_of_window_form_nonneg df team is_home n window :
  0 <= form (stats_of_window df team is_home n window).
Proof.
  unfold stats_of_window. destruct (Py.len window =? 0); [cbn; lia|].
  destruct (venue_goal_stats df team is_home n) as [[? ?] ?]. cbn.
  apply form_points_range.
Qed.

Lemma engine_form_nonneg df team is_home n :
  0 <= form (GlitchEngine.get_team_stats df team is_home n).
Proof.
  destruct df as [df|]; [apply stats_of_window_form_nonneg | cbn; lia].
Qed.

Lemma heuristic_forms_nonneg w home_team away_team :
  let r := GlitchEngine.predict_match_heuristic w home_team away_team in
  0 <= form (GlitchEngine.home_stats r) /\ 0 <= form (GlitchEngine.away_stats r).
Proof.
  cbn. destruct (load_historical_data w) as [df|].
  - split; apply engine_form_nonneg.
  - cbn. lia.
Qed.

Lemma strengths_positive_total fh fa :
  0 <= fh -> 0 <= fa -> 0 < fh + fa ->
  let '(hs, aws) := strengths fh fa in
  (hs + aws == 1 /\ 0 <= hs /\ 0 <= aws)%Q.
Proof.
  intros Hh Ha Ht. unfold strengths.
  replace (fh + fa =? 0) with false by (symmetry; apply Z.eqb_neq; lia).
  assert (HT : (0 < inject_Z (fh + fa))%Q).
  { change 0%Q with (inject_Z 0). rewrite <- Zlt_Qlt. exact Ht. }
  assert (Hfh : (0 <= inject_Z fh)%Q).
  { change 0%Q with (inject_Z 0). rewrite <- Zle_Qle. exact Hh. }
  assert (Hfa : (0 <= inject_Z fa)%Q).
  { change 0%Q with (inject_Z 0). rewrite <- Zle_Qle. exact Ha. }
  split; [|split].
  - rewrite inject_Z_plus in *. field. lra.
  - apply Qle_shift_div_l; [exact HT | lra].
  - apply Qle_shift_div_l; [exact HT | lra].
Qed.

Lemma strengths_zero_total : strengths 0 0 = ((0 / 1)%Q, (0 / 1)%Q).
Proof. reflexivity. Qed.

Lemma heuristic_strengths w home_team away_team :
  let r := GlitchEngine.predict_match_heuristic w home_team away_team in
  let '(hs, aws) := strengths (form (GlitchEngine.home_stats r))
                      (form (GlitchEngine.away_stats r)) in
  let win := GlitchEngine.win (GlitchEngine.predictions r) in
  GlitchEngine.win_home win = (hs * 100 * (11 # 10))%Q /\
  GlitchEngine.win_draw win = 25%Q /\
  GlitchEngine.win_away win = (aws * 100 * (9 # 10))%Q /\
  GlitchEngine.win_confidence win = (Py.max_by id hs [aws] * 100)%Q.
Proof. cbn. repeat split; reflexivity. Qed.

(** On the model path the three markets sum to 100, in both predictors. *)
Lemma engine_ml_markets_sum w home_team away_team models r :
  load_models w = Some models -> normalised models ->
  GlitchEngine.predict_match_ml w home_team away_team = Return r ->
  (engine_win_sum r == 100 /\ engine_goals_sum r == 100 /\ engine_btts_sum r == 100)%Q.
Proof.
  intros Hm Hn. unfold GlitchEngine.predict_match_ml. rewrite Hm.
  destruct (prepare_features _ _ _) as [X|]; [|discriminate].
  intros [= <-]. destruct (Hn X) as (Hw & Hg & Hb).
  unfold engine_win_sum, engine_goals_sum, engine_btts_sum. cbn.
  repeat split; lra.
Qed.

Lemma predict_ml_markets_sum w home_team away_team check_squad models p :
  load_models w = Some models -> normalised models ->
  PredictGlitch.predict_all_markets w home_team away_team check_squad
    = Return (PredictGlitch.Predicted p) ->
  (predict_win_sum p == 100 /\ predict_goals_sum p == 100 /\ predict_btts_sum p == 100)%Q.
Proof.
  intros Hm Hn. unfold PredictGlitch.predict_all_markets. rewrite Hm.
  destruct (load_historical_data w) as [df|]; [|discriminate].
  match goal with |- context [match ?s with Some _ => _ | None => _ end = _] =>
    destruct s as [skip|] end; [discriminate|].
  destruct (prepare_features _ _ _) as [X|]; [|discriminate].
  intros [= <-]. destruct (Hn X) as (Hw & Hg & Hb).
  unfold predict_win_sum, predict_goals_sum, predict_btts_sum. cbn.
  repeat split; lra.
Qed.

(** On the heuristic path the goals and BTTS markets sum to 100. *)
Lemma heuristic_goals_btts_sum w home_team away_team :
  let r := GlitchEngine.predict_match_heuristic w home_team away_team in
  (engine_goals_sum r == 100 /\ engine_btts_sum r == 100)%Q.
Proof.
  cbn zeta. unfold engine_goals_sum, engine_btts_sum. cbn. split; [reflexivity|].
  match goal with |- (100 - ?x + ?x == 100)%Q => generalize x end.
  intros x. lra.
Qed.

(** On the heuristic path the result market never sums to 100: its
    percentages add up to 115 + 20 * home_strength, between 115 and 135,
    when the two forms are not both 0, and to 25 when they are. *)
Lemma heuristic_result_market_sum w home_team away_team :
  let r := GlitchEngine.predict_match_heuristic w home_team away_team in
  let total := form (GlitchEngine.home_stats r) + form (GlitchEngine.away_stats r) in
  (0 < total -> (115 <= engine_win_sum r <= 135)%Q) /\
  (total = 0 -> (engine_win_sum r == 25)%Q) /\
  ~ (engine_win_sum r == 100)%Q.
Proof.
  cbn zeta.
  destruct (heuristic_forms_nonneg w home_team away_team) as [Hh Ha].
  pose proof (heuristic_strengths w home_team away_team) as Hs. cbn zeta in Hs.
  set (r := GlitchEngine.predict_match_heuristic w home_team away_team) in *.
  set (fh := form (GlitchEngine.home_stats r)) in *.
  set (fa := form (GlitchEngine.away_stats r)) in *.
  unfold engine_win_sum.
  pose proof (strengths_positive_total fh fa Hh Ha) as Hpos.
  destruct (strengths fh fa) as [hs aws] eqn:E.
  destruct Hs as (-> & -> & -> & _).
  assert (Hzero : fh + fa = 0 -> (hs == 0 /\ aws == 0)%Q).
  { intros H0. assert (fh = 0) as Hfh by lia. assert (fa = 0) as Hfa by lia.
    rewrite Hfh, Hfa, strengths_zero_total in E. injection E as <- <-.
    split; reflexivity. }
  split; [|split].
  - intros Ht. destruct (Hpos Ht) as (H1 & H2 & H3). split; lra.
  - intros H0. destruct (Hzero H0) as [-> ->]. reflexivity.
  - intros H100. destruct (Z.eq_dec (fh + fa) 0) as [H0|Hn0].
    + destruct (Hzero H0) as [Hhs Haws]. rewrite Hhs, Haws in H100. discriminate.
    + destruct Hpos as (H1 & H2 & H3); [lia|]. lra.
Qed.

(** C5 (divergence). With the artifacts and the history missing,
    [predict_match_ml] returns the heuristic result whose result market
    reads home 55, draw 25, away 45: a total of 125, not 100. *)
Theorem heuristic_result_market_sums_to_125 :
  exists r,
    GlitchEngine.predict_match_ml no_files "Arsenal" "Chelsea" = Return r /\
    GlitchEngine.using_ml r = false /\
    let win := GlitchEngine.win (GlitchEngine.predictions r) in
    (GlitchEngine.win_home win == 55 /\ GlitchEngine.win_draw win == 25 /\
     GlitchEngine.win_away win == 45 /\
     engine_win_sum r == 125 /\ ~ engine_win_sum r == 100)%Q.
Proof.
  eexists. split; [reflexivity|]. split; [reflexivity|].
  cbn zeta. repeat split; try reflexivity. discriminate.
Qed.








(** ** Teams outside the history (C3) *)

Lemma not_in_all_teams_absent (df : DataFrame) (team : string) :
  team ∉ PredictGlitch.all_teams df <-> absent team df.
Proof.
  unfold PredictGlitch.all_teams, absent. split.
  - intros Hnot r Hr. split; intros E; apply Hnot; subst team.
    + apply elem_of_union_l, elem_of_list_to_set, list_elem_of_fmap. eauto.
    + apply elem_of_union_r, elem_of_list_to_set, list_elem_of_fmap. eauto.
  - intros Habs [Hin|Hin]%elem_of_union;
      apply elem_of_list_to_set, list_elem_of_fmap in Hin as (r & -> & Hr);
      destruct (Habs r Hr); congruence.
Qed.

(** Neither predictor looks a team up in the known set: with models and
    history loaded, a team outside the history gets the neutral stats and
    no error result is returned; when the feature columns resolve, the
    call without the squad check returns a prediction on those stats, and
    the call with it either that prediction or the skipped result of the
    gate, which carries the same neutral stats. *)
Lemma unknown_team_is_not_rejected w home_team away_team models df :
  load_models w = Some models ->
  load_historical_data w = Some df ->
  home_team ∉ PredictGlitch.all_teams df ->
  PredictGlitch.get_team_stats df home_team true 5 = default_stats /\
  GlitchEngine.get_team_stats (Some df) home_team true 5 = default_stats /\
  (forall check_squad msg,
     PredictGlitch.predict_all_markets w home_team away_team check_squad
     <> Return (PredictGlitch.Error msg)) /\
  (forall X,
     prepare_features default_stats
       (PredictGlitch.get_team_stats df away_team false 5) (features models) = Some X ->
     (exists p,
        PredictGlitch.predict_all_markets w home_team away_team false
          = Return (PredictGlitch.Predicted p) /\
        PredictGlitch.home_stats p = default_stats) /\
     ((exists p,
         PredictGlitch.predict_all_markets w home_team away_team true
           = Return (PredictGlitch.Predicted p) /\
         PredictGlitch.home_stats p = default_stats) \/
      (exists s,
         PredictGlitch.predict_all_markets w home_team away_team true
           = Return (PredictGlitch.Skipped s) /\
         PredictGlitch.skip_home_stats s = default_stats))).
Proof.
  intros Hm Hd Hnot. apply not_in_all_teams_absent in Hnot.
  destruct (absent_team_windows df home_team true 5 Hnot) as [He Hp].
  assert (Hps : PredictGlitch.get_team_stats df home_team true 5 = default_stats).
  { unfold PredictGlitch.get_team_stats. now rewrite Hp. }
  split; [exact Hps|]. split.
  { unfold GlitchEngine.get_team_stats. now rewrite He. }
  split.
  - intros check_squad msg. unfold PredictGlitch.predict_all_markets.
    rewrite Hm, Hd.
    match goal with |- context [match ?s with Some _ => _ | None => _ end <> _] =>
      destruct s as [skip|] end; [discriminate|].
    destruct (prepare_features _ _ _); discriminate.
  - intros X HX. unfold PredictGlitch.predict_all_markets.
    rewrite Hm, Hd, Hps, HX. split; [eexists; split; reflexivity|].
    match goal with |- context [match ?sk with Some _ => _ | None => _ end = _] =>
      destruct sk as [skip|] eqn:Eskip end.
    + right. eexists. split; [reflexivity|].
      revert Eskip.
      match goal with |- match ?sn with Some _ => _ | None => _ end = _ -> _ =>
        destruct sn as [gate_news|]; [|discriminate] end.
      destruct (Scout.should_skip gate_news); [|discriminate].
      intros [= <-]. reflexivity.
    + left. eexists. split; reflexivity.
Qed.

(** C3 (divergence). "Atlantis" is not a team of [sample_history], yet
    with the models loaded both predictors return a prediction for
    Atlantis v Chelsea built on the neutral stats (form 7, 1.3, 1.2,
    50.0); only the command-line entry point looks the names up and
    reports the team as not found, with the known teams. *)
Theorem unknown_team_gets_prediction :
  ("Atlantis" ∉ PredictGlitch.all_teams sample_history) /\
  (exists p,
     PredictGlitch.predict_all_markets ml_world "Atlantis" "Chelsea" true
       = Return (PredictGlitch.Predicted p) /\
     PredictGlitch.home_stats p = default_stats /\
     predict_safest p = ("win", "Home Win", (3 # 5) * 100)%Q) /\
  (exists r,
     GlitchEngine.predict_match_ml ml_world "Atlantis" "Chelsea" = Return r /\
     GlitchEngine.home_stats r = default_stats /\
     GlitchEngine.using_ml r = true) /\
  PredictGlitch.main ml_world ["predict_glitch.py"; "Atlantis"; "Chelsea"]
    = Return (PredictGlitch.TeamNotFound "Atlantis"
                (PredictGlitch.all_teams sample_history)).
Proof.
  assert (Hnot : "Atlantis" ∉ PredictGlitch.all_teams sample_history).
  { apply not_in_all_teams_absent. intros r Hr. unfold sample_history in Hr.
    repeat (apply elem_of_cons in Hr as [->|Hr]; [split; discriminate|]).
    inversion Hr. }
  split; [exact Hnot|]. split; [|split].
  - eexists. split; [reflexivity|]. split; reflexivity.
  - eexists. split; [reflexivity|]. split; reflexivity.
  - unfold PredictGlitch.main. cbn [load_historical_data ml_world].
    rewrite bool_decide_eq_true_2 by exact Hnot. reflexivity.
Qed.

(** * Further properties of the code *)

(** ** Training and inference, the parts that agree *)

Lemma skewed_history_well_formed : Forall well_formed (take 6 skewed_history).
Proof.
  cbn. repeat (constructor; [split; [discriminate | auto] |]). constructor.
Qed.

Lemma training_goal_columns_match_inference_witness :
  home_goal_columns
    (TrainGlitch.current_stats 5
       (TrainGlitch.tracking_after (take 6 skewed_history))
       (mkMatch (Some 7) "Arsenal" "Chelsea" 0 0 "D"))
  = goal_entries (PredictGlitch.get_team_stats (take 6 skewed_history) "Arsenal" true 5).
Proof.
  destruct (training_goal_columns_match_inference 5 skewed_history 6
              (mkMatch (Some 7) "Arsenal" "Chelsea" 0 0 "D")
              (TrainGlitch.current_stats 5
                 (TrainGlitch.tracking_after (take 6 skewed_history))
                 (mkMatch (Some 7) "Arsenal" "Chelsea" 0 0 "D")))
    as [Hhome _]; [lia | reflexivity |].
  apply Hhome. vm_compute. lia.
Defined.

Lemma training_form_all_venues_witness :
  TrainGlitch.HomeTeam_Form
    (TrainGlitch.current_stats 5
       (TrainGlitch.tracking_after (take 6 skewed_history))
       (mkMatch (Some 7) "Arsenal" "Chelsea" 0 0 "D"))
  = Some (inject_Z (form_points "Arsenal"
                      (Py.tail 5 (team_rows "Arsenal" (take 6 skewed_history))))).
Proof.
  destruct (training_form_all_venues 5 (take 6 skewed_history)
              (mkMatch (Some 7) "Arsenal" "Chelsea" 0 0 "D"))
    as [Hhome _]; [lia | exact skewed_history_well_formed |].
  apply Hhome. vm_compute. lia.
Defined.

Lemma features_from_prior_rows_witness :
  snd <$> TrainGlitch.rolling_loop 5 TrainGlitch.no_history skewed_history !! 6%nat
  = snd <$> TrainGlitch.rolling_loop 5 TrainGlitch.no_history
              skewed_history_other_result !! 6%nat.
Proof.
  apply (features_from_prior_rows 5 skewed_history skewed_history_other_result 6
           (mkMatch (Some 7) "Arsenal" "Chelsea" 0 0 "D")
           (mkMatch (Some 7) "Arsenal" "Chelsea" 3 0 "H")); reflexivity.
Defined.

(** ** Percentages of the model path *)

(** With classifiers whose probability rows sum to one, the percentages
    of each of the three markets sum to 100 in every result of the model
    path, of [predict_match_ml] and of [predict_all_markets]. *)
Theorem ml_markets_sum_to_100 (w : World) (home_team away_team : string)
    (models : ModelBank) :
  load_models w = Some models -> normalised models ->
  (forall r,
     GlitchEngine.predict_match_ml w home_team away_team = Return r ->
     (engine_win_sum r == 100 /\ engine_goals_sum r == 100 /\ engine_btts_sum r == 100)%Q) /\
  (forall check_squad p,
     PredictGlitch.predict_all_markets w home_team away_team check_squad
       = Return (PredictGlitch.Predicted p) ->
     (predict_win_sum p == 100 /\ predict_goals_sum p == 100 /\ predict_btts_sum p == 100)%Q).
Proof.
  intros Hm Hn. split.
  - intros r Hr. exact (engine_ml_markets_sum _ _ _ _ _ Hm Hn Hr).
  - intros check_squad p Hp. exact (predict_ml_markets_sum _ _ _ _ _ _ Hm Hn Hp).
Qed.

Lemma constant_models_normalised : normalised constant_models.
Proof. intros X. cbn. repeat split; reflexivity. Qed.

Lemma ml_markets_sum_to_100_witness :
  exists r,
    GlitchEngine.predict_match_ml ml_world "Arsenal" "Chelsea" = Return r /\
    (engine_win_sum r == 100)%Q.
Proof.
  destruct (ml_markets_sum_to_100 ml_world "Arsenal" "Chelsea" constant_models
              eq_refl constant_models_normalised) as [He _].
  eexists. split; [reflexivity|]. apply He. reflexivity.
Defined.

Lemma argmax3_pairs (a b c : Q) (l0 l1 l2 d : string) :
  (nth (Py.argmax3 (a, b, c)) [l0; l1; l2] d, (Py.max3 (a, b, c) * 100)%Q)
  ∈ [(l0, (a * 100)%Q); (l1, (b * 100)%Q); (l2, (c * 100)%Q)].
Proof.
  unfold Py.argmax3, Py.max3, Py.max_by, id. cbn [foldl snd fst].
  destruct (Py.gt b a); cbn [snd]; destruct (Py.gt c _); cbn; set_solver.
Qed.

Lemma max2_pairs (a b : Q) (l0 l1 : string) :
  (if Py.gt b a then l1 else l0, (Py.max2 (a, b) * 100)%Q)
  ∈ [(l0, (a * 100)%Q); (l1, (b * 100)%Q)].
Proof.
  unfold Py.max2, Py.max_by, id. cbn [foldl].
  destruct (Py.gt b a); set_solver.
Qed.

(** In a result of [predict_all_markets] the best bet of each market is
    a label of that market's probability dictionary and its best
    probability is the entry under that label; in a result of the model
    path of [predict_match_ml] the confidence of each market is the
    percentage reported for its best pick. *)
Theorem best_bet_carries_best_probability (w : World) (home_team away_team : string) :
  (forall check_squad p,
     PredictGlitch.predict_all_markets w home_team away_team check_squad
       = Return (PredictGlitch.Predicted p) ->
     let m := PredictGlitch.predictions p in
     (PredictGlitch.win_best_bet (PredictGlitch.win m),
      PredictGlitch.win_best_prob (PredictGlitch.win m))
       ∈ PredictGlitch.win_probabilities (PredictGlitch.win m) /\
     (PredictGlitch.goals_best_bet (PredictGlitch.goals m),
      PredictGlitch.goals_best_prob (PredictGlitch.goals m))
       ∈ PredictGlitch.goals_probabilities (PredictGlitch.goals m) /\
     (PredictGlitch.btts_best_bet (PredictGlitch.btts m),
      PredictGlitch.btts_best_prob (PredictGlitch.btts m))
       ∈ PredictGlitch.btts_probabilities (PredictGlitch.btts m)) /\
  (forall models r,
     load_models w = Some models ->
     GlitchEngine.predict_match_ml w home_team away_team = Return r ->
     let m := GlitchEngine.predictions r in
     (GlitchEngine.win_best (GlitchEngine.win m),
      GlitchEngine.win_confidence (GlitchEngine.win m))
       ∈ [("Home Win", GlitchEngine.win_home (GlitchEngine.win m));
          ("Draw", GlitchEngine.win_draw (GlitchEngine.win m));
          ("Away Win", GlitchEngine.win_away (GlitchEngine.win m))] /\
     (GlitchEngine.goals_best (GlitchEngine.goals m),
      GlitchEngine.goals_confidence (GlitchEngine.goals m))
       ∈ [("Under 2.5", GlitchEngine.goals_under (GlitchEngine.goals m));
          ("Over 2.5", GlitchEngine.goals_over (GlitchEngine.goals m))] /\
     (GlitchEngine.btts_best (GlitchEngine.btts m),
      GlitchEngine.btts_confidence (GlitchEngine.btts m))
       ∈ [("BTTS No", GlitchEngine.btts_no (GlitchEngine.btts m));
          ("BTTS Yes", GlitchEngine.btts_yes (GlitchEngine.btts m))]).
Proof.
  split.
  - intros check_squad p. unfold PredictGlitch.predict_all_markets.
    destruct (load_models w) as [models|]; [|discriminate].
    destruct (load_historical_data w) as [df|]; [|discriminate].
    match goal with |- context [match ?s with Some _ => _ | None => _ end = _] =>
      destruct s as [skip|] end; [discriminate|].
    destruct (prepare_features _ _ _) as [X|]; [|discriminate].
    intros [= <-]. cbn.
    destruct (win_predict_proba models X) as [[a b] c].
    destruct (goals_predict_proba models X) as [g0 g1].
    destruct (btts_predict_proba models X) as [b0 b1].
    cbn [fst snd].
    split; [apply argmax3_pairs|]. split; apply max2_pairs.
  - intros models r Hm. unfold GlitchEngine.predict_match_ml. rewrite Hm.
    destruct (prepare_features _ _ _) as [X|]; [|discriminate].
    intros [= <-]. cbn.
    destruct (win_predict_proba models X) as [[a b] c].
    destruct (goals_predict_proba models X) as [g0 g1].
    destruct (btts_predict_proba models X) as [b0 b1].
    cbn [fst snd].
    split; [apply argmax3_pairs|]. split; apply max2_pairs.
Qed.

Lemma best_bet_carries_best_probability_witness :
  exists p,
    PredictGlitch.predict_all_markets ml_world "Arsenal" "Chelsea" true
      = Return (PredictGlitch.Predicted p) /\
    (PredictGlitch.win_best_bet (PredictGlitch.win (PredictGlitch.predictions p)),
     PredictGlitch.win_best_prob (PredictGlitch.win (PredictGlitch.predictions p)))
      ∈ PredictGlitch.win_probabilities (PredictGlitch.win (PredictGlitch.predictions p)).
Proof.
  destruct (best_bet_carries_best_probability ml_world "Arsenal" "Chelsea") as [Hp _].
  eexists. split; [reflexivity|].
  apply (Hp true). reflexivity.
Defined.

(** ** Unknown teams, continued *)

Lemma unknown_team_is_not_rejected_witness :
  exists p,
    PredictGlitch.predict_all_markets ml_world "Atlantis" "Chelsea" false
      = Return (PredictGlitch.Predicted p) /\
    PredictGlitch.home_stats p = default_stats.
Proof.
  assert (Hnot : "Atlantis" ∉ PredictGlitch.all_teams sample_history).
  { apply not_in_all_teams_absent. intros r Hr. unfold sample_history in Hr.
    repeat (apply elem_of_cons in Hr as [->|Hr]; [split; discriminate|]).
    inversion Hr. }
  destruct (unknown_team_is_not_rejected ml_world "Atlantis" "Chelsea"
              constant_models sample_history eq_refl eq_refl Hnot)
    as (_ & _ & _ & Hpred).
  eapply Hpred. reflexivity.
Defined.

(** ** The heuristic pick *)

Lemma strengths_order (fh fa : Z) :
  0 <= fh -> 0 <= fa ->
  let '(hs, aws) := strengths fh fa in
  ((aws < hs)%Q <-> fa < fh) /\ (fh = fa -> hs == aws).
Proof.
  intros Hh Ha. unfold strengths.
  set (T := if fh + fa =? 0 then 1 else fh + fa).
  assert (HT : 0 < T) by (unfold T; destruct (Z.eqb_spec (fh + fa) 0); lia).
  assert (HTq : (0 < / inject_Z T)%Q).
  { apply Qinv_lt_0_compat. change 0%Q with (inject_Z 0). now rewrite <- Zlt_Qlt. }
  split.
  - unfold Qdiv. rewrite (Qmult_lt_r _ _ _ HTq). now rewrite <- Zlt_Qlt.
  - intros ->. reflexivity.
Qed.

(** The heuristic names "Home Win" exactly when the home form is strictly
    greater than the away form, and "Away Win" otherwise: with equal
    forms that are not 0 it names "Away Win" although the home
    percentage it reports is the greater one. *)
Theorem heuristic_best_pick (w : World) (home_team away_team : string) :
  let r := GlitchEngine.predict_match_heuristic w home_team away_team in
  let fh := form (GlitchEngine.home_stats r) in
  let fa := form (GlitchEngine.away_stats r) in
  let win := GlitchEngine.win (GlitchEngine.predictions r) in
  (GlitchEngine.win_best win = "Home Win" <-> fa < fh) /\
  (GlitchEngine.win_best win = "Away Win" <-> fh <= fa) /\
  (fh = fa -> 0 < fh ->
   GlitchEngine.win_best win = "Away Win" /\
   (GlitchEngine.win_away win < GlitchEngine.win_home win)%Q).
Proof.
  cbn zeta.
  destruct (heuristic_forms_nonneg w home_team away_team) as [Hh Ha].
  pose proof (heuristic_strengths w home_team away_team) as Hs. cbn zeta in Hs.
  set (r := GlitchEngine.predict_match_heuristic w home_team away_team) in *.
  assert (Hbest : GlitchEngine.win_best (GlitchEngine.win (GlitchEngine.predictions r))
                  = if Py.gt (fst (strengths (form (GlitchEngine.home_stats r))
                                     (form (GlitchEngine.away_stats r))))
                             (snd (strengths (form (GlitchEngine.home_stats r))
                                     (form (GlitchEngine.away_stats r))))
                    then "Home Win" else "Away Win") by reflexivity.
  set (fh := form (GlitchEngine.home_stats r)) in *.
  set (fa := form (GlitchEngine.away_stats r)) in *.
  pose proof (strengths_order fh fa Hh Ha) as Hord.
  pose proof (strengths_positive_total fh fa Hh Ha) as Hpos.
  destruct (strengths fh fa) as [hs aws] eqn:E. cbn [fst snd] in Hbest.
  destruct Hs as (Hhome & _ & Haway & _). destruct Hord as [Hlt Heq].
  rewrite Hbest, Hhome, Haway.
  destruct (Py.gt hs aws) eqn:G.
  - apply gt_true in G. apply Hlt in G.
    split; [tauto|]. split; [split; [discriminate | lia]|]. intros; lia.
  - apply gt_false in G.
    assert (~ fa < fh) by (intros Hc; apply Hlt in Hc; lra).
    split; [split; [discriminate | lia]|]. split; [split; [lia | reflexivity]|].
    intros Hfe Hfp. split; [reflexivity|].
    destruct Hpos as (H1 & H2 & H3); [lia|]. specialize (Heq Hfe). lra.
Qed.

Lemma heuristic_best_pick_witness :
  GlitchEngine.win_best
    (GlitchEngine.win (GlitchEngine.predictions
       (GlitchEngine.predict_match_heuristic no_files "Arsenal" "Chelsea")))
  = "Away Win" /\
  (GlitchEngine.win_away
     (GlitchEngine.win (GlitchEngine.predictions
        (GlitchEngine.predict_match_heuristic no_files "Arsenal" "Chelsea")))
   < GlitchEngine.win_home
       (GlitchEngine.win (GlitchEngine.predictions
          (GlitchEngine.predict_match_heuristic no_files "Arsenal" "Chelsea"))))%Q.
Proof.
  destruct (heuristic_best_pick no_files "Arsenal" "Chelsea") as (_ & _ & Htie).
  apply Htie; [reflexivity | reflexivity].
Defined.

(** ** Squad strength, continued *)

Lemma injury_loop_reasons ul team_id injuries acc :
  length (snd (foldl (tested_step ul team_id) acc injuries))
  = (length (snd acc) + length injuries)%nat.
Proof.
  revert acc. induction injuries as [|i l IH]; intros acc.
  - cbn. lia.
  - cbn [foldl]. rewrite IH. unfold tested_step.
    destruct (key_injury ul team_id i); cbn [snd length]; rewrite length_app; cbn; lia.
Qed.

(** Where it returns, [calculate_squad_strength] reports one reason per
    injury up to five and counts every injury; it returns when the team
    has no key players or every name it reads is a string, and raises an
    AttributeError otherwise. *)
Theorem squad_report_size (ul : string -> string) (team_id : Z)
    (injuries : list Scout.Injury) :
  (names_readable team_id injuries = true ->
   exists s,
     Scout.calculate_squad_strength ul team_id injuries = Return s /\
     length (Scout.reasons s) = Nat.min 5 (length injuries) /\
     Scout.injuries_count s = Z.of_nat (length injuries)) /\
  (names_readable team_id injuries = false ->
   Scout.calculate_squad_strength ul team_id injuries = Raise "AttributeError").
Proof.
  split; [|apply squad_strength_raises].
  intros Hr. eexists. split; [now apply squad_strength_returns|].
  unfold report_of. cbn [Scout.reasons Scout.injuries_count]. split; [|reflexivity].
  rewrite length_take, injury_loop_reasons. cbn [snd length]. lia.
Qed.

Lemma key_others_total ul team_id injuries :
  key_out ul team_id injuries + others_out ul team_id injuries = Py.len injuries.
Proof.
  unfold key_out, others_out, Py.len.
  induction injuries as [|i l IH]; [reflexivity|].
  rewrite !filter_cons.
  destruct (decide (key_injury ul team_id i = true)) as [E|N];
    destruct (decide (key_injury ul team_id i = false)) as [E'|N'];
    cbn [length]; try lia; try congruence.
  destruct (key_injury ul team_id i); congruence.
Qed.

Lemma key_out_app ul team_id l more :
  key_out ul team_id (l ++ more) = key_out ul team_id l + key_out ul team_id more /\
  others_out ul team_id (l ++ more)
  = others_out ul team_id l + others_out ul team_id more.
Proof.
  unfold key_out, others_out, Py.len.
  rewrite !filter_app, !length_app. lia.
Qed.

Lemma out_nonneg ul team_id l :
  0 <= key_out ul team_id l /\ 0 <= others_out ul team_id l.
Proof. unfold key_out, others_out, Py.len. lia. Qed.

(** Further injuries never raise the score, and the score is 100 only
    for the empty injury list: when the function returns on a list, it
    returns on each of its prefixes, with a score at least as high. An
    exception on a list is an exception on every list it begins. *)
Theorem squad_score_antitone (ul : string -> string) (team_id : Z)
    (injuries more : list Scout.Injury) :
  (names_readable team_id (injuries ++ more) = true ->
   exists s s',
     Scout.calculate_squad_strength ul team_id injuries = Return s /\
     Scout.calculate_squad_strength ul team_id (injuries ++ more) = Return s' /\
     Scout.score s' <= Scout.score s /\
     (Scout.score s = 100 <-> injuries = [])) /\
  (forall exc,
     Scout.calculate_squad_strength ul team_id injuries = Raise exc ->
     Scout.calculate_squad_strength ul team_id (injuries ++ more) = Raise exc).
Proof.
  split.
  - rewrite names_readable_app. intros [Hl Hm]%andb_prop.
    assert (Hall : names_readable team_id (injuries ++ more) = true)
      by (now rewrite names_readable_app, Hl, Hm).
    eexists _, _.
    split; [now apply squad_strength_returns|].
    split; [now apply squad_strength_returns|].
    rewrite !squad_score_formula.
    destruct (key_out_app ul team_id injuries more) as [-> ->].
    destruct (out_nonneg ul team_id injuries), (out_nonneg ul team_id more).
    pose proof (key_others_total ul team_id injuries) as Ht. unfold Py.len in Ht.
    split; [lia|]. split.
    + intros Hs. destruct injuries; [reflexivity|]. cbn [length] in Ht. lia.
    + intros ->. reflexivity.
  - intros exc Hraise.
    destruct (names_readable team_id injuries) eqn:Hl.
    + rewrite (squad_strength_returns ul team_id injuries Hl) in Hraise. discriminate.
    + rewrite (squad_strength_raises ul team_id injuries Hl) in Hraise.
      injection Hraise as <-. apply squad_strength_raises.
      now rewrite names_readable_app, Hl.
Qed.

Lemma squad_score_antitone_witness :
  exists s s',
    Scout.calculate_squad_strength (fun s => s) 42 [named_injury] = Return s /\
    Scout.calculate_squad_strength (fun s => s) 42 ([named_injury] ++ [nameless_injury])
    = Return s' /\
    Scout.score s' <= Scout.score s.
Proof.
  destruct (squad_score_antitone (fun s => s) 42 [named_injury] [nameless_injury])
    as [Hret _].
  destruct (Hret eq_refl) as (s & s' & Hs & Hs' & Hle & _).
  exists s, s'. auto.
Defined.

Lemma no_key_players ul team_id injuries :
  Scout.key_players_db team_id = [] ->
  names_readable team_id injuries = true /\
  key_out ul team_id injuries = 0 /\ others_out ul team_id injuries = Py.len injuries.
Proof.
  intros Hdb.
  assert (H0 : key_out ul team_id injuries = 0).
  { unfold key_out, Py.len. rewrite (filter_none _ injuries); [reflexivity|].
    intros i _. unfold key_injury. rewrite Hdb. discriminate. }
  pose proof (key_others_total ul team_id injuries).
  split; [unfold names_readable; now rewrite Hdb|]. split; lia.
Qed.

(** For a team id without an entry in [key_players_db] the function
    always returns and every injury costs 3 points: the score is
    [max 0 (100 - 3 * len injuries)] and the squad is "WEAK" exactly from
    the eleventh injury on. *)
Theorem squad_without_key_players (ul : string -> string) (team_id : Z)
    (injuries : list Scout.Injury) :
  Scout.key_players_db team_id = [] ->
  exists s,
    Scout.calculate_squad_strength ul team_id injuries = Return s /\
    Scout.score s = Z.max 0 (100 - 3 * Py.len injuries) /\
    (Scout.status s = "WEAK" <-> 10 < Py.len injuries).
Proof.
  intros Hdb. destruct (no_key_players ul team_id injuries Hdb) as (Hr & Hk & Ho).
  eexists. split; [now apply squad_strength_returns|].
  destruct (report_status injuries (foldl (tested_step ul team_id) (100, []) injuries))
    as (_ & _ & Hweak).
  rewrite Hweak, squad_score_formula, Hk, Ho.
  assert (0 <= Py.len injuries) by (unfold Py.len; lia).
  split; [f_equal; lia | lia].
Qed.

Lemma squad_without_key_players_witness :
  exists s,
    Scout.calculate_squad_strength (fun s => s) 66 (replicate 11 null_name_injury)
    = Return s /\
    Scout.score s = Z.max 0 (100 - 3 * Py.len (replicate 11 null_name_injury)) /\
    (Scout.status s = "WEAK" <-> 10 < Py.len (replicate 11 null_name_injury)).
Proof.
  apply (squad_without_key_players (fun s => s) 66 (replicate 11 null_name_injury)).
  reflexivity.
Defined.

Lemma strength_with_few_injuries ul team_id injuries :
  Py.len injuries < 3 ->
  70 <= Scout.score (report_of injuries (foldl (tested_step ul team_id) (100, []) injuries)).
Proof.
  intros Hl. rewrite squad_score_formula.
  pose proof (key_others_total ul team_id injuries).
  destruct (out_nonneg ul team_id injuries). lia.
Qed.

Lemma check_injuries_score api id side side' :
  (forall i, Py.len (Scout.get_injuries api i) < 3) ->
  70 <= Scout.side_score side ->
  Scout.check_injuries api id side = Return side' ->
  70 <= Scout.side_score side'.
Proof.
  intros Hfew Hs. unfold Scout.check_injuries.
  destruct (Py.truthy id); [|now intros [= <-]].
  destruct (Scout.calculate_squad_strength _ _ _) as [strength|] eqn:E; [|discriminate].
  intros [= <-]. cbn [Scout.side_score].
  apply squad_strength_return_inv in E as [_ ->].
  apply strength_with_few_injuries, Hfew.
Qed.

Lemma check_injuries_returns api id side :
  (forall i, names_readable i (Scout.get_injuries api i) = true) ->
  exists side', Scout.check_injuries api id side = Return side'.
Proof.
  intros Hr. unfold Scout.check_injuries.
  destruct (Py.truthy id); [|eauto].
  rewrite (squad_strength_returns _ _ _ (Hr _)). eauto.
Qed.

Lemma get_team_news_sides (api : Scout.Api)
    (fixture_id home_team_id away_team_id : option Z) (news : Scout.News) :
  Scout.get_team_news api fixture_id home_team_id away_team_id = Return news ->
  exists available hid aid sh sa home away,
    Scout.check_injuries api hid sh = Return home /\ Scout.side_score sh = 100 /\
    Scout.check_injuries api aid sa = Return away /\ Scout.side_score sa = 100 /\
    news = Scout.skip_decision available home away.
Proof.
  unfold Scout.get_team_news.
  destruct (if Py.truthy fixture_id then _ else _) as [[available hl] al].
  match goal with |- context [Scout.check_injuries api ?id ?side] =>
    destruct (Scout.check_injuries api id side) as [home|] eqn:Eh; [|discriminate];
    pose (hid := id); pose (sh := side) end.
  match goal with |- context [Scout.check_injuries api ?id ?side] =>
    destruct (Scout.check_injuries api id side) as [away|] eqn:Ea; [|discriminate];
    pose (aid := id); pose (sa := side) end.
  intros [= E]. exists available, hid, aid, sh, sa, home, away.
  repeat split; try assumption; try reflexivity. now symmetry.
Qed.

(** The gate never vetoes a match on fewer than three reported injuries
    per team: whatever it returns then has [should_skip] False and no
    reason; and it does return when every reported name can be tested,
    in particular when the injury requests fail, which reports empty
    lists. *)
Theorem gate_quiet_on_few_injuries (api : Scout.Api)
    (fixture_id home_team_id away_team_id : option Z) :
  (forall id, Py.len (Scout.get_injuries api id) < 3) ->
  (forall news,
     Scout.get_team_news api fixture_id home_team_id away_team_id = Return news ->
     Scout.should_skip news = false /\ Scout.skip_reason news = None) /\
  ((forall id, names_readable id (Scout.get_injuries api id) = true) ->
   exists news,
     Scout.get_team_news api fixture_id home_team_id away_team_id = Return news /\
     Scout.should_skip news = false /\ Scout.skip_reason news = None).
Proof.
  intros Hfew.
  assert (Hquiet : forall news,
            Scout.get_team_news api fixture_id home_team_id away_team_id = Return news ->
            Scout.should_skip news = false /\ Scout.skip_reason news = None).
  { intros news Hnews.
    destruct (gate_signal api fixture_id home_team_id away_team_id news Hnews)
      as [Hmin Hreason].
    assert (Hscores : 70 <= Scout.side_score (Scout.home news) /\
                      70 <= Scout.side_score (Scout.away news)).
    { destruct (get_team_news_sides _ _ _ _ _ Hnews)
        as (available & hid & aid & sh & sa & home & away & Eh & Hsh & Ea & Hsa & ->).
      destruct (skip_decision_signal available home away) as (-> & -> & _).
      split; eapply check_injuries_score; try exact Hfew; try eassumption; lia. }
    destruct (Scout.should_skip news) eqn:E.
    - exfalso. destruct Hmin as [Hm _]. specialize (Hm eq_refl). lia.
    - split; [reflexivity|].
      destruct (Scout.skip_reason news) eqn:Er; [|reflexivity].
      destruct Hreason as [_ Hr]. discriminate Hr. eauto. }
  split; [exact Hquiet|].
  intros Hread.
  assert (Hret : exists news,
            Scout.get_team_news api fixture_id home_team_id away_team_id = Return news).
  { unfold Scout.get_team_news.
    destruct (if Py.truthy fixture_id then _ else _) as [[available hl] al].
    match goal with |- context [Scout.check_injuries api ?id ?side] =>
      destruct (check_injuries_returns api id side Hread) as [home ->] end.
    match goal with |- context [Scout.check_injuries api ?id ?side] =>
      destruct (check_injuries_returns api id side Hread) as [away ->] end.
    eauto. }
  destruct Hret as [news Hnews]. exists news. split; [exact Hnews|].
  now apply Hquiet.
Qed.

Lemma gate_quiet_on_few_injuries_witness :
  exists news,
    Scout.get_team_news silent_api None (Some 42) (Some 49) = Return news /\
    Scout.should_skip news = false /\ Scout.skip_reason news = None.
Proof.
  destruct (gate_quiet_on_few_injuries silent_api None (Some 42) (Some 49))
    as [_ Hret].
  - intros id. reflexivity.
  - apply Hret. intros id. unfold names_readable.
    destruct (Scout.key_players_db id); reflexivity.
Defined.

(** ** Team ids *)

Lemma find_all_false {A} (f : A -> bool) (l : list A) :
  (forall x, In x l -> f x = false) -> List.find f l = None.
Proof.
  induction l as [|x l IH]; intros H; [reflexivity|].
  cbn. rewrite (H x) by now left. apply IH. intros y Hy. apply H. now right.
Qed.

Lemma team_ids_nonzero name tid : In (name, tid) Scout.TEAM_IDS -> tid <> 0.
Proof.
  intros Hin.
  assert (HF : Forall (fun p => snd p <> 0) Scout.TEAM_IDS)
    by (unfold Scout.TEAM_IDS; repeat constructor; discriminate).
  rewrite Forall_forall in HF. apply list_elem_of_In, HF in Hin. exact Hin.
Qed.

(** [get_team_id] answers with an id of [TEAM_IDS], never 0, whose key is
    the name itself or contains it or is contained in it, letter case
    ignored; it answers [None] exactly when no key is so related; every
    key resolves to its own id, also when written in lower case; and the
    empty name resolves to the first key's id, 42. *)
Theorem get_team_id_resolution :
  (forall team_name tid,
     Scout.get_team_id team_name = Some tid ->
     tid <> 0 /\
     exists name, In (name, tid) Scout.TEAM_IDS /\
                  (team_name = name \/ partial_match team_name name = true)) /\
  (forall team_name,
     Scout.get_team_id team_name = None <->
     forall name tid, In (name, tid) Scout.TEAM_IDS ->
                      team_name <> name /\ partial_match team_name name = false) /\
  (forall name tid,
     In (name, tid) Scout.TEAM_IDS ->
     Scout.get_team_id name = Some tid /\
     Scout.get_team_id (Py.lower name) = Some tid) /\
  Scout.get_team_id "" = Some 42.
Proof.
  split; [|split; [|split]].
  - intros team_name tid. unfold Scout.get_team_id.
    destruct (List.find _ Scout.TEAM_IDS) as [[name t]|] eqn:Ed.
    + intros [= <-]. apply List.find_some in Ed as [Hin Heq].
      split; [exact (team_ids_nonzero _ _ Hin)|].
      exists name. split; [exact Hin|]. left. change ((team_name =? name)%string = true) in Heq.
      destruct (String.eqb_spec team_name name); [assumption | discriminate Heq].
    + match goal with |- context [match List.find ?f ?l with _ => _ end] =>
        destruct (List.find f l) as [[name t]|] eqn:Ep end; [|discriminate].
      intros [= <-]. apply List.find_some in Ep as [Hin Hrel].
      split; [exact (team_ids_nonzero _ _ Hin)|].
      exists name. split; [exact Hin|]. right. exact Hrel.
  - intros team_name. unfold Scout.get_team_id. split.
    + destruct (List.find _ Scout.TEAM_IDS) as [[name t]|] eqn:Ed; [discriminate|].
      match goal with |- context [match List.find ?f ?l with _ => _ end] =>
        destruct (List.find f l) as [[name t]|] eqn:Ep end; [discriminate|].
      intros _ name tid Hin.
      pose proof (List.find_none _ _ Ed _ Hin) as H1.
      pose proof (List.find_none _ _ Ep _ Hin) as H2.
      change ((team_name =? name)%string = false) in H1.
      change (partial_match team_name name = false) in H2.
      split; [|exact H2].
      destruct (String.eqb_spec team_name name); [discriminate H1 | assumption].
    + intros Hall.
      rewrite find_all_false.
      * rewrite find_all_false; [reflexivity|].
        intros [name tid] Hin. exact (proj2 (Hall name tid Hin)).
      * intros [name tid] Hin. pose proof (proj1 (Hall name tid Hin)).
        change ((team_name =? name)%string = false).
        destruct (String.eqb_spec team_name name); [contradiction | reflexivity].
  - intros name tid Hin.
    assert (HF : Forall (fun p => Scout.get_team_id (fst p) = Some (snd p) /\
                                  Scout.get_team_id (Py.lower (fst p)) = Some (snd p))
                   Scout.TEAM_IDS)
      by (unfold Scout.TEAM_IDS; repeat constructor; vm_compute; reflexivity).
    rewrite Forall_forall in HF. apply list_elem_of_In, HF in Hin. exact Hin.
  - reflexivity.
Qed.

Lemma get_team_id_resolution_witness :
  Scout.get_team_id "Spurs" = None /\ Scout.get_team_id "man utd" = None /\
  Scout.get_team_id "manchester united" = Some 33.
Proof.
  destruct get_team_id_resolution as (_ & Hnone & Hkeys & _).
  split; [|split].
  - apply Hnone. intros name tid Hin. unfold Scout.TEAM_IDS in Hin.
    repeat (destruct Hin as [[= <- <-]|Hin]; [split; [discriminate | reflexivity]|]).
    destruct Hin.
  - apply Hnone. intros name tid Hin. unfold Scout.TEAM_IDS in Hin.
    repeat (destruct Hin as [[= <- <-]|Hin]; [split; [discriminate | reflexivity]|]).
    destruct Hin.
  - apply (Hkeys "Manchester United" 33). unfold Scout.TEAM_IDS. cbn. tauto.
Defined.

(** ** The feature vector *)

Lemma assoc_find_spec (d : list (string * Q)) (col : string) :
  (snd <$> List.find (fun '(name, _) => String.eqb col name) d = None
   <-> col ∉ (fst <$> d)) /\
  (forall v, snd <$> List.find (fun '(name, _) => String.eqb col name) d = Some v ->
             (col, v) ∈ d).
Proof.
  induction d as [|[name x] d [IHn IHs]].
  - cbn. split; [split; [intros _; apply not_elem_of_nil | reflexivity] | discriminate].
  - cbn [List.find fmap list_fmap fst]. destruct (String.eqb_spec col name) as [->|Hne].
    + cbn. split; [split; [discriminate | intros H; exfalso; apply H; left] |].
      intros v [= <-]. left.
    + split.
      * rewrite IHn, not_elem_of_cons. tauto.
      * intros v Hv. right. now apply IHs.
Qed.

Lemma feature_value_defined home_stats away_stats col :
  (feature_value home_stats away_stats col = None <-> col ∉ feature_cols) /\
  (forall v, feature_value home_stats away_stats col = Some v ->
             (col, v) ∈ feature_dict home_stats away_stats).
Proof.
  exact (assoc_find_spec (feature_dict home_stats away_stats) col).
Qed.

Lemma prepare_features_none home_stats away_stats schema :
  prepare_features home_stats away_stats schema = None <->
  exists col, col ∈ schema /\ col ∉ feature_cols.
Proof.
  unfold prepare_features. fold (feature_value home_stats away_stats).
  rewrite mapM_None, Exists_exists. split.
  - intros (col & Hin & Hnone). exists col. split; [exact Hin|].
    now apply (feature_value_defined home_stats away_stats col).
  - intros (col & Hin & Hnot). exists col. split; [exact Hin|].
    now apply (feature_value_defined home_stats away_stats col).
Qed.

(** [prepare_features] fails (the KeyError of the column selection)
    exactly when the schema names a column outside the eight of the
    feature dictionary; otherwise it returns one value per schema column,
    in schema order, each the dictionary's entry of that column; with the
    columns of training it is the vector in training order. *)
Theorem prepare_features_schema (home_stats away_stats : TeamStats)
    (schema : list string) :
  (prepare_features home_stats away_stats schema = None <->
   exists col, col ∈ schema /\ col ∉ feature_cols) /\
  (forall X, prepare_features home_stats away_stats schema = Some X ->
     length X = length schema /\
     forall i col, schema !! i = Some col ->
       exists v, X !! i = Some v /\ (col, v) ∈ feature_dict home_stats away_stats) /\
  prepare_features home_stats away_stats feature_cols
  = Some [inject_Z (form home_stats); inject_Z (form away_stats);
          avg_goals home_stats; avg_goals away_stats;
          avg_conceded home_stats; avg_conceded away_stats;
          btts_rate home_stats; btts_rate away_stats].
Proof.
  split; [|split].
  - apply prepare_features_none.
  - intros X. unfold prepare_features. fold (feature_value home_stats away_stats).
    rewrite mapM_Some. intros HF. split.
    + symmetry. exact (Forall2_length _ _ _ HF).
    + intros i col Hi.
      destruct (Forall2_lookup_l _ _ _ _ _ HF Hi) as (v & Hv & Hval).
      exists v. split; [exact Hv|].
      now apply (feature_value_defined home_stats away_stats col).
  - reflexivity.
Qed.

Lemma prepare_features_schema_witness :
  prepare_features default_stats default_stats ["HomeTeam_Form"; "Home_xG"] = None.
Proof.
  apply (prepare_features_schema default_stats default_stats ["HomeTeam_Form"; "Home_xG"]).
  exists "Home_xG". split; [set_solver|].
  unfold feature_cols. intros H.
  repeat (apply elem_of_cons in H as [H|H]; [discriminate H|]). inversion H.
Defined.

(** ** Outcomes of [predict_all_markets] *)



(** Without the squad check, without the scout module, or when neither
    team name resolves to a team id, [predict_all_markets] never returns
    a skip and the prediction carries no squad news. *)
Theorem predict_without_gate (w : World) (home_team away_team : string)
    (check_squad : bool) :
  check_squad = false \/ scout w = None \/
  (Scout.get_team_id home_team = None /\ Scout.get_team_id away_team = None) ->
  (forall s, PredictGlitch.predict_all_markets w home_team away_team check_squad
             <> Return (PredictGlitch.Skipped s)) /\
  (forall p, PredictGlitch.predict_all_markets w home_team away_team check_squad
             = Return (PredictGlitch.Predicted p) ->
             PredictGlitch.squad_news p = None).
Proof.
  intros Hoff. unfold PredictGlitch.predict_all_markets.
  destruct (load_models w) as [models|]; [|split; intros; discriminate].
  destruct (load_historical_data w) as [df|]; [|split; intros; discriminate].
  assert (Hnone :
    (if check_squad
     then match scout w with
          | Some api =>
              if (Py.truthy (Scout.get_team_id home_team)
                  || Py.truthy (Scout.get_team_id away_team))%bool
              then match Scout.get_team_news api None (Scout.get_team_id home_team)
                           (Scout.get_team_id away_team) with
                   | Return news => Some news
                   | Raise _ => None
                   end
              else None
          | None => None
          end
     else None) = None).
  { destruct Hoff as [-> | [-> | [-> ->]]]; [reflexivity | | ].
    - destruct check_squad; reflexivity.
    - destruct check_squad; [|reflexivity]. destruct (scout w); reflexivity. }
  rewrite Hnone.
  destruct (prepare_features _ _ _) as [X|]; split; intros; try discriminate.
  simplify_eq. reflexivity.
Qed.

Lemma predict_without_gate_witness :
  exists p,
    PredictGlitch.predict_all_markets gate_world "Arsenal" "Chelsea" false
      = Return (PredictGlitch.Predicted p) /\
    PredictGlitch.squad_news p = None.
Proof.
  destruct (predict_without_gate gate_world "Arsenal" "Chelsea" false) as [_ Hp];
    [left; reflexivity|].
  eexists. split; [reflexivity|]. apply Hp. reflexivity.
Defined.

(** ** The command-line entry point *)

(** [main] of [predict_glitch.py] shows the usage text exactly when fewer
    than two team names are given; it prints a prediction only when both
    names are teams of the history and [predict_all_markets] returned
    that prediction; the name it reports as not found is the home name
    when that one is unknown, the away name only when the home name is
    known; and with two known teams it ends in the KeyError of
    [print_prediction] whenever [predict_all_markets] returns an error
    or a skipped dictionary, as it does without the models. *)
Theorem cli_validation (w : World) (argv : list string) :
  (PredictGlitch.main w argv = Return PredictGlitch.Usage <-> (length argv < 3)%nat) /\
  (forall p, PredictGlitch.main w argv = Return (PredictGlitch.Printed p) ->
     exists prog home_team away_team rest df,
       argv = prog :: home_team :: away_team :: rest /\
       load_historical_data w = Some df /\
       home_team ∈ PredictGlitch.all_teams df /\
       away_team ∈ PredictGlitch.all_teams df /\
       PredictGlitch.predict_all_markets w home_team away_team true
       = Return (PredictGlitch.Predicted p)) /\
  (forall team teams,
     PredictGlitch.main w argv = Return (PredictGlitch.TeamNotFound team teams) ->
     exists prog home_team away_team rest df,
       argv = prog :: home_team :: away_team :: rest /\
       load_historical_data w = Some df /\
       teams = PredictGlitch.all_teams df /\
       (team ∉ PredictGlitch.all_teams df) /\
       (team = home_team \/
        (home_team ∈ PredictGlitch.all_teams df /\ team = away_team))) /\
  (forall prog home_team away_team rest df,
     argv = prog :: home_team :: away_team :: rest ->
     load_historical_data w = Some df ->
     home_team ∈ PredictGlitch.all_teams df ->
     away_team ∈ PredictGlitch.all_teams df ->
     (forall p, PredictGlitch.predict_all_markets w home_team away_team true
                = Return (PredictGlitch.Predicted p) ->
                PredictGlitch.main w argv = Return (PredictGlitch.Printed p)) /\
     (forall msg, PredictGlitch.predict_all_markets w home_team away_team true
                  = Return (PredictGlitch.Error msg) ->
                  PredictGlitch.main w argv = Raise "KeyError") /\
     (forall s, PredictGlitch.predict_all_markets w home_team away_team true
                = Return (PredictGlitch.Skipped s) ->
                PredictGlitch.main w argv = Raise "KeyError") /\
     (load_models w = None -> PredictGlitch.main w argv = Raise "KeyError")).
Proof.
  split; [|split; [|split]].
  - unfold PredictGlitch.main.
    destruct argv as [|prog [|home_team [|away_team rest]]];
      try (cbn; split; [intros; lia | reflexivity]).
    split; [|cbn; intros; lia].
    destruct (load_historical_data w) as [df|]; [|discriminate].
    repeat case_bool_decide; try discriminate.
    destruct (PredictGlitch.predict_all_markets _ _ _ _) as [[msg|sk|p]|exc];
      discriminate.
  - intros p. unfold PredictGlitch.main.
    destruct argv as [|prog [|home_team [|away_team rest]]]; try discriminate.
    destruct (load_historical_data w) as [df|]; [|discriminate].
    repeat case_bool_decide; try discriminate.
    destruct (PredictGlitch.predict_all_markets _ _ _ _) as [[msg|sk|p']|exc] eqn:E;
      try discriminate.
    intros [= <-]. exists prog, home_team, away_team, rest, df.
    split; [reflexivity|]. split; [reflexivity|]. split; [|split; [|exact E]].
    + destruct (decide (home_team ∈ PredictGlitch.all_teams df)); [assumption | contradiction].
    + destruct (decide (away_team ∈ PredictGlitch.all_teams df)); [assumption | contradiction].
  - intros team teams. unfold PredictGlitch.main.
    destruct argv as [|prog [|home_team [|away_team rest]]]; try discriminate.
    destruct (load_historical_data w) as [df|]; [|discriminate].
    repeat case_bool_decide.
    + intros [= <- <-]. exists prog, home_team, away_team, rest, df. auto 10.
    + intros [= <- <-]. exists prog, home_team, away_team, rest, df.
      split; [reflexivity|]. split; [reflexivity|]. split; [reflexivity|].
      split; [assumption|]. right. split; [|reflexivity].
      destruct (decide (home_team ∈ PredictGlitch.all_teams df)); [assumption | contradiction].
    + destruct (PredictGlitch.predict_all_markets _ _ _ _) as [[msg|sk|p]|exc];
        discriminate.
  - intros prog home_team away_team rest df -> Hdf Hh Ha.
    unfold PredictGlitch.main. rewrite Hdf.
    rewrite (bool_decide_eq_false_2 (home_team ∉ PredictGlitch.all_teams df))
      by (intros Hn; now apply Hn).
    rewrite (bool_decide_eq_false_2 (away_team ∉ PredictGlitch.all_teams df))
      by (intros Hn; now apply Hn).
    split; [|split; [|split]].
    + intros p ->. reflexivity.
    + intros msg ->. reflexivity.
    + intros s ->. reflexivity.
    + intros Hm. unfold PredictGlitch.predict_all_markets. rewrite Hm. reflexivity.
Qed.

Lemma cli_validation_witness :
  (exists p,
     PredictGlitch.main ml_world ["predict_glitch.py"; "Arsenal"; "Chelsea"]
     = Return (PredictGlitch.Printed p)) /\
  PredictGlitch.main one_match_world ["predict_glitch.py"; "Arsenal"; "Chelsea"]
  = Raise "KeyError".
Proof.
  split.
  - destruct (cli_validation ml_world ["predict_glitch.py"; "Arsenal"; "Chelsea"])
      as (_ & _ & _ & Hknown).
    destruct (Hknown "predict_glitch.py" "Arsenal" "Chelsea" [] sample_history
                eq_refl eq_refl) as (Hp & _).
    + unfold PredictGlitch.all_teams, sample_history. set_solver.
    + unfold PredictGlitch.all_teams, sample_history. set_solver.
    + eexists. apply Hp. reflexivity.
  - reflexivity.
Defined.

(** ** Targets and the training frame *)

Lemma gt_two_and_a_half (z : Z) : Py.gt (inject_Z z) (25 # 10) = true <-> 3 <= z.
Proof.
  rewrite gt_true. unfold Qlt, inject_Z. cbn. lia.
Qed.

Lemma target_win_nan (row : Match) :
  TrainData.Target_Win (TrainData.targets_of row) = None <->
  FTR row <> "H" /\ FTR row <> "D" /\ FTR row <> "A".
Proof.
  unfold TrainData.targets_of. cbn [TrainData.Target_Win].
  destruct (String.eqb_spec (FTR row) "H") as [EH|NH];
    [|destruct (String.eqb_spec (FTR row) "D") as [ED|ND];
      [|destruct (String.eqb_spec (FTR row) "A") as [EA|NA]]];
    (split; [intros; try discriminate; repeat split; congruence
            | intros (? & ? & ?); try reflexivity; congruence]).
Qed.

(** The labels of [create_targets] against the match and against what the
    rolling loop records of it: the BTTS label is the flag the loop
    appends to the BTTS trackers; the goals label is 1 from three goals
    on; the result label is 0, 1, 2 for H, D, A and NaN for any other
    result, a row the loop nevertheless records as an away win. *)
Theorem targets_agree_with_tracking (row : Match) :
  let t := TrainData.targets_of row in
  TrainData.Target_BTTS t = btts_flag row /\
  (TrainData.Target_Goals t = 1 <-> 3 <= FTHG row + FTAG row) /\
  (TrainData.Target_Goals t = 0 <-> FTHG row + FTAG row < 3) /\
  (TrainData.Target_Win t = Some 0 <-> FTR row = "H") /\
  (TrainData.Target_Win t = Some 1 <-> FTR row = "D") /\
  (TrainData.Target_Win t = Some 2 <-> FTR row = "A") /\
  (TrainData.Target_Win t = None <->
   FTR row <> "H" /\ FTR row <> "D" /\ FTR row <> "A") /\
  (TrainData.Target_Win t = Some 0 <-> result_points row = (3, 0)) /\
  (TrainData.Target_Win t = Some 1 <-> result_points row = (1, 1)) /\
  (TrainData.Target_Win t = None -> result_points row = (0, 3)).
Proof.
  cbn zeta. unfold TrainData.targets_of, result_points.
  cbn [TrainData.Target_BTTS TrainData.Target_Goals TrainData.Target_Win].
  split; [reflexivity|].
  pose proof (gt_two_and_a_half (FTHG row + FTAG row)) as Hg.
  destruct (Py.gt _ _).
  - destruct Hg as [Hg _]. specialize (Hg eq_refl).
    split; [tauto|]. split; [split; [discriminate | lia]|].
    destruct (String.eqb_spec (FTR row) "H") as [EH|NH];
      [|destruct (String.eqb_spec (FTR row) "D") as [ED|ND];
        [|destruct (String.eqb_spec (FTR row) "A") as [EA|NA]]];
      (repeat split; intros; try discriminate; try reflexivity; try congruence;
       try tauto).
  - assert (~ 3 <= FTHG row + FTAG row) by (intros Hc; apply Hg in Hc; discriminate).
    split; [split; [discriminate | tauto]|]. split; [split; [lia | reflexivity]|].
    destruct (String.eqb_spec (FTR row) "H") as [EH|NH];
      [|destruct (String.eqb_spec (FTR row) "D") as [ED|ND];
        [|destruct (String.eqb_spec (FTR row) "A") as [EA|NA]]];
      (repeat split; intros; try discriminate; try reflexivity; try congruence;
       try tauto).
Qed.

Lemma targets_agree_with_tracking_witness :
  result_points (mkMatch (Some 1) "Arsenal" "Chelsea" 0 0 "") = (0, 3).
Proof.
  apply (targets_agree_with_tracking (mkMatch (Some 1) "Arsenal" "Chelsea" 0 0 "")).
  reflexivity.
Defined.

Lemma float_cell_nan (o : option Q) : TrainData.is_nan (TrainData.float_cell o) = false <-> is_Some o.
Proof. destruct o; cbn; split; intros H; try discriminate; eauto. destruct H; discriminate. Qed.

Lemma complete_app subset more r :
  TrainData.complete (subset ++ more) r = true <->
  TrainData.complete subset r = true /\ TrainData.complete more r = true.
Proof.
  unfold TrainData.complete. rewrite forallb_app. apply andb_true_iff.
Qed.

Lemma complete_spec subset r :
  TrainData.complete subset r = true <->
  forall name, name ∈ subset -> TrainData.is_nan (TrainData.cell name r) = false.
Proof.
  unfold TrainData.complete. rewrite forallb_forall. split.
  - intros H name Hin. apply list_elem_of_In, H in Hin. now apply negb_true_iff.
  - intros H name Hin. apply negb_true_iff, H, list_elem_of_In, Hin.
Qed.

Lemma prepare_data_kept df cols target_col X y df_clean :
  TrainData.prepare_data df cols target_col = Some (X, y, df_clean) ->
  forall r, r ∈ df_clean <->
            r ∈ df /\ TrainData.complete (cols ++ [target_col]) r = true.
Proof.
  unfold TrainData.prepare_data.
  destruct (forallb _ (cols ++ [target_col])); [|discriminate].
  intros [= <- <- <-] r. rewrite !list_elem_of_In, filter_In. reflexivity.
Qed.

(** For feature and target names among the computed columns,
    [prepare_data] keeps, in their order, the rows without NaN under the
    requested columns: X and y have one entry per kept row, a row of X
    one cell per feature column, and no cell of X or y is NaN. *)
Theorem prepare_data_drops_nan (df : list TrainData.TrainRow)
    (cols : list string) (target_col : string) :
  (forall name, name ∈ cols ++ [target_col] -> name ∈ TrainData.columns) ->
  exists X y df_clean,
    TrainData.prepare_data df cols target_col = Some (X, y, df_clean) /\
    df_clean `sublist_of` df /\
    (forall r, r ∈ df_clean <->
               r ∈ df /\ TrainData.complete (cols ++ [target_col]) r = true) /\
    length X = length df_clean /\ length y = length df_clean /\
    (forall x, x ∈ X -> length x = length cols /\
                        forall c, c ∈ x -> TrainData.is_nan c = false) /\
    (forall c, c ∈ y -> TrainData.is_nan c = false).
Proof.
  intros Hcols. unfold TrainData.prepare_data.
  assert (Ecols : forallb (fun name => bool_decide (name ∈ TrainData.columns))
                    (cols ++ [target_col]) = true).
  { apply forallb_forall. intros name Hin.
    apply bool_decide_eq_true, Hcols, list_elem_of_In, Hin. }
  rewrite Ecols. eexists _, _, _. split; [reflexivity|].
  assert (Hmem : forall r, r ∈ List.filter (TrainData.complete (cols ++ [target_col])) df
                           <-> r ∈ df /\ TrainData.complete (cols ++ [target_col]) r = true).
  { intros r. rewrite !list_elem_of_In, filter_In. reflexivity. }
  split.
  { clear Hmem Ecols. induction df as [|r df IH]; cbn; [constructor|].
    destruct (TrainData.complete _ r); [now constructor | now apply sublist_cons]. }
  split; [exact Hmem|]. rewrite !length_fmap.
  split; [reflexivity|]. split; [reflexivity|]. split.
  - intros x Hx. apply list_elem_of_fmap in Hx as (r & -> & Hr).
    rewrite length_fmap. split; [reflexivity|].
    intros c Hc. apply list_elem_of_fmap in Hc as (name & -> & Hname).
    apply Hmem in Hr as [_ Hr]. apply complete_app in Hr as [Hr _].
    now apply (complete_spec cols r).
  - intros c Hc. apply list_elem_of_fmap in Hc as (r & -> & Hr).
    apply Hmem in Hr as [_ Hr]. apply complete_app in Hr as [_ Hr].
    apply (complete_spec [target_col] r); [exact Hr | left].
Qed.

Lemma prepare_data_drops_nan_witness :
  exists X y df_clean,
    TrainData.prepare_data (training_frame 5 skewed_history)
      ["HomeTeam_Form"; "Home_Avg_Goals"] "Target_BTTS" = Some (X, y, df_clean) /\
    length X = length df_clean /\ length y = length df_clean.
Proof.
  destruct (prepare_data_drops_nan (training_frame 5 skewed_history)
              ["HomeTeam_Form"; "Home_Avg_Goals"] "Target_BTTS")
    as (X & y & df_clean & Hp & _ & _ & HX & Hy & _).
  - intros name Hin. unfold TrainData.columns.
    repeat (apply elem_of_cons in Hin as [-> | Hin]; [set_solver|]). inversion Hin.
  - exists X, y, df_clean. auto.
Defined.

Lemma results_of_rows_length team rows :
  (length (home_rows team rows) <= length (concat (results_of_row team <$> rows)))%nat /\
  (length (away_rows team rows) <= length (concat (results_of_row team <$> rows)))%nat.
Proof.
  unfold home_rows, away_rows.
  induction rows as [|r rows [IHh IHa]]; [cbn; lia|].
  rewrite fmap_cons, !filter_cons. cbn [concat]. rewrite length_app.
  unfold results_of_row at 1 3. rewrite length_app.
  destruct (decide (HomeTeam r = team)), (decide (AwayTeam r = team)); cbn [length]; lia.
Qed.

Lemma team_results_length team rows :
  (length (home_rows team rows)
   <= length (TrainGlitch.team_results (TrainGlitch.tracking_after rows) !!! team))%nat /\
  (length (away_rows team rows)
   <= length (TrainGlitch.team_results (TrainGlitch.tracking_after rows) !!! team))%nat.
Proof.
  unfold TrainGlitch.tracking_after. rewrite team_results_fold.
  cbn [TrainGlitch.no_history TrainGlitch.team_results].
  rewrite lookup_total_empty_list. cbn [app]. apply results_of_rows_length.
Qed.

Lemma enough_length n (l : list Z) :
  TrainGlitch.enough n l = true <-> (n <= length l)%nat.
Proof. unfold TrainGlitch.enough, Py.len. rewrite Z.leb_le. lia. Qed.

Lemma guarded_mean_defined n (l l' : list Z) (k : Q -> Q) :
  (0 < n)%nat -> length l = length l' ->
  (is_Some (if TrainGlitch.enough n l
            then k <$> Py.np_mean (Py.last_n n l') else None) <->
   (n <= length l)%nat) /\
  (is_Some (if TrainGlitch.enough n l
            then Py.np_mean (Py.last_n n l') else None) <->
   (n <= length l)%nat).
Proof.
  intros Hn Hlen. destruct (TrainGlitch.enough n l) eqn:E.
  - apply enough_length in E.
    rewrite last_n_tail, np_mean_nonempty by (try rewrite tail_length_min; lia).
    cbn. split; split; eauto.
  - assert (~ (n <= length l)%nat) by (rewrite <- enough_length; congruence).
    split; split; intros H'; try contradiction; destruct H'; discriminate.
Qed.

(** With a positive window size, the eight features of a row are all
    filled exactly when the home team has [n_games] earlier home rows and
    the away team [n_games] earlier away rows. *)
Lemma current_stats_all_features n pre row :
  (0 < n)%nat ->
  all_features (TrainGlitch.current_stats n (TrainGlitch.tracking_after pre) row) <->
  (n <= length (home_rows (HomeTeam row) pre))%nat /\
  (n <= length (away_rows (AwayTeam row) pre))%nat.
Proof.
  intros Hn.
  destruct (goal_trackers_after pre (HomeTeam row)) as (H1 & H2 & H3 & _).
  destruct (goal_trackers_after pre (AwayTeam row)) as (_ & _ & _ & H4 & H5 & H6).
  destruct (team_results_length (HomeTeam row) pre) as [Hth _].
  destruct (team_results_length (AwayTeam row) pre) as [_ Hta].
  unfold all_features, TrainGlitch.current_stats.
  cbn [TrainGlitch.HomeTeam_Form TrainGlitch.AwayTeam_Form TrainGlitch.Home_Avg_Goals
       TrainGlitch.Away_Avg_Goals TrainGlitch.Home_Avg_Conceded
       TrainGlitch.Away_Avg_Conceded TrainGlitch.Home_BTTS_Rate
       TrainGlitch.Away_BTTS_Rate].
  rewrite H1, H2, H3, H4, H5, H6.
  set (hr := home_rows (HomeTeam row) pre) in *.
  set (ar := away_rows (AwayTeam row) pre) in *.
  set (th := TrainGlitch.team_results (TrainGlitch.tracking_after pre) !!! HomeTeam row) in *.
  set (ta := TrainGlitch.team_results (TrainGlitch.tracking_after pre) !!! AwayTeam row) in *.
  assert (Hform : forall l : list Z,
            is_Some (if TrainGlitch.enough n l
                     then Some (inject_Z (Py.sum (Py.last_n n l))) else None)
            <-> (n <= length l)%nat).
  { intros l. destruct (TrainGlitch.enough n l) eqn:E.
    - apply enough_length in E. split; eauto.
    - split; [intros [? [=]]|]. intros Hl. apply enough_length in Hl. congruence. }
  rewrite !Hform.
  assert (Hlen : forall (f g : Match -> Z) (l : list Match),
            length (f <$> l) = length (g <$> l))
    by (intros; now rewrite !length_fmap).
  rewrite (proj2 (guarded_mean_defined n (FTHG <$> hr) (FTHG <$> hr) id Hn eq_refl)).
  rewrite (proj2 (guarded_mean_defined n (FTAG <$> ar) (FTAG <$> ar) id Hn eq_refl)).
  rewrite (proj2 (guarded_mean_defined n (FTHG <$> hr) (FTAG <$> hr) id Hn (Hlen _ _ _))).
  rewrite (proj2 (guarded_mean_defined n (FTAG <$> ar) (FTHG <$> ar) id Hn (Hlen _ _ _))).
  rewrite (proj1 (guarded_mean_defined n (FTHG <$> hr) (btts_flag <$> hr)
                    (fun m => m * 100)%Q Hn (Hlen _ _ _))).
  rewrite (proj1 (guarded_mean_defined n (FTAG <$> ar) (btts_flag <$> ar)
                    (fun m => m * 100)%Q Hn (Hlen _ _ _))).
  rewrite !length_fmap. lia.
Qed.

Lemma training_frame_lookup n rows i r :
  training_frame n rows !! i = Some r ->
  exists row,
    rows !! i = Some row /\
    r = {| TrainData.base := row;
           TrainData.rolling :=
             TrainGlitch.current_stats n (TrainGlitch.tracking_after (take i rows)) row;
           TrainData.labels := TrainData.targets_of row |}.
Proof.
  unfold training_frame, TrainData.create_targets. rewrite list_lookup_fmap.
  destruct (TrainGlitch.rolling_loop n TrainGlitch.no_history rows !! i)
    as [[row f]|] eqn:E; [|discriminate].
  intros [= <-].
  assert (Hrow : exists row', rows !! i = Some row').
  { apply lookup_lt_is_Some. rewrite <- (rolling_loop_length n rows TrainGlitch.no_history).
    apply lookup_lt_is_Some. eauto. }
  destruct Hrow as [row' Hrow].
  rewrite (rolling_loop_lookup n rows _ _ _ Hrow) in E. injection E as <- <-.
  exists row'. split; [exact Hrow | reflexivity].
Qed.

Lemma complete_training_columns r target :
  TrainData.complete (feature_cols ++ [target]) r = true <->
  all_features (TrainData.rolling r) /\
  TrainData.is_nan (TrainData.cell target r) = false.
Proof.
  rewrite complete_app. unfold all_features.
  rewrite <- !float_cell_nan.
  unfold TrainData.complete, feature_cols. cbn [forallb].
  rewrite !andb_true_iff, !negb_true_iff. cbn. tauto.
Qed.

(** The rows of the training frame that [prepare_data] keeps for the
    eight training features and one of the three targets, with a positive
    window size: exactly those whose home team has [n_games] earlier home
    rows and whose away team has [n_games] earlier away rows, and, for the
    result target, whose result is H, D or A. *)
Theorem usable_training_rows (n_games : nat) (rows : DataFrame) (i : nat)
    (r : TrainData.TrainRow) (target : string) :
  (0 < n_games)%nat ->
  target ∈ ["Target_Win"; "Target_Goals"; "Target_BTTS"] ->
  training_frame n_games rows !! i = Some r ->
  exists X y df_clean,
    TrainData.prepare_data (training_frame n_games rows) feature_cols target
      = Some (X, y, df_clean) /\
    (r ∈ df_clean <->
     (n_games <= length (home_rows (HomeTeam (TrainData.base r)) (take i rows)))%nat /\
     (n_games <= length (away_rows (AwayTeam (TrainData.base r)) (take i rows)))%nat /\
     (target = "Target_Win" ->
      FTR (TrainData.base r) = "H" \/ FTR (TrainData.base r) = "D" \/
      FTR (TrainData.base r) = "A")).
Proof.
  intros Hn Htarget Hr.
  destruct (TrainData.prepare_data (training_frame n_games rows) feature_cols target)
    as [[[X y] df_clean]|] eqn:Eprep.
  2: { exfalso. unfold TrainData.prepare_data in Eprep.
       repeat (apply elem_of_cons in Htarget as [->|Htarget]; [discriminate Eprep|]).
       inversion Htarget. }
  exists X, y, df_clean. split; [reflexivity|].
  rewrite (prepare_data_kept _ _ _ _ _ _ Eprep r), complete_training_columns.
  pose proof (list_elem_of_lookup_2 _ _ _ Hr) as Hin.
  apply training_frame_lookup in Hr as (row & Hrow & ->).
  cbn [TrainData.base TrainData.rolling].
  rewrite (current_stats_all_features n_games (take i rows) row Hn).
  pose proof (target_win_nan row) as Hnone.
  assert (Hlabel :
    TrainData.is_nan
      (TrainData.cell target
         {| TrainData.base := row;
            TrainData.rolling :=
              TrainGlitch.current_stats n_games
                (TrainGlitch.tracking_after (take i rows)) row;
            TrainData.labels := TrainData.targets_of row |}) = false
    <-> (target = "Target_Win" -> FTR row = "H" \/ FTR row = "D" \/ FTR row = "A")).
  { repeat (apply elem_of_cons in Htarget as [->|Htarget]).
    - change (TrainData.cell "Target_Win" ?r)
        with (TrainData.float_cell (inject_Z <$> TrainData.Target_Win (TrainData.labels r))).
      cbn [TrainData.labels].
      destruct (TrainData.Target_Win (TrainData.targets_of row)) eqn:Ew.
      + cbn. split; [|reflexivity]. intros _ _.
        destruct (decide (FTR row = "H")); [tauto|].
        destruct (decide (FTR row = "D")); [tauto|].
        destruct (decide (FTR row = "A")); [tauto|].
        exfalso.
        assert (Hno : Some z = None) by (apply Hnone; repeat split; assumption).
        discriminate Hno.
      + cbn. split; [discriminate|]. intros H. exfalso.
        destruct (proj1 Hnone eq_refl) as (? & ? & ?).
        destruct (H eq_refl) as [?|[?|?]]; contradiction.
    - cbn. split; [intros _ [=] | reflexivity].
    - cbn. split; [intros _ [=] | reflexivity].
    - inversion Htarget. }
  rewrite Hlabel. tauto.
Qed.

Lemma usable_training_rows_witness :
  exists X y df_clean,
    TrainData.prepare_data (training_frame 5 skewed_history) feature_cols "Target_Goals"
      = Some (X, y, df_clean) /\
    {| TrainData.base := mkMatch (Some 7) "Arsenal" "Chelsea" 0 0 "D";
       TrainData.rolling :=
         TrainGlitch.current_stats 5
           (TrainGlitch.tracking_after (take 6 skewed_history))
           (mkMatch (Some 7) "Arsenal" "Chelsea" 0 0 "D");
       TrainData.labels :=
         TrainData.targets_of (mkMatch (Some 7) "Arsenal" "Chelsea" 0 0 "D") |}
    ∉ df_clean.
Proof.
  destruct (usable_training_rows 5 skewed_history 6
              {| TrainData.base := mkMatch (Some 7) "Arsenal" "Chelsea" 0 0 "D";
                 TrainData.rolling :=
                   TrainGlitch.current_stats 5
                     (TrainGlitch.tracking_after (take 6 skewed_history))
                     (mkMatch (Some 7) "Arsenal" "Chelsea" 0 0 "D");
                 TrainData.labels :=
                   TrainData.targets_of (mkMatch (Some 7) "Arsenal" "Chelsea" 0 0 "D") |}
              "Target_Goals")
    as (X & y & df_clean & Hprep & Hiff);
    [lia | set_solver | reflexivity |].
  exists X, y, df_clean. split; [exact Hprep|].
  intros Hin. apply Hiff in Hin as (_ & Haway & _).
  vm_compute in Haway. lia.
Defined.

(** ** The caches of the engine *)

(** Once [load_models] has returned a dictionary, every later call
    returns that dictionary and that configuration and leaves the globals
    as they are, whatever the files are by then; the same holds for the
    history frame of [load_historical_data]. *)
Theorem engine_caches_hit (files files' : EngineCache.Files) (c c' : EngineCache.Cache) :
  (forall d config,
     EngineCache.load_models files c = ((Some d, config), c') ->
     EngineCache.load_models files' c' = ((Some d, config), c')) /\
  (forall df,
     EngineCache.load_historical_data files c = (Some df, c') ->
     EngineCache.load_historical_data files' c' = (Some df, c')).
Proof.
  split.
  - intros d config. unfold EngineCache.load_models.
    destruct (EngineCache._models_cache c) as [m|] eqn:Em.
    + intros [= <- <- <-]. now rewrite Em.
    + destruct (EngineCache.features_json files); [|discriminate].
      destruct (EngineCache.model_win_pkl files); [|discriminate].
      destruct (EngineCache.model_goals_pkl files); [|discriminate].
      destruct (EngineCache.model_btts_pkl files); [|discriminate].
      intros [= <- <- <-]. reflexivity.
  - intros df. unfold EngineCache.load_historical_data.
    destruct (EngineCache._data_cache c) as [d|] eqn:Ed.
    + intros [= <- <-]. now rewrite Ed.
    + destruct (EngineCache.master_data_csv files); [|discriminate].
      intros [= <- <-]. reflexivity.
Qed.

Lemma engine_caches_hit_witness :
  exists d config c',
    EngineCache.load_models complete_files EngineCache.fresh = ((Some d, config), c') /\
    EngineCache.load_models missing_files c' = ((Some d, config), c').
Proof.
  eexists _, _, _. split; [reflexivity|].
  eapply (engine_caches_hit complete_files missing_files EngineCache.fresh).
  reflexivity.
Defined.

(** A load that fails because [features.json] is missing leaves the
    globals untouched, whatever model files exist: a later call that
    finds all four files loads them. *)
Theorem load_models_retry (files files' : EngineCache.Files) (c : EngineCache.Cache)
    (config : EngineCache.Config) (w : EngineCache.WinModel)
    (g b : EngineCache.BinModel) :
  EngineCache._models_cache c = None ->
  EngineCache.features_json files = None ->
  EngineCache.features_json files' = Some config ->
  EngineCache.model_win_pkl files' = Some w ->
  EngineCache.model_goals_pkl files' = Some g ->
  EngineCache.model_btts_pkl files' = Some b ->
  EngineCache.load_models files c = ((None, None), c) /\
  fst (EngineCache.load_models files' (snd (EngineCache.load_models files c)))
  = (Some {| EngineCache.win := Some w; EngineCache.goals := Some g;
             EngineCache.btts := Some b |}, Some config).
Proof.
  intros Hc Hf H1 H2 H3 H4.
  assert (Hfirst : EngineCache.load_models files c = ((None, None), c)).
  { unfold EngineCache.load_models. now rewrite Hc, Hf. }
  split; [exact Hfirst|]. rewrite Hfirst. cbn [snd].
  unfold EngineCache.load_models. now rewrite Hc, H1, H2, H3, H4.
Qed.

Lemma load_models_retry_witness :
  exists d,
    fst (EngineCache.load_models complete_files
           (snd (EngineCache.load_models missing_files EngineCache.fresh)))
    = (Some d, Some sample_config).
Proof.
  eexists.
  apply (load_models_retry missing_files complete_files EngineCache.fresh
           sample_config sample_win_model (fun _ => (2 # 5, 3 # 5))
           (fun _ => (1 # 2, 1 # 2))); reflexivity.
Defined.

(** A load that finds [features.json] but misses a model file returns
    (None, None), so that call falls back to the heuristic, but it leaves
    the partly filled dictionary in the globals: every later call of
    [load_models] returns that dictionary without looking at the files,
    and every later [predict_match_ml] raises a KeyError instead of
    falling back or loading the models, whatever the files are by then. *)
Theorem partial_load_stays_cached (files : EngineCache.Files) (c : EngineCache.Cache)
    (config : EngineCache.Config) (home_team away_team : string) :
  EngineCache._models_cache c = None ->
  EngineCache.features_json files = Some config ->
  EngineCache.model_win_pkl files = None \/ EngineCache.model_goals_pkl files = None \/
  EngineCache.model_btts_pkl files = None ->
  fst (EngineCache.load_models files c) = (None, None) /\
  (exists r,
     fst (EngineCache.predict_match_ml files c home_team away_team) = Return r /\
     GlitchEngine.using_ml r = false) /\
  exists d,
    incomplete d /\
    EngineCache._models_cache (snd (EngineCache.load_models files c)) = Some d /\
    EngineCache._models_cache
      (snd (EngineCache.predict_match_ml files c home_team away_team)) = Some d /\
    forall (files' : EngineCache.Files) (c' : EngineCache.Cache) (home' away' : string),
      EngineCache._models_cache c' = Some d ->
      fst (EngineCache.load_models files' c') = (Some d, EngineCache._config_cache c') /\
      (fst (EngineCache.predict_match_ml files' c' home' away') = Raise "KeyError" \/
       fst (EngineCache.predict_match_ml files' c' home' away') = Raise "TypeError") /\
      EngineCache._models_cache
        (snd (EngineCache.predict_match_ml files' c' home' away')) = Some d.
Proof.
  intros Hc Hcfg Hmiss.
  assert (Hload : exists d,
            incomplete d /\
            EngineCache.load_models files c
            = ((None, None),
               {| EngineCache._models_cache := Some d;
                  EngineCache._config_cache := Some config;
                  EngineCache._data_cache := EngineCache._data_cache c |})).
  { unfold EngineCache.load_models, incomplete. rewrite Hc, Hcfg.
    destruct (EngineCache.model_win_pkl files) as [w|];
      [|eexists; split; [|reflexivity]; cbn; auto].
    destruct (EngineCache.model_goals_pkl files) as [g|];
      [|eexists; split; [|reflexivity]; cbn; auto].
    destruct (EngineCache.model_btts_pkl files) as [b|];
      [|eexists; split; [|reflexivity]; cbn; auto].
    exfalso. destruct Hmiss as [?|[?|?]]; discriminate. }
  destruct Hload as (d & Hinc & Hload).
  assert (Hlater : forall files' c',
            EngineCache._models_cache c' = Some d ->
            EngineCache.load_models files' c'
            = ((Some d, EngineCache._config_cache c'), c')).
  { intros files' c' Hc'. unfold EngineCache.load_models. now rewrite Hc'. }
  assert (Hdata : forall files' c',
            EngineCache._models_cache
              (snd (EngineCache.load_historical_data files' c'))
            = EngineCache._models_cache c').
  { intros files' c'. unfold EngineCache.load_historical_data.
    destruct (EngineCache._data_cache c'); [reflexivity|].
    destruct (EngineCache.master_data_csv files'); reflexivity. }
  split; [now rewrite Hload|]. split.
  - unfold EngineCache.predict_match_ml. rewrite Hload.
    destruct (EngineCache.load_historical_data files _) as [df c1].
    eexists. split; reflexivity.
  - exists d. split; [exact Hinc|]. split; [now rewrite Hload|]. split.
    + unfold EngineCache.predict_match_ml. rewrite Hload.
      pose proof (Hdata files
                    {| EngineCache._models_cache := Some d;
                       EngineCache._config_cache := Some config;
                       EngineCache._data_cache := EngineCache._data_cache c |}) as Hd.
      destruct (EngineCache.load_historical_data files _) as [df c1].
      cbn [snd] in Hd |- *. exact Hd.
    + intros files' c' home' away' Hc'. rewrite (Hlater files' c' Hc').
      split; [reflexivity|].
      unfold EngineCache.predict_match_ml. rewrite (Hlater files' c' Hc').
      pose proof (Hdata files' c') as Hd. rewrite Hc' in Hd.
      destruct (EngineCache.load_historical_data files' c') as [df c1].
      cbn [snd] in Hd.
      destruct (EngineCache._config_cache c') as [cfg|]; [|split; [right|]; auto].
      unfold incomplete in Hinc.
      destruct (EngineCache.win d), (EngineCache.goals d), (EngineCache.btts d);
        try (split; [left; reflexivity | exact Hd]).
      exfalso. destruct Hinc as [?|[?|?]]; discriminate.
Qed.

Lemma partial_load_stays_cached_witness :
  (exists r,
     fst (EngineCache.predict_match_ml partial_files EngineCache.fresh "Arsenal" "Chelsea")
       = Return r /\ GlitchEngine.using_ml r = false) /\
  fst (EngineCache.predict_match_ml complete_files
         (snd (EngineCache.predict_match_ml partial_files EngineCache.fresh
                 "Arsenal" "Chelsea"))
         "Arsenal" "Chelsea")
  = Raise "KeyError".
Proof.
  destruct (partial_load_stays_cached partial_files EngineCache.fresh sample_config
              "Arsenal" "Chelsea" eq_refl eq_refl (or_intror (or_introl eq_refl)))
    as (_ & Hfirst & _).
  split; [exact Hfirst | reflexivity].
Defined.

(** ** The two copies of get_team_stats *)

Lemma venue_windows (df : DataFrame) team (is_home : bool) n :
  GlitchEngine.venue_games df team is_home n
  = (if (Py.len (Py.tail n (venue_rows team is_home df)) <? 3)
     then Py.tail n (team_rows team df)
     else Py.tail n (venue_rows team is_home df)) /\
  PredictGlitch.venue_games df team is_home n
  = (if (Py.len (Py.tail n (venue_rows team is_home df)) <? Z.of_nat n)
     then Py.tail n (team_rows team df)
     else Py.tail n (venue_rows team is_home df)).
Proof.
  unfold GlitchEngine.venue_games, PredictGlitch.venue_games, venue_rows.
  destruct is_home; split; reflexivity.
Qed.

Lemma venue_rows_cover (df : DataFrame) team (is_home : bool) :
  (length (venue_rows team is_home df) <= length (team_rows team df))%nat.
Proof.
  destruct (team_rows_cover team df) as [Hh Ha].
  unfold venue_rows. destruct is_home; assumption.
Qed.

Lemma windows_empty_together (df : DataFrame) team (is_home : bool) n :
  (Py.len (GlitchEngine.venue_games df team is_home n) =? 0)
  = (Py.len (PredictGlitch.venue_games df team is_home n) =? 0).
Proof.
  destruct (venue_windows df team is_home n) as [-> ->].
  pose proof (venue_rows_cover df team is_home) as Hc.
  pose proof (tail_length_min n (venue_rows team is_home df)) as Hv.
  pose proof (tail_length_min n (team_rows team df)) as Ht.
  unfold Py.len in *.
  repeat match goal with
         | |- context [Z.ltb ?a ?b] => destruct (Z.ltb_spec a b)
         end;
  repeat match goal with
         | |- context [Z.eqb ?a ?b] => destruct (Z.eqb_spec a b)
         end; try reflexivity; lia.
Qed.


(** The two copies of [get_team_stats] always return the same goal
    averages and BTTS rate. From a window size of 3 on, they return the
    same dictionary when the team has fewer than 3 or at least [n_games]
    rows at the venue; with 3 to [n_games] - 1 venue rows the engine sums
    the form over the venue rows and [predict_glitch] over the last
    [n_games] rows of the team at any venue. *)
Theorem team_stats_copies (df : DataFrame) (team : string) (is_home : bool)
    (n_games : nat) :
  let e := GlitchEngine.get_team_stats (Some df) team is_home n_games in
  let p := PredictGlitch.get_team_stats df team is_home n_games in
  let venue := venue_rows team is_home df in
  (avg_goals e = avg_goals p /\ avg_conceded e = avg_conceded p /\
   btts_rate e = btts_rate p) /\
  ((3 <= n_games)%nat ->
   (length venue < 3)%nat \/ (n_games <= length venue)%nat -> e = p) /\
  ((3 <= length venue)%nat -> (length venue < n_games)%nat ->
   form e = form_points team venue /\
   form p = form_points team (Py.tail n_games (team_rows team df))).
Proof.
  cbn zeta. unfold GlitchEngine.get_team_stats, PredictGlitch.get_team_stats.
  pose proof (windows_empty_together df team is_home n_games) as Hempty.
  destruct (venue_windows df team is_home n_games) as [He Hp].
  pose proof (venue_rows_cover df team is_home) as Hc.
  pose proof (tail_length_min n_games (venue_rows team is_home df)) as Hv.
  pose proof (tail_length_min n_games (team_rows team df)) as Ht.
  split; [|split].
  - unfold stats_of_window. rewrite Hempty.
    destruct (Py.len (PredictGlitch.venue_games df team is_home n_games) =? 0);
      [auto|].
    destruct (venue_goal_stats df team is_home n_games) as [[a b] c]. auto.
  - intros Hn Hlen. f_equal. rewrite He, Hp. unfold Py.len.
    destruct (Z.ltb_spec (Z.of_nat (length (Py.tail n_games (venue_rows team is_home df)))) 3),
             (Z.ltb_spec (Z.of_nat (length (Py.tail n_games (venue_rows team is_home df))))
                (Z.of_nat n_games)); try reflexivity; lia.
  - intros H3 Hlt.
    assert (Hall : Py.tail n_games (venue_rows team is_home df)
                   = venue_rows team is_home df).
    { unfold Py.tail.
      replace (length (venue_rows team is_home df) - n_games)%nat with 0%nat by lia.
      reflexivity. }
    split.
    + rewrite He, Hall. unfold Py.len.
      destruct (Z.ltb_spec (Z.of_nat (length (venue_rows team is_home df))) 3); [lia|].
      apply stats_of_window_form. intros E. rewrite E in H3. cbn in H3. lia.
    + rewrite Hp, Hall. unfold Py.len.
      destruct (Z.ltb_spec (Z.of_nat (length (venue_rows team is_home df)))
                  (Z.of_nat n_games)); [|lia].
      apply stats_of_window_form. intros E. rewrite E in Ht. cbn in Ht. lia.
Qed.

Lemma team_stats_copies_witness :
  form (GlitchEngine.get_team_stats (Some short_venue_history) "Arsenal" true 5) = 0 /\
  form (PredictGlitch.get_team_stats short_venue_history "Arsenal" true 5) = 6.
Proof.
  destruct (team_stats_copies short_venue_history "Arsenal" true 5) as (_ & _ & Hform).
  destruct Hform as [He Hp]; [vm_compute; lia | vm_compute; lia |].
  rewrite He, Hp. split; reflexivity.
Defined.

(** ** The match buttons of the bot *)

Lemma letter_not_underscore c : Bot.is_letter c = true -> Ascii.eqb c "_" = false.
Proof.
  intros Hc. destruct (Ascii.eqb_spec c "_") as [->|]; [discriminate Hc | reflexivity].
Qed.

Lemma sub_non_letters_letters s : all_letters (Bot.sub_non_letters s) = true.
Proof.
  induction s as [|c s IH]; [reflexivity|]. cbn.
  destruct (Bot.is_letter c) eqn:Hc; [|exact IH].
  cbn. now rewrite Hc.
Qed.

Lemma substring_letters n s :
  all_letters s = true -> all_letters (String.substring 0 n s) = true.
Proof.
  revert s. induction n as [|n IH]; intros [|c s]; cbn; try reflexivity.
  intros [Hc Hs]%andb_prop. rewrite Hc. cbn. now apply IH.
Qed.

Lemma substring_length n s : (String.length (String.substring 0 n s) <= n)%nat.
Proof.
  revert s. induction n as [|n IH]; intros [|c s]; cbn; try lia.
  specialize (IH s). lia.
Qed.

Lemma substring_short n s :
  (String.length s <= n)%nat -> String.substring 0 n s = s.
Proof.
  revert s. induction n as [|n IH]; intros [|c s]; cbn; try reflexivity; try lia.
  intros Hl. f_equal. apply IH. lia.
Qed.

Lemma sub_non_letters_id s : all_letters s = true -> Bot.sub_non_letters s = s.
Proof.
  induction s as [|c s IH]; [reflexivity|]. cbn.
  intros [Hc Hs]%andb_prop. rewrite Hc. f_equal. now apply IH.
Qed.

Lemma clean_letters s : all_letters (Bot.clean s) = true.
Proof. apply substring_letters, sub_non_letters_letters. Qed.

Lemma clean_length s : (String.length (Bot.clean s) <= 12)%nat.
Proof. apply substring_length. Qed.

Lemma split_letters a : all_letters a = true -> Bot.split "_" a = [a].
Proof.
  induction a as [|c a IH]; [reflexivity|]. cbn [all_letters Bot.split].
  intros [Hc Ha]%andb_prop. rewrite (letter_not_underscore c Hc), (IH Ha). reflexivity.
Qed.

Lemma split_app a rest :
  all_letters a = true ->
  Bot.split "_" (a +:+ String "_" rest) = a :: Bot.split "_" rest.
Proof.
  induction a as [|c a IH]; [reflexivity|]. cbn [all_letters].
  intros [Hc Ha]%andb_prop.
  change (String c a +:+ String "_" rest) with (String c (a +:+ String "_" rest)).
  cbn [Bot.split]. rewrite (letter_not_underscore c Hc), (IH Ha). reflexivity.
Qed.

Lemma append_length a b :
  String.length (a +:+ b) = (String.length a + String.length b)%nat.
Proof.
  induction a as [|c a IH]; [reflexivity|].
  change (S (String.length (a +:+ b)) = S (String.length a + String.length b)).
  now f_equal.
Qed.

Lemma callback_dispatch int (f : Bot.Fixture) :
  Bot.button_callback int (Bot.callback f)
  = Return (Bot.ShowPrediction (Bot.clean (Bot.home_team f))
                               (Bot.clean (Bot.away_team f))).
Proof.
  unfold Bot.callback, Bot.button_callback.
  set (h := Bot.clean (Bot.home_team f)). set (a := Bot.clean (Bot.away_team f)).
  change ("p_" +:+ h +:+ "_" +:+ a) with (String "p" (String "_" (h +:+ String "_" a))).
  assert (Hsplit : Bot.split "_" (String "p" (String "_" (h +:+ String "_" a)))
                   = ["p"; h; a]).
  { change (Bot.split "_" (String "p" (String "_" (h +:+ String "_" a))))
      with ("p" :: Bot.split "_" (h +:+ String "_" a)).
    rewrite split_app by apply clean_letters.
    rewrite split_letters by apply clean_letters. reflexivity. }
  rewrite Hsplit. clearbody h a. clear Hsplit.
  generalize (h +:+ String "_" a). intros x.
  assert (Hl : String.prefix "league_" (String "p" (String "_" x)) = false)
    by reflexivity.
  assert (Hp : String.prefix "p_" (String "p" (String "_" x)) = true)
    by (destruct x; reflexivity).
  now rewrite Hl, Hp.
Qed.

(** Every button of the keyboard that [show_fixtures] sends is understood
    by [button_callback]: the last one opens the menu, and the button of a
    fixture asks for the prediction of exactly the two cleaned team names
    of that fixture, whatever characters the names contain. No callback
    string is longer than 27 characters, and there are at most 13
    buttons. *)
Theorem match_buttons_dispatch (int : string -> Outcome Z)
    (fixtures : list Bot.Fixture) (data : string) :
  data ∈ Bot.show_fixtures fixtures ->
  (length (Bot.show_fixtures fixtures) <= 13)%nat /\
  (String.length data <= 27)%nat /\
  ((data = "back_menu" /\ Bot.button_callback int data = Return Bot.ShowMainMenu) \/
   (exists fixture,
      fixture ∈ take 12 fixtures /\
      data = Bot.callback fixture /\
      Bot.button_callback int data
      = Return (Bot.ShowPrediction (Bot.clean (Bot.home_team fixture))
                                   (Bot.clean (Bot.away_team fixture))))).
Proof.
  unfold Bot.show_fixtures. intros Hin. split.
  { rewrite length_app, length_fmap, length_take. cbn [length]. lia. }
  apply elem_of_app in Hin as [Hin|Hin].
  - apply list_elem_of_fmap in Hin as (fixture & -> & Hf). split.
    + unfold Bot.callback. rewrite !append_length.
      pose proof (clean_length (Bot.home_team fixture)).
      pose proof (clean_length (Bot.away_team fixture)). cbn. lia.
    + right. exists fixture. split; [exact Hf|]. split; [reflexivity|].
      apply callback_dispatch.
  - apply list_elem_of_singleton in Hin as ->. split; [cbn; lia|].
    left. split; reflexivity.
Qed.

Lemma match_buttons_dispatch_witness :
  "p_ManCity_AstonVilla" ∈ Bot.show_fixtures sample_fixtures /\
  exists fixture,
    fixture ∈ sample_fixtures /\
    Bot.button_callback (fun _ => Raise "ValueError") "p_ManCity_AstonVilla"
    = Return (Bot.ShowPrediction (Bot.clean (Bot.home_team fixture))
                                 (Bot.clean (Bot.away_team fixture))).
Proof.
  assert (Hin : "p_ManCity_AstonVilla" ∈ Bot.show_fixtures sample_fixtures).
  { vm_compute. right. left. }
  split; [exact Hin|].
  destruct (match_buttons_dispatch (fun _ => Raise "ValueError") sample_fixtures
              "p_ManCity_AstonVilla" Hin)
    as (_ & _ & [[Hback _] | (fixture & Hf & _ & Hd)]).
  - discriminate Hback.
  - exists fixture. split; [exact Hf | exact Hd].
Defined.

(** Cleaning a team name for a button leaves it unchanged exactly when
    the name consists of at most 12 letters: a name with a space, a dot,
    an apostrophe or an accent, or a longer one, reaches the predictor
    altered. *)
Theorem clean_name_unchanged_iff (name : string) :
  Bot.clean name = name <->
  all_letters name = true /\ (String.length name <= 12)%nat.
Proof.
  split.
  - intros H. split; rewrite <- H; [apply clean_letters | apply clean_length].
  - intros [Hl Hn]. unfold Bot.clean.
    rewrite (sub_non_letters_id name Hl). now apply substring_short.
Qed.

Lemma cleaned_table_names_unresolved name :
  name ∈ team_id_names ->
  Bot.clean name <> name ->
  Scout.get_team_id name <> None /\ Scout.get_team_id (Bot.clean name) = None.
Proof.
  assert (H : Forall (fun name =>
                        Bot.clean name <> name ->
                        Scout.get_team_id name <> None /\
                        Scout.get_team_id (Bot.clean name) = None)
                     team_id_names).
  { let l := eval vm_compute in team_id_names in change team_id_names with l.
    repeat (constructor;
            [first [ intros Hne; exfalso; apply Hne; vm_compute; reflexivity
                   | intros _; split;
                     [vm_compute; discriminate | vm_compute; reflexivity] ] |]).
    constructor. }
  intros Hin. exact (proj1 (Forall_forall _ _) H name Hin).
Qed.

(** A team of the table [TEAM_IDS] whose name is changed by the cleaning
    of the match buttons (a name of two words, such as Man City or West
    Ham) has a team id under its own name and none under the cleaned
    name; when both teams of a fixture are such teams, the prediction
    started from the button of the fixture is never skipped by the squad
    check, whatever the injury API reports. *)
Theorem button_misses_squad_gate (w : World) (fixture : Bot.Fixture) :
  Bot.home_team fixture ∈ team_id_names ->
  Bot.away_team fixture ∈ team_id_names ->
  Bot.clean (Bot.home_team fixture) <> Bot.home_team fixture ->
  Bot.clean (Bot.away_team fixture) <> Bot.away_team fixture ->
  Scout.get_team_id (Bot.home_team fixture) <> None /\
  Scout.get_team_id (Bot.away_team fixture) <> None /\
  Scout.get_team_id (Bot.clean (Bot.home_team fixture)) = None /\
  Scout.get_team_id (Bot.clean (Bot.away_team fixture)) = None /\
  forall int home away,
    Bot.button_callback int (Bot.callback fixture)
    = Return (Bot.ShowPrediction home away) ->
    forall s, Bot.show_prediction w home away <> Return (PredictGlitch.Skipped s).
Proof.
  intros Hh Ha Hhc Hac.
  destruct (cleaned_table_names_unresolved _ Hh Hhc) as [Hh1 Hh2].
  destruct (cleaned_table_names_unresolved _ Ha Hac) as [Ha1 Ha2].
  repeat (split; [assumption|]).
  intros int home away Hcb s. rewrite callback_dispatch in Hcb.
  injection Hcb as <- <-.
  unfold Bot.show_prediction, PredictGlitch.predict_all_markets.
  destruct (load_models w) as [models|]; [|discriminate].
  destruct (load_historical_data w) as [df|]; [|discriminate].
  rewrite Hh2, Ha2.
  destruct (scout w); cbn; destruct (prepare_features _ _ _); discriminate.
Qed.

Lemma button_misses_squad_gate_witness :
  Scout.get_team_id "Man City" <> None /\
  Scout.get_team_id (Bot.clean "Man City") = None /\
  forall s,
    Bot.show_prediction gate_world "ManCity" "AstonVilla"
    <> Return (PredictGlitch.Skipped s).
Proof.
  destruct (button_misses_squad_gate gate_world
              (Bot.mkFixture "Man City" "Aston Villa" "2026-01-11" "16:30"))
    as (Hid & _ & Hclean & _ & Hskip).
  - vm_compute. set_solver.
  - vm_compute. set_solver.
  - vm_compute. discriminate.
  - vm_compute. discriminate.
  - split; [exact Hid|]. split; [exact Hclean|].
    apply (Hskip (fun _ => Raise "ValueError")). reflexivity.
Defined.
